(** * Order saga, payment simulator and audit consumer

    A shallow embedding of the order-processing flow of the e-commerce
    microservices repository:

    - [OrderService]: the order controller ([createOrder], [cancelOrder],
      [updateOrderStatus]), the Order model's [save], and the HTTP clients of
      the customer, product and payment services;
    - [PaymentService]: the request validation of the payment route, the
      payment controller ([processPayment], [simulatePaymentProcessing]),
      the Payment model's [save] and the queue publisher;
    - [TransactionWorker]: the queue consumer ([processMessage],
      [validateTransactionMessage]) and the TransactionHistory collection,
      for deliveries handled while the consumer holds its channel;
    - [RabbitMQConsumer]: the consumer object with its connection, channel
      and [isConsuming] fields ([connect], [startConsuming], [close]), and
      [processMessage] on the channel the object holds when it settles.

    Handlers are written in a state-and-exception monad over a [World] that
    holds the three collections, the queue and a log of the externally
    visible effects, in the order the code performs them.  Everything the
    code does not decide (replies of the customer and product services, the
    clock, [Math.random] draws, the state of the link to the payment
    service, the state of the RabbitMQ channel) is an explicit argument.

    Modelling conventions.
    - A request handler runs to completion before the next one starts.
      The one interleaving that is modelled is a [close] of the consumer
      while a delivery is being handled.
    - A collection raises on [save] exactly where the schema says so:
      validators and unique indexes.  An outage of MongoDB is not modelled.
    - [save] on a stored document writes it, with a new [updatedAt], when
      a path was modified; on an unmodified document it writes nothing.
    - A JavaScript number is [NaN], an infinity, or a finite rational;
      every comparison the code makes is against a finite constant.
    - Strings are sequences of 8-bit characters. *)

From Stdlib Require Import String Ascii List Bool Arith NArith ZArith QArith Lia.
From Stdlib Require Import DecimalString.
Import ListNotations.
Local Close Scope Q_scope.
Local Open Scope nat_scope.
Local Open Scope list_scope.
Local Open Scope string_scope.

(* ================================================================== *)
(** ** JavaScript values *)
(* ================================================================== *)

Module JS.

(** A JavaScript [number]. *)
Inductive number : Type :=
| NaN
| PosInf
| NegInf
| Fin (q : Q).

(** [a <= b] *)
Definition leb (a b : number) : bool :=
  match a, b with
  | NaN, _ | _, NaN => false
  | Fin x, Fin y => Qle_bool x y
  | NegInf, _ => true
  | _, PosInf => true
  | _, _ => false
  end.

(** [a < b] *)
Definition ltb (a b : number) : bool :=
  match a, b with
  | NaN, _ | _, NaN => false
  | Fin x, Fin y => negb (Qle_bool y x)
  | NegInf, NegInf => false
  | NegInf, _ => true
  | PosInf, _ => false
  | Fin _, PosInf => true
  | Fin _, NegInf => false
  end.

(** [a > b] and [a >= b] *)
Definition gtb (a b : number) : bool := ltb b a.
Definition geb (a b : number) : bool := leb b a.

Definition isFinite (a : number) : bool :=
  match a with Fin _ => true | _ => false end.

(** The values a JSON request field can hold once parsed. *)
Inductive value : Type :=
| Undefined
| Null
| Bool (b : bool)
| Num (n : number)
| Str (s : string)
| Obj.

(** Truthiness, as used by [!v] and [v || d]. *)
Definition truthy (v : value) : bool :=
  match v with
  | Undefined | Null => false
  | Bool b => b
  | Num NaN => false
  | Num (Fin q) => negb (Qeq_bool q 0)
  | Num _ => true
  | Str s => negb (s =? "")
  | Obj => true
  end.

(** White space removed by [String.prototype.trim], in the 8-bit range. *)
Definition isWhiteSpace (c : ascii) : bool :=
  let n := nat_of_ascii c in
  ((9 <=? n)%nat && (n <=? 13)%nat) || (n =? 32)%nat || (n =? 160)%nat.

Fixpoint trimStart (s : string) : string :=
  match s with
  | EmptyString => EmptyString
  | String c r => if isWhiteSpace c then trimStart r else s
  end.

Definition reverse (s : string) : string :=
  string_of_list_ascii (rev (list_ascii_of_string s)).

Definition trimEnd (s : string) : string := reverse (trimStart (reverse s)).

Definition trim (s : string) : string := trimEnd (trimStart s).

(** [o || d] on an optional string: [undefined] and [''] are falsy. *)
Definition orDefault (o : option string) (d : string) : string :=
  match o with
  | Some s => if s =? "" then d else s
  | None => d
  end.

(** [n || d] on an optional status code: [undefined] and [0] are falsy. *)
Definition orStatus (o : option nat) (d : nat) : nat :=
  match o with
  | Some O | None => d
  | Some n => n
  end.

(** [s.includes(t)] *)
Fixpoint includes (t s : string) : bool :=
  prefix t s ||
  match s with
  | EmptyString => false
  | String _ r => includes t r
  end.

(** [`${n}`] for a non-negative integer. *)
Definition decimal (n : N) : string := NilEmpty.string_of_uint (N.to_uint n).

Definition digit36 (d : N) : ascii :=
  if (d <? 10)%N then ascii_of_N (48 + d) else ascii_of_N (87 + d).

Fixpoint base36_digits (fuel : nat) (n : N) (acc : string) : string :=
  match fuel with
  | O => acc
  | S fuel' =>
      let acc' := String (digit36 (n mod 36)) acc in
      if (n / 36 =? 0)%N then acc' else base36_digits fuel' (n / 36) acc'
  end.

(** [n.toString(36)] for a non-negative integer. *)
Definition toString36 (n : N) : string :=
  base36_digits (S (N.size_nat n)) n "".

(** [JSON.stringify] writes [null] for [NaN] and the infinities; a finite
    number is read back unchanged. *)
Definition jsonNumber (n : number) : option number :=
  match n with
  | Fin q => Some (Fin q)
  | _ => None
  end.

End JS.

(* ================================================================== *)
(** ** Data model *)
(* ================================================================== *)

Module OrderStatus.
Inductive t : Type :=
| PENDING | CONFIRMED | PROCESSING | SHIPPED | DELIVERED | CANCELLED.

Definition eqb (a b : t) : bool :=
  match a, b with
  | PENDING, PENDING | CONFIRMED, CONFIRMED | PROCESSING, PROCESSING
  | SHIPPED, SHIPPED | DELIVERED, DELIVERED | CANCELLED, CANCELLED => true
  | _, _ => false
  end.
End OrderStatus.

Module PaymentStatus.
Inductive t : Type :=
| PENDING | PROCESSING | COMPLETED | FAILED | REFUNDED.
End PaymentStatus.

Record ShippingAddress : Type := {
  street : option string;
  city : option string;
  state : option string;
  zipCode : option string;
  country : option string
}.

(** A stored Order document.  [orderDate] and [paymentStatus] are not paths
    of the schema and are never stored. *)
Module Order.
Record t : Type := {
  _id : nat;
  orderId : string;
  customerId : string;
  productId : string;
  amount : JS.number;
  orderStatus : OrderStatus.t;
  shippingAddress : option ShippingAddress;
  createdAt : N;
  updatedAt : N
}.

Definition setStatus (st : OrderStatus.t) (o : t) : t :=
  {| _id := _id o; orderId := orderId o; customerId := customerId o;
     productId := productId o; amount := amount o; orderStatus := st;
     shippingAddress := shippingAddress o; createdAt := createdAt o;
     updatedAt := updatedAt o |}.

Definition setUpdatedAt (now : N) (o : t) : t :=
  {| _id := _id o; orderId := orderId o; customerId := customerId o;
     productId := productId o; amount := amount o;
     orderStatus := orderStatus o; shippingAddress := shippingAddress o;
     createdAt := createdAt o; updatedAt := now |}.
End Order.

(** A stored Payment document. *)
Module Payment.
Record t : Type := {
  _id : nat;
  paymentId : string;
  customerId : string;
  orderId : string;
  productId : string;
  amount : JS.number;
  status : PaymentStatus.t;
  paymentMethod : string;
  transactionId : option string;
  createdAt : N;
  updatedAt : N
}.

Definition setStatus (st : PaymentStatus.t) (p : t) : t :=
  {| _id := _id p; paymentId := paymentId p; customerId := customerId p;
     orderId := orderId p; productId := productId p; amount := amount p;
     status := st; paymentMethod := paymentMethod p;
     transactionId := transactionId p; createdAt := createdAt p;
     updatedAt := updatedAt p |}.

Definition setTransactionId (tx : option string) (p : t) : t :=
  {| _id := _id p; paymentId := paymentId p; customerId := customerId p;
     orderId := orderId p; productId := productId p; amount := amount p;
     status := status p; paymentMethod := paymentMethod p;
     transactionId := tx; createdAt := createdAt p;
     updatedAt := updatedAt p |}.

Definition setUpdatedAt (now : N) (p : t) : t :=
  {| _id := _id p; paymentId := paymentId p; customerId := customerId p;
     orderId := orderId p; productId := productId p; amount := amount p;
     status := status p; paymentMethod := paymentMethod p;
     transactionId := transactionId p; createdAt := createdAt p;
     updatedAt := now |}.
End Payment.

(** The JSON body of [POST /api/payments]. *)
Module PaymentRequest.
Record t : Type := {
  customerId : option string;
  orderId : option string;
  productId : option string;
  amount : option JS.number;
  paymentMethod : option string
}.
End PaymentRequest.

(** The message written to [transaction_queue]. *)
Module TransactionMessage.
Record t : Type := {
  customerId : string;
  orderId : string;
  productId : option string;
  amount : JS.number;
  transactionId : string;
  timestamp : N
}.
End TransactionMessage.

(** The envelope every service answers with, and its HTTP status. *)
Record ApiResponse (T : Type) : Type := {
  api_success : bool;
  api_data : option T;
  api_message : option string;
  api_error : option string
}.
Arguments api_success {T} _.
Arguments api_data {T} _.
Arguments api_message {T} _.
Arguments api_error {T} _.

Record HttpResponse (T : Type) : Type := {
  http_status : nat;
  http_body : ApiResponse T
}.
Arguments http_status {T} _.
Arguments http_body {T} _.

(** What a service client hands back to the controller. *)
Record ServiceResponse (T : Type) : Type := {
  success : bool;
  data : option T;
  error : option string;
  statusCode : option nat
}.
Arguments success {T} _.
Arguments data {T} _.
Arguments error {T} _.
Arguments statusCode {T} _.

(** What an axios call ends in: a response of the peer (axios resolves on a
    2xx status and rejects with [error.response] otherwise), or no response
    at all, with [error.code]. *)
Inductive AxiosOutcome (T : Type) : Type :=
| AxResponse (r : HttpResponse T)
| AxNoResponse (code : option string).
Arguments AxResponse {T} _.
Arguments AxNoResponse {T} _.

Definition validateStatus (st : nat) : bool := (200 <=? st)%nat && (st <? 300)%nat.

(* ================================================================== *)
(** ** The world and the handler monad *)
(* ================================================================== *)

(** Externally visible effects, logged in program order. *)
Inductive Event : Type :=
| HttpGetCustomer (customerId : string)
| HttpGetProduct (productId : string)
| HttpPostPayment (body : PaymentRequest.t)
| HttpPatchStock (productId : string) (quantity : nat)
| OrderInserted (o : Order.t)
| OrderUpdated (o : Order.t)
| PaymentInserted (p : Payment.t)
| PaymentUpdated (p : Payment.t)
| GatewaySimulated (paymentId : string)
| PublishAttempted (transactionId : string).

(** [collection.push(x)] *)
Definition snoc {A : Type} (x : A) (l : list A) : list A := l ++ [x].

Record World : Type := {
  orders : list Order.t;
  nextOrderOid : nat;
  payments : list Payment.t;
  nextPaymentOid : nat;
  queue : list TransactionMessage.t;
  trace : list Event
}.

Definition emptyWorld : World :=
  {| orders := []; nextOrderOid := 0; payments := []; nextPaymentOid := 0;
     queue := []; trace := [] |}.

Definition withOrders (f : list Order.t -> list Order.t) (bump : nat) (w : World) : World :=
  {| orders := f (orders w); nextOrderOid := bump + nextOrderOid w;
     payments := payments w; nextPaymentOid := nextPaymentOid w;
     queue := queue w; trace := trace w |}.

Definition withPayments (f : list Payment.t -> list Payment.t) (bump : nat) (w : World) : World :=
  {| orders := orders w; nextOrderOid := nextOrderOid w;
     payments := f (payments w); nextPaymentOid := bump + nextPaymentOid w;
     queue := queue w; trace := trace w |}.

Definition withQueue (f : list TransactionMessage.t -> list TransactionMessage.t) (w : World) : World :=
  {| orders := orders w; nextOrderOid := nextOrderOid w;
     payments := payments w; nextPaymentOid := nextPaymentOid w;
     queue := f (queue w); trace := trace w |}.

Definition logged (e : Event) (w : World) : World :=
  {| orders := orders w; nextOrderOid := nextOrderOid w;
     payments := payments w; nextPaymentOid := nextPaymentOid w;
     queue := queue w; trace := snoc e (trace w) |}.

(** A computation either returns or throws; the state it leaves behind is
    kept in both cases (a write made before a [throw] is not undone). *)
Inductive result (A : Type) : Type :=
| Ok (a : A)
| Throw (message : string).
Arguments Ok {A} _.
Arguments Throw {A} _.

Definition M (S A : Type) : Type := S -> result A * S.

Definition ret {S A : Type} (a : A) : M S A := fun s => (Ok a, s).

Definition bind {S A B : Type} (m : M S A) (k : A -> M S B) : M S B :=
  fun s =>
    match m s with
    | (Ok a, s') => k a s'
    | (Throw e, s') => (Throw e, s')
    end.

Definition throw {S A : Type} (e : string) : M S A := fun s => (Throw e, s).

Definition get {S : Type} : M S S := fun s => (Ok s, s).

Definition modify {S : Type} (f : S -> S) : M S unit := fun s => (Ok tt, f s).

(** [try { m } catch (error) { h error }] around a whole handler body. *)
Definition tryCatch {S A : Type} (m : M S A) (h : string -> S -> A * S) : S -> A * S :=
  fun s =>
    match m s with
    | (Ok a, s') => (a, s')
    | (Throw e, s') => h e s'
    end.

(** An effect performed inside a [catch] block, which cannot throw. *)
Definition exec {S : Type} (m : M S unit) : S -> unit * S :=
  fun s => (tt, snd (m s)).

Declare Scope monad_scope.
Delimit Scope monad_scope with monad.
Notation "x <- c1 ;; c2" := (bind c1 (fun x => c2))
  (at level 61, c1 at next level, right associativity) : monad_scope.
Notation "c1 ;; c2" := (bind c1 (fun _ => c2))
  (at level 61, right associativity) : monad_scope.
Local Open Scope monad_scope.

Definition emit (e : Event) : M World unit := modify (logged e).

(** The collection after [doc] has been written over the stored document
    with its [_id] (an update by [_id]). *)
Definition replacePayment (doc : Payment.t) (stored : list Payment.t) : list Payment.t :=
  map (fun q => if (Payment._id q =? Payment._id doc)%nat then doc else q) stored.

Definition replaceOrder (doc : Order.t) (stored : list Order.t) : list Order.t :=
  map (fun o => if (Order._id o =? Order._id doc)%nat then doc else o) stored.

(* ================================================================== *)
(** ** Utilities shared by the services ([utils/index.ts]) *)
(* ================================================================== *)

Definition createApiResponse {T : Type} (success : bool) (data : option T)
    (message error : option string) : ApiResponse T :=
  {| api_success := success; api_data := data; api_message := message;
     api_error := error |}.

Definition createServiceResponse {T : Type} (success : bool) (data : option T)
    (error : option string) (statusCode : option nat) : ServiceResponse T :=
  {| success := success; data := data; error := error;
     statusCode := statusCode |}.

Record ValidationError : Type := {
  field : string;
  message : string
}.

Record ValidationResult : Type := {
  isValid : bool;
  errors : list ValidationError
}.

(** [!data[field] || (typeof data[field] === 'string' && data[field].trim() === '')] *)
Definition fieldMissing (v : JS.value) : bool :=
  negb (JS.truthy v) ||
  match v with
  | JS.Str s => JS.trim s =? ""
  | _ => false
  end.

Fixpoint requiredErrors (data : string -> JS.value) (requiredFields : list string)
    : list ValidationError :=
  match requiredFields with
  | [] => []
  | field :: rest =>
      if fieldMissing (data field)
      then {| field := field; message := field ++ " is required" |}
           :: requiredErrors data rest
      else requiredErrors data rest
  end.

Definition validateRequiredFields (data : string -> JS.value)
    (requiredFields : list string) : ValidationResult :=
  let errors := requiredErrors data requiredFields in
  {| isValid := (length errors =? 0)%nat; errors := errors |}.

(** [errors.map(e => e.message).join(', ')] *)
Definition joinMessages (errors : list ValidationError) : string :=
  String.concat ", " (map message errors).

(* ================================================================== *)
(** ** Schema validators of the models *)
(* ================================================================== *)

Module Mongoose.

(** [required: true] on a [String] path: the value, unless it is absent
    or the empty string. *)
Definition requiredString (v : option string) : option string :=
  match v with
  | Some s => if s =? "" then None else Some s
  | None => None
  end.

(** [maxlength: n] on a [String] path. *)
Definition maxlength (n : nat) (v : option string) : bool :=
  match v with
  | Some s => (String.length s <=? n)%nat
  | None => true
  end.

End Mongoose.

(* ================================================================== *)
(** ** Payment service *)
(* ================================================================== *)

Module PaymentService.

(** The RabbitMQ channel at the time of a publish: not initialised, or
    up, with what [sendToQueue] returns. *)
Inductive Channel : Type :=
| ChannelDown
| ChannelUp (sendToQueue : bool).

(** What one charge reads from outside the program. *)
Record Env : Type := {
  preSaveNow : N;          (* Date.now() in the pre-save hook *)
  preSaveRandom : string;  (* Math.random().toString(36).substr(2, 9), same hook *)
  insertedAt : N;          (* timestamps of the first save *)
  outcomeDraw : Q;         (* Math.random() compared with 0.05 *)
  reasonDraw : Q;          (* Math.random() compared with 0.5 *)
  txnNow : N;              (* Date.now() in the transaction identifier *)
  idRandom : string;       (* Math.random().toString(36).substr(2, 9) in generateId *)
  idNow : N;               (* Date.now() in generateId *)
  savedAt : N;             (* timestamp of the second save *)
  messageTime : N;         (* new Date() of the message *)
  publishedAt : N;         (* new Date().toISOString() in the publisher *)
  channel : Channel
}.

Record PaymentResponse : Type := {
  pr_success : bool;
  pr_paymentId : string;
  pr_transactionId : option string;
  pr_message : string
}.

(** *** [middleware/validation.ts] *)

Definition paymentMethods : list string :=
  ["credit_card"; "debit_card"; "paypal"; "bank_transfer"; "cash_on_delivery"].

(** [Joi.string().required()]: a string, and not the empty one. *)
Definition joiString (v : option string) : bool :=
  match v with
  | Some s => negb (s =? "")
  | None => false
  end.

Definition maxSafeInteger : Q := 9007199254740991 # 1.

(** [Joi.number().min(0.01).required()]: a number that is not [NaN], not
    infinite, within the safe-integer range, and at least 0.01. *)
Definition joiAmount (v : option JS.number) : bool :=
  match v with
  | Some (JS.Fin q) =>
      Qle_bool (1 # 100) q && Qle_bool q maxSafeInteger
  | _ => false
  end.

(** [Joi.string().valid(...).default('bank_transfer')] *)
Definition joiPaymentMethod (v : option string) : bool :=
  match v with
  | Some m => existsb (String.eqb m) paymentMethods
  | None => true
  end.

(** The keys of the body that [createPaymentSchema] refuses.  The wording
    of the library's messages is not reproduced. *)
Definition createPaymentSchema (body : PaymentRequest.t) : list string :=
  (if joiString (PaymentRequest.customerId body) then [] else ["customerId"]) ++
  (if joiString (PaymentRequest.orderId body) then [] else ["orderId"]) ++
  (if joiString (PaymentRequest.productId body) then [] else ["productId"]) ++
  (if joiAmount (PaymentRequest.amount body) then [] else ["amount"]) ++
  (if joiPaymentMethod (PaymentRequest.paymentMethod body) then [] else ["paymentMethod"]).

(** [validate(createPaymentSchema)]: [Some] response when the request is
    answered here, [None] for [next()]. *)
Definition validateCreatePayment (body : PaymentRequest.t)
    : option (HttpResponse PaymentResponse) :=
  match createPaymentSchema body with
  | [] => None
  | details =>
      Some {| http_status := 400;
              http_body := createApiResponse false None
                             (Some "Validation failed")
                             (Some (String.concat ", " details)) |}
  end.

(** *** [models/Payment.ts] *)

Definition transactionIdTaken (doc : Payment.t) (stored : list Payment.t) : bool :=
  match Payment.transactionId doc with
  | Some tx =>
      existsb (fun q =>
                 negb (Payment._id q =? Payment._id doc)%nat &&
                 match Payment.transactionId q with
                 | Some tx' => tx' =? tx
                 | None => false
                 end) stored
  | None => false
  end.

(** [new PaymentModel({...paymentData, status: PENDING, paymentDate}).save()]:
    schema validation, the pre-save hook that generates [paymentId], the
    timestamps, and the insert under the unique index on [paymentId]. *)
Definition insertPayment (env : Env) (paymentData : PaymentRequest.t)
    : M World Payment.t :=
  match Mongoose.requiredString (PaymentRequest.customerId paymentData),
        Mongoose.requiredString (PaymentRequest.orderId paymentData),
        Mongoose.requiredString (PaymentRequest.productId paymentData),
        PaymentRequest.amount paymentData with
  | Some customerId, Some orderId, Some productId, Some amount =>
      let paymentMethod :=
        match PaymentRequest.paymentMethod paymentData with
        | Some m => m
        | None => "bank_transfer"
        end in
      if JS.geb amount (JS.Fin 0) && existsb (String.eqb paymentMethod) paymentMethods
      then
        w <- get ;;
        let doc :=
          {| Payment._id := nextPaymentOid w;
             Payment.paymentId :=
               "PAY_" ++ JS.decimal (preSaveNow env) ++ "_" ++ preSaveRandom env;
             Payment.customerId := customerId;
             Payment.orderId := orderId;
             Payment.productId := productId;
             Payment.amount := amount;
             Payment.status := PaymentStatus.PENDING;
             Payment.paymentMethod := paymentMethod;
             Payment.transactionId := None;
             Payment.createdAt := insertedAt env;
             Payment.updatedAt := insertedAt env |} in
        if existsb (fun q => Payment.paymentId q =? Payment.paymentId doc) (payments w)
        then throw "E11000 duplicate key error"
        else
          modify (withPayments (snoc doc) 1) ;;
          emit (PaymentInserted doc) ;;
          ret doc
      else throw "Payment validation failed"
  | _, _, _, _ => throw "Payment validation failed"
  end.

(** [savedPayment.save()] on a stored document: the update by [_id], under
    the sparse unique index on [transactionId]. *)
Definition savePayment (env : Env) (doc : Payment.t) : M World Payment.t :=
  w <- get ;;
  if transactionIdTaken doc (payments w)
  then throw "E11000 duplicate key error"
  else
    let doc' := Payment.setUpdatedAt (savedAt env) doc in
    modify (withPayments (replacePayment doc') 0) ;;
    emit (PaymentUpdated doc') ;;
    ret doc'.

(** *** [services/rabbitmqService.ts] *)

Definition stamp (now : N) (m : TransactionMessage.t) : TransactionMessage.t :=
  {| TransactionMessage.customerId := TransactionMessage.customerId m;
     TransactionMessage.orderId := TransactionMessage.orderId m;
     TransactionMessage.productId := TransactionMessage.productId m;
     TransactionMessage.amount := TransactionMessage.amount m;
     TransactionMessage.transactionId := TransactionMessage.transactionId m;
     TransactionMessage.timestamp := now |}.

(** [publishTransaction]: every error is caught inside and turned into
    [false]; with the channel up the message is handed to it and the result
    of [sendToQueue] is returned. *)
Definition publishTransaction (env : Env) (transactionData : TransactionMessage.t)
    : M World bool :=
  emit (PublishAttempted (TransactionMessage.transactionId transactionData)) ;;
  match channel env with
  | ChannelDown => ret false
  | ChannelUp published =>
      modify (withQueue (snoc (stamp (publishedAt env) transactionData))) ;;
      ret published
  end.

(** *** [controllers/paymentController.ts] *)

Record ProcessingResult : Type := {
  res_success : bool;
  res_transactionId : option string;
  res_error : option string
}.

(** [generateId] of [utils/index.ts] *)
Definition generateId (env : Env) : string :=
  idRandom env ++ JS.toString36 (idNow env).

(** [simulatePaymentProcessing]; the delay has no effect on the result. *)
Definition simulatePaymentProcessing (env : Env) (payment : Payment.t)
    : M World ProcessingResult :=
  emit (GatewaySimulated (Payment.paymentId payment)) ;;
  let isSuccess := JS.gtb (JS.Fin (outcomeDraw env)) (JS.Fin (5 # 100)) in
  if isSuccess then
    let transactionId :=
      "TXN_" ++ JS.decimal (txnNow env) ++ "_" ++ generateId env in
    ret {| res_success := true; res_transactionId := Some transactionId;
           res_error := None |}
  else
    let errorMessage :=
      if JS.gtb (Payment.amount payment) (JS.Fin (100000000 # 1))
      then "Transaction amount exceeds limit"
      else if JS.ltb (Payment.amount payment) (JS.Fin (1 # 1))
      then "Minimum transaction amount not met"
      else if JS.gtb (JS.Fin (reasonDraw env)) (JS.Fin (1 # 2))
      then "Insufficient funds"
      else "Card declined by issuer" in
    ret {| res_success := false; res_transactionId := None;
           res_error := Some errorMessage |}.

Definition internalError : HttpResponse PaymentResponse :=
  {| http_status := 500;
     http_body := createApiResponse false None (Some "Internal server error")
                    (Some "Failed to process payment") |}.

Definition processPayment (env : Env) (paymentData : PaymentRequest.t)
    : World -> HttpResponse PaymentResponse * World :=
  tryCatch
    (savedPayment <- insertPayment env paymentData ;;
     processingResult <- simulatePaymentProcessing env savedPayment ;;
     if res_success processingResult then
       savedPayment <- savePayment env
         (Payment.setTransactionId (res_transactionId processingResult)
            (Payment.setStatus PaymentStatus.COMPLETED savedPayment)) ;;
       let transactionMessage :=
         {| TransactionMessage.customerId := Payment.customerId savedPayment;
            TransactionMessage.orderId := Payment.orderId savedPayment;
            TransactionMessage.productId := PaymentRequest.productId paymentData;
            TransactionMessage.amount := Payment.amount savedPayment;
            TransactionMessage.transactionId :=
              match res_transactionId processingResult with
              | Some tx => tx
              | None => ""
              end;
            TransactionMessage.timestamp := messageTime env |} in
       messagePublished <- publishTransaction env transactionMessage ;;
       let paymentResponse :=
         {| pr_success := true;
            pr_paymentId := Payment.paymentId savedPayment;
            pr_transactionId := Payment.transactionId savedPayment;
            pr_message := "Payment processed successfully" |} in
       ret {| http_status := 201;
              http_body := createApiResponse true (Some paymentResponse)
                             (Some "Payment processed successfully") None |}
     else
       savedPayment <- savePayment env
         (Payment.setStatus PaymentStatus.FAILED savedPayment) ;;
       ret {| http_status := 400;
              http_body := createApiResponse false None
                             (Some "Payment processing failed")
                             (res_error processingResult) |})
    (fun _ w => (internalError, w)).

(** [router.post('/', validateCreatePayment, processPayment)] *)
Definition postPayments (env : Env) (body : PaymentRequest.t)
    : World -> HttpResponse PaymentResponse * World :=
  fun w =>
    match validateCreatePayment body with
    | Some response => (response, w)
    | None => processPayment env body w
    end.

End PaymentService.

(* ================================================================== *)
(** ** Order service *)
(* ================================================================== *)

(** The JSON body of [POST /api/orders].  The controller reads it as a
    [CreateOrderRequest]; the route applies no schema to it, so a body can
    also carry an [orderId], which the spread [{...orderData}] copies into
    the new document. *)
Module CreateOrderRequest.
Record t : Type := {
  customerId : option string;
  productId : option string;
  amount : option JS.number;
  shippingAddress : option ShippingAddress;
  orderId : option string
}.
End CreateOrderRequest.

Module OrderResponse.
Record t : Type := {
  customerId : string;
  orderId : string;
  productId : string;
  orderStatus : OrderStatus.t;
  amount : JS.number;
  paymentStatus : option string;
  orderDate : N;
  createdAt : N;
  updatedAt : N
}.
End OrderResponse.

Module OrderService.

Record Customer : Type := {
  customer_customerId : string;
  customer_isActive : bool
}.

Record Product : Type := {
  product_productId : string;
  stock : JS.number;
  isActive : bool
}.

(** The link to the payment service during one [axios.post]: the request
    is handled and answered, or it never arrives, or it is handled and the
    answer never arrives (a timeout, a reset). *)
Inductive Link : Type :=
| Delivered
| RequestLost (code : option string)
| ReplyLost (code : option string).

(** What one [createOrder] reads from outside the program. *)
Record Env : Type := {
  customerReply : AxiosOutcome Customer;
  productReply : AxiosOutcome Product;
  preSaveNow : N;          (* Date.now() in the pre-save hook *)
  preSaveRandom : string;  (* Math.random().toString(36).substr(2, 9), same hook *)
  insertedAt : N;          (* timestamps of the first save *)
  link : Link;
  paymentEnv : PaymentService.Env;
  savedAt : N;             (* timestamp of the second save *)
  stockReply : AxiosOutcome bool
}.

(** [orderData[key]] *)
Definition property (orderData : CreateOrderRequest.t) (key : string) : JS.value :=
  let str (v : option string) :=
    match v with Some s => JS.Str s | None => JS.Undefined end in
  if key =? "customerId" then str (CreateOrderRequest.customerId orderData)
  else if key =? "productId" then str (CreateOrderRequest.productId orderData)
  else if key =? "amount" then
    match CreateOrderRequest.amount orderData with
    | Some n => JS.Num n
    | None => JS.Undefined
    end
  else if key =? "shippingAddress" then
    match CreateOrderRequest.shippingAddress orderData with
    | Some _ => JS.Obj
    | None => JS.Undefined
    end
  else if key =? "orderId" then str (CreateOrderRequest.orderId orderData)
  else JS.Undefined.

(** A field read where the code needs a string, and where a number. *)
Definition toString (v : option string) : string :=
  match v with Some s => s | None => "undefined" end.

Definition toNumber (v : option JS.number) : JS.number :=
  match v with Some n => n | None => JS.NaN end.

Definition isSome {A : Type} (o : option A) : bool :=
  match o with Some _ => true | None => false end.

Definition isRefused (code : option string) : bool :=
  match code with Some c => c =? "ECONNREFUSED" | None => false end.

(** *** [services/customerService.ts] *)

Definition validateCustomer (env : Env) (customerId : string)
    : M World (ServiceResponse Customer) :=
  emit (HttpGetCustomer customerId) ;;
  ret match customerReply env with
      | AxResponse response =>
          if validateStatus (http_status response) then
            if api_success (http_body response) && isSome (api_data (http_body response))
            then createServiceResponse true (api_data (http_body response)) None (Some 200)
            else createServiceResponse false None
                   (Some "Customer not found or inactive") (Some 404)
          else
            createServiceResponse false None
              (Some (JS.orDefault (api_message (http_body response)) "Customer service error"))
              (Some (http_status response))
      | AxNoResponse code =>
          if isRefused code
          then createServiceResponse false None (Some "Customer service unavailable") (Some 503)
          else createServiceResponse false None (Some "Internal server error") (Some 500)
      end.

(** *** [services/productService.ts] *)

Definition validateProduct (env : Env) (productId : string) (quantity : nat)
    : M World (ServiceResponse Product) :=
  emit (HttpGetProduct productId) ;;
  ret match productReply env with
      | AxResponse response =>
          if validateStatus (http_status response) then
            match api_success (http_body response), api_data (http_body response) with
            | true, Some product =>
                if isActive product &&
                   JS.geb (stock product) (JS.Fin (Z.of_nat quantity # 1))
                then createServiceResponse true (Some product) None (Some 200)
                else createServiceResponse false None
                       (Some "Product not available or insufficient stock") (Some 400)
            | _, _ =>
                createServiceResponse false None (Some "Product not found") (Some 404)
            end
          else
            createServiceResponse false None
              (Some (JS.orDefault (api_message (http_body response)) "Product service error"))
              (Some (http_status response))
      | AxNoResponse code =>
          if isRefused code
          then createServiceResponse false None (Some "Product service unavailable") (Some 503)
          else createServiceResponse false None (Some "Internal server error") (Some 500)
      end.

Definition updateProductStock (env : Env) (productId : string) (quantity : nat)
    : M World (ServiceResponse bool) :=
  emit (HttpPatchStock productId quantity) ;;
  ret match stockReply env with
      | AxResponse response =>
          if validateStatus (http_status response) then
            if api_success (http_body response)
            then createServiceResponse true (Some true) None (Some 200)
            else createServiceResponse false (Some false)
                   (Some (JS.orDefault (api_message (http_body response))
                            "Failed to update product stock"))
                   (Some 400)
          else
            createServiceResponse false (Some false)
              (Some (JS.orDefault (api_message (http_body response)) "Product service error"))
              (Some (http_status response))
      | AxNoResponse _ =>
          createServiceResponse false (Some false) (Some "Product service unavailable") (Some 503)
      end.

(** *** [services/paymentService.ts] *)

Definition lift {A : Type} (f : World -> A * World) : M World A :=
  fun w => let (a, w') := f w in (Ok a, w').

(** [axios.post(`${PAYMENT_SERVICE_URL}/api/payments`, paymentData)]: the
    peer is this repository's payment service. *)
Definition axiosPostPayments (env : Env) (paymentData : PaymentRequest.t)
    : M World (AxiosOutcome PaymentService.PaymentResponse) :=
  emit (HttpPostPayment paymentData) ;;
  match link env with
  | Delivered =>
      response <- lift (PaymentService.postPayments (paymentEnv env) paymentData) ;;
      ret (AxResponse response)
  | RequestLost code => ret (AxNoResponse code)
  | ReplyLost code =>
      lift (PaymentService.postPayments (paymentEnv env) paymentData) ;;
      ret (AxNoResponse code)
  end.

Definition processPayment (env : Env) (customerId orderId productId : string)
    (amount : JS.number) : M World (ServiceResponse PaymentService.PaymentResponse) :=
  let paymentData :=
    {| PaymentRequest.customerId := Some customerId;
       PaymentRequest.orderId := Some orderId;
       PaymentRequest.productId := Some productId;
       PaymentRequest.amount := JS.jsonNumber amount;
       PaymentRequest.paymentMethod := Some "bank_transfer" |} in
  outcome <- axiosPostPayments env paymentData ;;
  ret match outcome with
      | AxResponse response =>
          if validateStatus (http_status response) then
            if api_success (http_body response) && isSome (api_data (http_body response))
            then createServiceResponse true (api_data (http_body response)) None (Some 200)
            else createServiceResponse false None
                   (Some (JS.orDefault (api_message (http_body response))
                            "Payment processing failed"))
                   (Some 400)
          else
            createServiceResponse false None
              (Some (JS.orDefault (api_message (http_body response)) "Payment service error"))
              (Some (http_status response))
      | AxNoResponse code =>
          if isRefused code
          then createServiceResponse false None (Some "Payment service unavailable") (Some 503)
          else createServiceResponse false None (Some "Internal server error") (Some 500)
      end.

(** *** [models/Order.ts] *)

Definition castAddress (a : ShippingAddress) : ShippingAddress :=
  {| street := option_map JS.trim (street a);
     city := option_map JS.trim (city a);
     state := option_map JS.trim (state a);
     zipCode := option_map JS.trim (zipCode a);
     country := option_map JS.trim (country a) |}.

Definition addressValid (a : ShippingAddress) : bool :=
  Mongoose.maxlength 200 (street a) && Mongoose.maxlength 100 (city a) &&
  Mongoose.maxlength 100 (state a) && Mongoose.maxlength 20 (zipCode a) &&
  Mongoose.maxlength 100 (country a).

(** [new OrderModel(sanitizedData).save()] with
    [sanitizedData = {...orderData, orderStatus: PENDING, orderDate}]:
    the setters and validators of the schema, the pre-save hook that
    generates [orderId] when the document has none, the timestamps, and
    the insert under the unique index on [orderId]. *)
Definition insertOrder (env : Env) (orderData : CreateOrderRequest.t)
    : M World Order.t :=
  match Mongoose.requiredString (CreateOrderRequest.customerId orderData),
        Mongoose.requiredString (CreateOrderRequest.productId orderData),
        CreateOrderRequest.amount orderData with
  | Some customerId, Some productId, Some amount =>
      let shipping := option_map castAddress (CreateOrderRequest.shippingAddress orderData) in
      if JS.geb amount (JS.Fin 0) &&
         match shipping with Some a => addressValid a | None => true end
      then
        w <- get ;;
        let doc :=
          {| Order._id := nextOrderOid w;
             Order.orderId :=
               JS.orDefault (CreateOrderRequest.orderId orderData)
                 ("ORD_" ++ JS.decimal (preSaveNow env) ++ "_" ++ preSaveRandom env);
             Order.customerId := customerId;
             Order.productId := productId;
             Order.amount := amount;
             Order.orderStatus := OrderStatus.PENDING;
             Order.shippingAddress := shipping;
             Order.createdAt := insertedAt env;
             Order.updatedAt := insertedAt env |} in
        if existsb (fun o => Order.orderId o =? Order.orderId doc) (orders w)
        then throw "E11000 duplicate key error"
        else
          modify (withOrders (snoc doc) 1) ;;
          emit (OrderInserted doc) ;;
          ret doc
      else throw "Order validation failed"
  | _, _, _ => throw "Order validation failed"
  end.

(** [savedOrder.save()] on a stored document whose status has been
    changed: the update by [_id], with the new [updatedAt].  ([createOrder]
    saves an order inserted as [pending] with the status [confirmed] or
    [cancelled], [cancelOrder] a [pending] or [confirmed] one as
    [cancelled]; for the one caller that can assign the status the document
    already has, see [saveStatus].) *)
Definition saveOrder (now : N) (doc : Order.t) : M World Order.t :=
  let doc' := Order.setUpdatedAt now doc in
  modify (withOrders (replaceOrder doc') 0) ;;
  emit (OrderUpdated doc') ;;
  ret doc'.

(** [OrderModel.findOne({ orderId })] *)
Definition findOne (orderId : string) (w : World) : option Order.t :=
  find (fun o => Order.orderId o =? orderId) (orders w).

(** *** [controllers/orderController.ts] *)

Definition internalError {T : Type} (error : string) : HttpResponse T :=
  {| http_status := 500;
     http_body := createApiResponse false None (Some "Internal server error")
                    (Some error) |}.

Definition createOrder (env : Env) (orderData : CreateOrderRequest.t)
    : World -> HttpResponse OrderResponse.t * World :=
  tryCatch
    (let validation :=
       validateRequiredFields (property orderData) ["customerId"; "productId"; "amount"] in
     if negb (isValid validation) then
       ret {| http_status := 400;
              http_body := createApiResponse false None (Some "Validation failed")
                             (Some (joinMessages (errors validation))) |}
     else if JS.leb (toNumber (CreateOrderRequest.amount orderData)) (JS.Fin 0) then
       ret {| http_status := 400;
              http_body := createApiResponse false None
                             (Some "Amount must be a positive number") None |}
     else
       (* Step 1 *)
       customerValidation <-
         validateCustomer env (toString (CreateOrderRequest.customerId orderData)) ;;
       if negb (success customerValidation) then
         ret {| http_status := JS.orStatus (statusCode customerValidation) 400;
                http_body := createApiResponse false None
                               (Some "Customer validation failed")
                               (error customerValidation) |}
       else
         (* Step 2 *)
         productValidation <-
           validateProduct env (toString (CreateOrderRequest.productId orderData)) 1 ;;
         if negb (success productValidation) then
           ret {| http_status := JS.orStatus (statusCode productValidation) 400;
                  http_body := createApiResponse false None
                                 (Some "Product validation failed")
                                 (error productValidation) |}
         else
           (* Step 3 *)
           savedOrder <- insertOrder env orderData ;;
           (* Step 4 *)
           paymentResult <-
             processPayment env
               (toString (CreateOrderRequest.customerId orderData))
               (Order.orderId savedOrder)
               (toString (CreateOrderRequest.productId orderData))
               (toNumber (CreateOrderRequest.amount orderData)) ;;
           if negb (success paymentResult) then
             savedOrder <- saveOrder (savedAt env)
                             (Order.setStatus OrderStatus.CANCELLED savedOrder) ;;
             ret {| http_status := JS.orStatus (statusCode paymentResult) 400;
                    http_body := createApiResponse false None
                                   (Some "Payment processing failed")
                                   (error paymentResult) |}
           else
             (* Step 5 *)
             savedOrder <- saveOrder (savedAt env)
                             (Order.setStatus OrderStatus.CONFIRMED savedOrder) ;;
             (* Step 6 *)
             stockUpdateResult <-
               updateProductStock env
                 (toString (CreateOrderRequest.productId orderData)) 1 ;;
             (* Step 7 *)
             let orderResponse :=
               {| OrderResponse.customerId := Order.customerId savedOrder;
                  OrderResponse.orderId := Order.orderId savedOrder;
                  OrderResponse.productId := Order.productId savedOrder;
                  OrderResponse.orderStatus := Order.orderStatus savedOrder;
                  OrderResponse.amount := Order.amount savedOrder;
                  OrderResponse.paymentStatus := None;
                  OrderResponse.orderDate := Order.createdAt savedOrder;
                  OrderResponse.createdAt := Order.createdAt savedOrder;
                  OrderResponse.updatedAt := Order.updatedAt savedOrder |} in
             ret {| http_status := 201;
                    http_body := createApiResponse true (Some orderResponse)
                                   (Some "Order created and payment processed successfully")
                                   None |})
    (fun _ w => (internalError "Failed to create order", w)).

Definition cancellable (st : OrderStatus.t) : bool :=
  existsb (OrderStatus.eqb st) [OrderStatus.PENDING; OrderStatus.CONFIRMED].

Definition cancelOrder (now : N) (orderId : string)
    : World -> HttpResponse Order.t * World :=
  tryCatch
    (w <- get ;;
     match findOne orderId w with
     | None =>
         ret {| http_status := 404;
                http_body := createApiResponse false None (Some "Order not found") None |}
     | Some order =>
         if negb (cancellable (Order.orderStatus order)) then
           ret {| http_status := 400;
                  http_body := createApiResponse false None
                                 (Some "Order cannot be cancelled at this stage") None |}
         else
           order <- saveOrder now (Order.setStatus OrderStatus.CANCELLED order) ;;
           ret {| http_status := 200;
                  http_body := createApiResponse true (Some order)
                                 (Some "Order cancelled successfully") None |}
     end)
    (fun _ w => (internalError "Failed to cancel order", w)).

(** [order.orderStatus = status; await order.save()] on a document just
    loaded.  Mongoose tracks the paths that were modified: assigning the
    status the document already has modifies nothing, and [save()] then
    sends no update, so that the stored document and its [updatedAt] stay
    as they are.  With another status the document is written as by
    [saveOrder]. *)
Definition saveStatus (now : N) (status : OrderStatus.t) (order : Order.t)
    : M World Order.t :=
  if OrderStatus.eqb status (Order.orderStatus order) then ret order
  else saveOrder now (Order.setStatus status order).

(** [status] is [None] for a body whose [status] is not a value of the
    [OrderStatus] enum. *)
Definition updateOrderStatus (now : N) (orderId : string) (status : option OrderStatus.t)
    : World -> HttpResponse Order.t * World :=
  tryCatch
    (match status with
     | None =>
         ret {| http_status := 400;
                http_body := createApiResponse false None (Some "Invalid order status") None |}
     | Some status =>
         w <- get ;;
         match findOne orderId w with
         | None =>
             ret {| http_status := 404;
                    http_body := createApiResponse false None (Some "Order not found") None |}
         | Some order =>
             order <- saveStatus now status order ;;
             ret {| http_status := 200;
                    http_body := createApiResponse true (Some order)
                                   (Some "Order status updated successfully") None |}
         end
     end)
    (fun _ w => (internalError "Failed to update order status", w)).

End OrderService.

(* ================================================================== *)
(** ** Transaction worker *)
(* ================================================================== *)

(** A stored TransactionHistory document. *)
Module TransactionHistory.
Record t : Type := {
  _id : nat;
  transactionId : string;
  customerId : string;
  orderId : string;
  productId : string;
  amount : JS.number;
  status : string;
  createdAt : N;
  updatedAt : N
}.
End TransactionHistory.

Module TransactionWorker.

(** [JSON.parse(msg.content.toString())], read through the keys the
    consumer looks at. *)
Record RawData : Type := {
  transactionId : JS.value;
  customerId : JS.value;
  orderId : JS.value;
  productId : JS.value;
  amount : JS.value;
  timestamp : JS.value
}.

(** The content of a delivery: text on which [JSON.parse] (or the first
    property read, for the text [null]) throws, with the message of the
    error, or parsed data. *)
Inductive Content : Type :=
| Unparsable (errorMessage : string)
| Parsed (rawData : RawData).

Record Message : Type := {
  deliveryTag : nat;
  content : Content
}.

(** How the consumer settles a delivery: [channel.ack(msg)] or
    [channel.nack(msg, allUpTo, requeue)]. *)
Inductive Settlement : Type :=
| Ack (deliveryTag : nat)
| Nack (deliveryTag : nat) (allUpTo requeue : bool).

Record Store : Type := {
  history : list TransactionHistory.t;
  nextOid : nat;
  settled : list Settlement
}.

Definition emptyStore : Store := {| history := []; nextOid := 0; settled := [] |}.

(** [this.channel.ack(msg)] and [this.channel.nack(msg, false, false)] of a
    consumer that holds its channel.  ([RabbitMQConsumer.settle] has the
    optional call [this.channel?.ack], with the case of a channel that
    [close] has set to [null].) *)
Definition settle (st : Settlement) : M Store unit :=
  modify (fun s => {| history := history s; nextOid := nextOid s;
                      settled := snoc st (settled s) |}).

Definition isString (v : JS.value) : bool :=
  match v with JS.Str _ => true | _ => false end.

Definition isNumber (v : JS.value) : bool :=
  match v with JS.Num _ => true | _ => false end.

(** [v >= 0] where [v] is known to be a number *)
Definition nonNegative (v : JS.value) : bool :=
  match v with JS.Num n => JS.geb n (JS.Fin 0) | _ => false end.

(** [v.length > 0] where [v] is known to be a string *)
Definition nonEmpty (v : JS.value) : bool :=
  match v with JS.Str s => (0 <? String.length s)%nat | _ => false end.

Definition validateTransactionMessage (data : RawData) : bool :=
  match productId data with
  | JS.Str EmptyString => false
  | _ =>
      isString (transactionId data) &&
      isString (customerId data) &&
      isString (orderId data) &&
      isString (productId data) &&
      isNumber (amount data) &&
      nonNegative (amount data) &&
      nonEmpty (transactionId data) &&
      nonEmpty (customerId data) &&
      nonEmpty (orderId data) &&
      nonEmpty (productId data)
  end.

(** [TransactionHistoryModel.findOne({ transactionId })] *)
Definition findOne (transactionId : JS.value) : M Store (option TransactionHistory.t) :=
  s <- get ;;
  ret match transactionId with
      | JS.Str tx => find (fun h => TransactionHistory.transactionId h =? tx) (history s)
      | _ => None
      end.

Definition stringOf (v : JS.value) : string :=
  match v with JS.Str s => s | _ => "" end.

Definition numberOf (v : JS.value) : option JS.number :=
  match v with JS.Num n => Some n | _ => None end.

(** The paths of the schema that refuse the document, in schema order. *)
Definition invalidPaths (customerId orderId productId : string)
    (amount : option JS.number) : list string :=
  (if customerId =? "" then ["customerId: Path `customerId` is required."] else []) ++
  (if orderId =? "" then ["orderId: Path `orderId` is required."] else []) ++
  (if productId =? "" then ["productId: Path `productId` is required."] else []) ++
  match amount with
  | None => ["amount: Path `amount` is required."]
  | Some n => if JS.geb n (JS.Fin 0) then [] else ["amount: Amount must be a positive number"]
  end.

(** [new TransactionHistoryModel({...}).save()]: the validators of the
    schema, the timestamps, and the insert under the unique index on
    [transactionId]. *)
Definition insertHistory (now : N) (data : RawData) : M Store TransactionHistory.t :=
  match invalidPaths (stringOf (customerId data)) (stringOf (orderId data))
          (stringOf (productId data)) (numberOf (amount data)) with
  | _ :: _ as paths =>
      throw ("TransactionHistory validation failed: " ++ String.concat ", " paths)
  | [] =>
      s <- get ;;
      let doc :=
        {| TransactionHistory._id := nextOid s;
           TransactionHistory.transactionId := stringOf (transactionId data);
           TransactionHistory.customerId := stringOf (customerId data);
           TransactionHistory.orderId := stringOf (orderId data);
           TransactionHistory.productId := stringOf (productId data);
           TransactionHistory.amount :=
             match numberOf (amount data) with Some n => n | None => JS.NaN end;
           TransactionHistory.status := "completed";
           TransactionHistory.createdAt := now;
           TransactionHistory.updatedAt := now |} in
      if existsb (fun h => TransactionHistory.transactionId h
                             =? TransactionHistory.transactionId doc) (history s)
      then throw "E11000 duplicate key error"
      else
        modify (fun s => {| history := snoc doc (history s);
                            nextOid := S (nextOid s);
                            settled := settled s |}) ;;
        ret doc
  end.

(** [processMessage] for a delivery handled while the consumer holds its
    channel. *)
Definition processMessage (now : N) (msg : Message) : Store -> unit * Store :=
  tryCatch
    (rawData <- match content msg with
                | Unparsable e => throw e
                | Parsed rawData => ret rawData
                end ;;
     let transactionData := rawData in
     if negb (validateTransactionMessage transactionData) then
       settle (Ack (deliveryTag msg))
     else
       existingTransaction <- findOne (transactionId transactionData) ;;
       match existingTransaction with
       | Some _ => settle (Ack (deliveryTag msg))
       | None =>
           insertHistory now transactionData ;;
           settle (Ack (deliveryTag msg))
       end)
    (fun error s =>
       if JS.includes "productId: Path `productId` is required" error
       then exec (settle (Ack (deliveryTag msg))) s
       else exec (settle (Nack (deliveryTag msg) false false)) s).

(** The consumer takes one delivery at a time ([prefetch(1)]) and finishes
    it before the next. *)
Definition consume (deliveries : list (N * Message)) (s : Store) : Store :=
  fold_left (fun s d => snd (processMessage (fst d) (snd d) s)) deliveries s.

(** The number of audit records with a given [transactionId]. *)
Definition countRecords (tx : string) (s : Store) : nat :=
  length (filter (fun h => TransactionHistory.transactionId h =? tx) (history s)).

(** A delivery that is a well-formed TransactionMessage bearing [tx]. *)
Definition bears (tx : string) (msg : Message) : bool :=
  match content msg with
  | Parsed data =>
      validateTransactionMessage data &&
      match transactionId data with JS.Str t => t =? tx | _ => false end
  | Unparsable _ => false
  end.

End TransactionWorker.

(* ================================================================== *)
(** ** The services together *)
(* ================================================================== *)

Module System.

(** The requests of the order-processing flow: an order submitted to the
    order service, an order cancelled, and a charge posted to the payment
    service by any client.  [updateOrderStatus] overwrites the status with
    any value of the enum and is kept out of the flow. *)
Inductive Request : Type :=
| SubmitOrder (env : OrderService.Env) (body : CreateOrderRequest.t)
| CancelOrder (now : N) (orderId : string)
| Charge (env : PaymentService.Env) (body : PaymentRequest.t).

Definition handle (r : Request) (w : World) : World :=
  match r with
  | SubmitOrder env body => snd (OrderService.createOrder env body w)
  | CancelOrder now orderId => snd (OrderService.cancelOrder now orderId w)
  | Charge env body => snd (PaymentService.postPayments env body w)
  end.

Definition run (requests : list Request) (w : World) : World :=
  fold_left (fun w r => handle r w) requests w.

End System.

(** [orderStatus = confirmed] implies a completed Payment for the same
    [orderId]. *)
Definition confirmedIsPaid (w : World) : Prop :=
  forall o, In o (orders w) ->
    Order.orderStatus o = OrderStatus.CONFIRMED ->
    exists p, In p (payments w) /\
              Payment.orderId p = Order.orderId o /\
              Payment.status p = PaymentStatus.COMPLETED.

(* ================================================================== *)
(** ** Sample inputs *)
(* ================================================================== *)

Module Sample.

Definition ok {T : Type} (d : T) : HttpResponse T :=
  {| http_status := 200;
     http_body := createApiResponse true (Some d) (Some "ok") None |}.

Definition notFound {T : Type} (message : string) : HttpResponse T :=
  {| http_status := 404;
     http_body := createApiResponse false None (Some message) None |}.

(** A charge that the gateway approves (draw 0.5), with the channel up. *)
Definition approving : PaymentService.Env :=
  {| PaymentService.preSaveNow := 1700000000100;
     PaymentService.preSaveRandom := "abcdefghi";
     PaymentService.insertedAt := 1700000000101;
     PaymentService.outcomeDraw := 1 # 2;
     PaymentService.reasonDraw := 1 # 4;
     PaymentService.txnNow := 1700000001500;
     PaymentService.idRandom := "zyxwvutsr";
     PaymentService.idNow := 1700000001500;
     PaymentService.savedAt := 1700000001501;
     PaymentService.messageTime := 1700000001502;
     PaymentService.publishedAt := 1700000001503;
     PaymentService.channel := PaymentService.ChannelUp true |}.

Definition withDraw (draw : Q) (e : PaymentService.Env) : PaymentService.Env :=
  {| PaymentService.preSaveNow := PaymentService.preSaveNow e;
     PaymentService.preSaveRandom := PaymentService.preSaveRandom e;
     PaymentService.insertedAt := PaymentService.insertedAt e;
     PaymentService.outcomeDraw := draw;
     PaymentService.reasonDraw := PaymentService.reasonDraw e;
     PaymentService.txnNow := PaymentService.txnNow e;
     PaymentService.idRandom := PaymentService.idRandom e;
     PaymentService.idNow := PaymentService.idNow e;
     PaymentService.savedAt := PaymentService.savedAt e;
     PaymentService.messageTime := PaymentService.messageTime e;
     PaymentService.publishedAt := PaymentService.publishedAt e;
     PaymentService.channel := PaymentService.channel e |}.

Definition withChannel (c : PaymentService.Channel) (e : PaymentService.Env)
    : PaymentService.Env :=
  {| PaymentService.preSaveNow := PaymentService.preSaveNow e;
     PaymentService.preSaveRandom := PaymentService.preSaveRandom e;
     PaymentService.insertedAt := PaymentService.insertedAt e;
     PaymentService.outcomeDraw := PaymentService.outcomeDraw e;
     PaymentService.reasonDraw := PaymentService.reasonDraw e;
     PaymentService.txnNow := PaymentService.txnNow e;
     PaymentService.idRandom := PaymentService.idRandom e;
     PaymentService.idNow := PaymentService.idNow e;
     PaymentService.savedAt := PaymentService.savedAt e;
     PaymentService.messageTime := PaymentService.messageTime e;
     PaymentService.publishedAt := PaymentService.publishedAt e;
     PaymentService.channel := c |}.

(** The gateway declines (draw 0.01). *)
Definition declining : PaymentService.Env := withDraw (1 # 100) approving.

Definition customer : OrderService.Customer :=
  {| OrderService.customer_customerId := "CUST_1";
     OrderService.customer_isActive := true |}.

Definition product : OrderService.Product :=
  {| OrderService.product_productId := "PROD_1";
     OrderService.stock := JS.Fin (5 # 1);
     OrderService.isActive := true |}.

(** Every collaborator answers and agrees. *)
Definition env (payment : PaymentService.Env) (stock : AxiosOutcome bool)
    (link : OrderService.Link) (customerReply : AxiosOutcome OrderService.Customer)
    : OrderService.Env :=
  {| OrderService.customerReply := customerReply;
     OrderService.productReply := AxResponse (ok product);
     OrderService.preSaveNow := 1700000000000;
     OrderService.preSaveRandom := "k3j2h1g0f";
     OrderService.insertedAt := 1700000000001;
     OrderService.link := link;
     OrderService.paymentEnv := payment;
     OrderService.savedAt := 1700000002000;
     OrderService.stockReply := stock |}.

Definition happy : OrderService.Env :=
  env approving (AxResponse (ok true)) OrderService.Delivered (AxResponse (ok customer)).

(** The gateway declines the charge. *)
Definition declined : OrderService.Env :=
  env declining (AxResponse (ok true)) OrderService.Delivered (AxResponse (ok customer)).

(** The product service refuses the stock decrement. *)
Definition outOfStock : OrderService.Env :=
  env approving
    (AxResponse {| http_status := 400;
                   http_body := createApiResponse false None
                                  (Some "Insufficient stock") None |})
    OrderService.Delivered (AxResponse (ok customer)).

(** The customer service does not know the customer. *)
Definition unknownCustomer : OrderService.Env :=
  env approving (AxResponse (ok true)) OrderService.Delivered
    (AxResponse (notFound "Customer not found")).

(** The host of the customer service cannot be reached. *)
Definition unreachableCustomer : OrderService.Env :=
  env approving (AxResponse (ok true)) OrderService.Delivered
    (AxNoResponse (Some "EHOSTUNREACH")).

Definition order (amount : option JS.number) (orderId : option string)
    : CreateOrderRequest.t :=
  {| CreateOrderRequest.customerId := Some "CUST_1";
     CreateOrderRequest.productId := Some "PROD_1";
     CreateOrderRequest.amount := amount;
     CreateOrderRequest.shippingAddress := None;
     CreateOrderRequest.orderId := orderId |}.

Definition transaction (tag : nat) (tx : string) (amount : Q) : TransactionWorker.Message :=
  {| TransactionWorker.deliveryTag := tag;
     TransactionWorker.content :=
       TransactionWorker.Parsed
         {| TransactionWorker.transactionId := JS.Str tx;
            TransactionWorker.customerId := JS.Str "CUST_1";
            TransactionWorker.orderId := JS.Str "ORD_1";
            TransactionWorker.productId := JS.Str "PROD_1";
            TransactionWorker.amount := JS.Num (JS.Fin amount);
            TransactionWorker.timestamp := JS.Str "2024-01-01T00:00:00.000Z" |} |}.

End Sample.

(* ================================================================== *)
(** ** Vocabulary of the statements *)
(* ================================================================== *)

(** The two checks [createOrder] makes before its first network call. *)
Definition intakeAccepts (orderData : CreateOrderRequest.t) : bool :=
  isValid (validateRequiredFields (OrderService.property orderData)
             ["customerId"; "productId"; "amount"]) &&
  negb (JS.leb (OrderService.toNumber (CreateOrderRequest.amount orderData)) (JS.Fin 0)).

(** A string field that is absent or empty. *)
Definition absentOrEmpty (v : option string) : Prop :=
  v = None \/ v = Some "".

(** An amount that is absent, or a number that is not greater than 0
    ([NaN] is not greater than 0). *)
Definition absentOrNotPositive (v : option JS.number) : Prop :=
  match v with
  | None => True
  | Some n => JS.gtb n (JS.Fin 0) = false
  end.

(** The gateway approves when the outcome draw is above 0.05. *)
Definition approves (env : PaymentService.Env) : bool :=
  JS.gtb (JS.Fin (PaymentService.outcomeDraw env)) (JS.Fin (5 # 100)).

(** The identifier the gateway hands out on approval. *)
Definition issuedId (env : PaymentService.Env) : string :=
  "TXN_" ++ JS.decimal (PaymentService.txnNow env) ++ "_" ++ PaymentService.generateId env.

(** The reason the gateway gives when it declines. *)
Definition declineReason (env : PaymentService.Env) (amount : JS.number) : string :=
  if JS.gtb amount (JS.Fin (100000000 # 1)) then "Transaction amount exceeds limit"
  else if JS.ltb amount (JS.Fin (1 # 1)) then "Minimum transaction amount not met"
  else if JS.gtb (JS.Fin (PaymentService.reasonDraw env)) (JS.Fin (1 # 2))
  then "Insufficient funds"
  else "Card declined by issuer".

(** Effects on the side of the payment service. *)
Definition paymentSide (e : Event) : bool :=
  match e with
  | HttpPostPayment _ | PaymentInserted _ | PaymentUpdated _
  | GatewaySimulated _ | PublishAttempted _ => true
  | _ => false
  end.

Definition isStockDecrement (e : Event) : bool :=
  match e with
  | HttpPatchStock _ _ => true
  | _ => false
  end.

(** Effects of the saga up to and including the payment step and the
    write of its verdict: everything but the stock decrement. *)
Definition beforeStockDecrement (e : Event) : bool := negb (isStockDecrement e).

(** [w'] is [w] after more effects, each of them allowed by [allowed]. *)
Definition extends (allowed : Event -> bool) (w w' : World) : Prop :=
  exists events,
    trace w' = (trace w ++ events)%list /\ forallb allowed events = true.

(** The arguments [createOrder] passes to its collaborators. *)
Definition customerOf (orderData : CreateOrderRequest.t) : string :=
  OrderService.toString (CreateOrderRequest.customerId orderData).

Definition productOf (orderData : CreateOrderRequest.t) : string :=
  OrderService.toString (CreateOrderRequest.productId orderData).

Definition amountOf (orderData : CreateOrderRequest.t) : JS.number :=
  OrderService.toNumber (CreateOrderRequest.amount orderData).

(** The response to a failed validation or a failed payment. *)
Definition failure {T : Type} (r : ServiceResponse T) (message : string)
    : HttpResponse OrderResponse.t :=
  {| http_status := JS.orStatus (statusCode r) 400;
     http_body := createApiResponse false None (Some message) (error r) |}.

(** The response to a confirmed order. *)
Definition created (o : Order.t) : HttpResponse OrderResponse.t :=
  {| http_status := 201;
     http_body :=
       createApiResponse true
         (Some {| OrderResponse.customerId := Order.customerId o;
                  OrderResponse.orderId := Order.orderId o;
                  OrderResponse.productId := Order.productId o;
                  OrderResponse.orderStatus := Order.orderStatus o;
                  OrderResponse.amount := Order.amount o;
                  OrderResponse.paymentStatus := None;
                  OrderResponse.orderDate := Order.createdAt o;
                  OrderResponse.createdAt := Order.createdAt o;
                  OrderResponse.updatedAt := Order.updatedAt o |})
         (Some "Order created and payment processed successfully") None |}.

(** Step 1 or step 2 of [createOrder] fails: the message of the response,
    the status code and error text of the failing validation, and the world
    after the lookups made so far. *)
Inductive ValidationFails (env : OrderService.Env) (orderData : CreateOrderRequest.t)
    (w : World) : string -> option nat -> option string -> World -> Prop :=
| CustomerFails (cv : ServiceResponse OrderService.Customer) (w1 : World) :
    OrderService.validateCustomer env (customerOf orderData) w = (Ok cv, w1) ->
    success cv = false ->
    ValidationFails env orderData w
      "Customer validation failed" (statusCode cv) (error cv) w1
| ProductFails (cv : ServiceResponse OrderService.Customer) (w1 : World)
    (pv : ServiceResponse OrderService.Product) (w2 : World) :
    OrderService.validateCustomer env (customerOf orderData) w = (Ok cv, w1) ->
    success cv = true ->
    OrderService.validateProduct env (productOf orderData) 1 w1 = (Ok pv, w2) ->
    success pv = false ->
    ValidationFails env orderData w
      "Product validation failed" (statusCode pv) (error pv) w2.

(** The two lookups of the validation steps. *)
Definition isLookup (e : Event) : bool :=
  match e with
  | HttpGetCustomer _ | HttpGetProduct _ => true
  | _ => false
  end.

(** The store after a delivery has been acknowledged and nothing else. *)
Definition acknowledged (tag : nat) (s : TransactionWorker.Store) : TransactionWorker.Store :=
  {| TransactionWorker.history := TransactionWorker.history s;
     TransactionWorker.nextOid := TransactionWorker.nextOid s;
     TransactionWorker.settled :=
       snoc (TransactionWorker.Ack tag) (TransactionWorker.settled s) |}.

(** Every stored document has an [_id] handed out before. *)
Definition ordersFresh (w : World) : Prop :=
  forall o, In o (orders w) -> Order._id o < nextOrderOid w.

Definition paymentsFresh (w : World) : Prop :=
  forall p, In p (payments w) -> Payment._id p < nextPaymentOid w.

(** The invariant of the order-processing flow. *)
Record Consistent (w : World) : Prop := {
  orders_fresh : ordersFresh w;
  order_oids_distinct : NoDup (map Order._id (orders w));
  order_ids_distinct : NoDup (map Order.orderId (orders w));
  payments_fresh : paymentsFresh w;
  confirmed_is_paid : confirmedIsPaid w
}.

(** The body [processPayment] of the order service posts for an order. *)
Definition chargeFor (orderData : CreateOrderRequest.t) (saved : Order.t)
    : PaymentRequest.t :=
  {| PaymentRequest.customerId := Some (customerOf orderData);
     PaymentRequest.orderId := Some (Order.orderId saved);
     PaymentRequest.productId := Some (productOf orderData);
     PaymentRequest.amount := JS.jsonNumber (amountOf orderData);
     PaymentRequest.paymentMethod := Some "bank_transfer" |}.


(** The identifier the pre-save hook of the Order model generates. *)
Definition generatedOrderId (env : OrderService.Env) : string :=
  "ORD_" ++ JS.decimal (OrderService.preSaveNow env) ++ "_"
         ++ OrderService.preSaveRandom env.


(* ================================================================== *)
(** ** Read handlers of the order and payment services *)
(* ================================================================== *)

Module OrderController.

(** [GET /api/orders/:orderId] *)
Definition getOrderById (orderId : string) : World -> HttpResponse Order.t * World :=
  tryCatch
    (w <- get ;;
     match OrderService.findOne orderId w with
     | None =>
         ret {| http_status := 404;
                http_body := createApiResponse false None (Some "Order not found") None |}
     | Some order =>
         ret {| http_status := 200;
                http_body := createApiResponse true (Some order)
                               (Some "Order retrieved successfully") None |}
     end)
    (fun _ w => (OrderService.internalError "Failed to retrieve order", w)).

End OrderController.

Module PaymentController.

(** [PaymentModel.findOne({ paymentId })] and [PaymentModel.findOne({ orderId })]:
    the first stored document that matches. *)
Definition findByPaymentId (paymentId : string) (w : World) : option Payment.t :=
  find (fun p => Payment.paymentId p =? paymentId) (payments w).


Definition internalError : HttpResponse Payment.t :=
  {| http_status := 500;
     http_body := createApiResponse false None (Some "Internal server error")
                    (Some "Failed to retrieve payment") |}.

(** [GET /api/payments/:paymentId] *)
Definition getPaymentById (paymentId : string)
    : World -> HttpResponse Payment.t * World :=
  tryCatch
    (w <- get ;;
     match findByPaymentId paymentId w with
     | None =>
         ret {| http_status := 404;
                http_body := createApiResponse false None (Some "Payment not found") None |}
     | Some payment =>
         ret {| http_status := 200;
                http_body := createApiResponse true (Some payment)
                               (Some "Payment retrieved successfully") None |}
     end)
    (fun _ w => (internalError, w)).


End PaymentController.

(** [getPaymentStatus] of the order service's [services/paymentService.ts]. *)
Module PaymentClient.



End PaymentClient.

(* ================================================================== *)
(** ** The schema middleware of the order service *)
(* ================================================================== *)

(** [middleware/validation.ts] of the order service.  The middleware is
    exported; the order route does not mount it. *)
Module OrderValidation.

(** [Joi.string().max(n).optional()] *)
Definition joiOptionalString (n : nat) (v : option string) : bool :=
  match v with
  | Some s => negb (s =? "") && (String.length s <=? n)%nat
  | None => true
  end.

Definition joiShippingAddress (v : option ShippingAddress) : bool :=
  match v with
  | Some a =>
      joiOptionalString 200 (street a) && joiOptionalString 100 (city a) &&
      joiOptionalString 100 (state a) && joiOptionalString 20 (zipCode a) &&
      joiOptionalString 100 (country a)
  | None => true
  end.

(** The keys of the body that [createOrderSchema] refuses; [orderId] is
    not a key of the schema. *)
Definition createOrderSchema (body : CreateOrderRequest.t) : list string :=
  (if PaymentService.joiString (CreateOrderRequest.customerId body)
   then [] else ["customerId"]) ++
  (if PaymentService.joiString (CreateOrderRequest.productId body)
   then [] else ["productId"]) ++
  (if PaymentService.joiAmount (CreateOrderRequest.amount body)
   then [] else ["amount"]) ++
  (if joiShippingAddress (CreateOrderRequest.shippingAddress body)
   then [] else ["shippingAddress"]) ++
  (match CreateOrderRequest.orderId body with
   | Some _ => ["orderId"]
   | None => []
   end).

(** [validate(createOrderSchema)]: [Some] response when the request is
    answered here, [None] for [next()]. *)
Definition validateCreateOrder (body : CreateOrderRequest.t)
    : option (HttpResponse OrderResponse.t) :=
  match createOrderSchema body with
  | [] => None
  | details =>
      Some {| http_status := 400;
              http_body := createApiResponse false None
                             (Some "Validation failed")
                             (Some (String.concat ", " details)) |}
  end.

End OrderValidation.

(* ================================================================== *)
(** ** More of [utils/index.ts] *)
(* ================================================================== *)

Module Utils.

(** [amount > 0 && amount <= 100000000] *)
Definition validateAmount (amount : JS.number) : bool :=
  JS.gtb amount (JS.Fin 0) && JS.leb amount (JS.Fin (100000000 # 1)).

(** [s.replace(/[<>]/g, '')] *)
Fixpoint removeAngles (s : string) : string :=
  match s with
  | EmptyString => EmptyString
  | String c r =>
      if (c =? "<")%char || (c =? ">")%char
      then removeAngles r
      else String c (removeAngles r)
  end.

(** [input.trim().replace(/[<>]/g, '')] *)
Definition sanitizeString (input : string) : string :=
  removeAngles (JS.trim input).

End Utils.

(* ================================================================== *)
(** ** From the publisher to the consumer *)
(* ================================================================== *)

Module Wire.

(** [JSON.parse] of the text [JSON.stringify({...transactionData,
    timestamp: new Date().toISOString()})] written by the publisher, read
    through the keys the consumer looks at.  A key whose value is
    [undefined] is not written; a number that is not finite is written as
    [null].  [iso] renders the time of the publish. *)
Definition delivered (iso : N -> string) (m : TransactionMessage.t)
    : TransactionWorker.RawData :=
  {| TransactionWorker.transactionId := JS.Str (TransactionMessage.transactionId m);
     TransactionWorker.customerId := JS.Str (TransactionMessage.customerId m);
     TransactionWorker.orderId := JS.Str (TransactionMessage.orderId m);
     TransactionWorker.productId :=
       match TransactionMessage.productId m with
       | Some s => JS.Str s
       | None => JS.Undefined
       end;
     TransactionWorker.amount :=
       match JS.jsonNumber (TransactionMessage.amount m) with
       | Some n => JS.Num n
       | None => JS.Null
       end;
     TransactionWorker.timestamp := JS.Str (iso (TransactionMessage.timestamp m)) |}.

(** The delivery of a queued message, with the tag the broker gives it. *)
Definition delivery (iso : N -> string) (tag : nat) (m : TransactionMessage.t)
    : TransactionWorker.Message :=
  {| TransactionWorker.deliveryTag := tag;
     TransactionWorker.content := TransactionWorker.Parsed (delivered iso m) |}.

(** The queue delivered in order: each message with the time at which the
    consumer handles it and its delivery tag. *)
Definition deliveries (iso : N -> string)
    (slots : list (N * nat * TransactionMessage.t))
    : list (N * TransactionWorker.Message) :=
  map (fun d => (fst (fst d), delivery iso (snd (fst d)) (snd d))) slots.

End Wire.

(* ================================================================== *)
(** ** The life cycle of the consumer ([rabbitmqConsumer.ts], [index.ts]) *)
(* ================================================================== *)

Module RabbitMQConsumer.

(** The calls made to the broker library. *)
Inductive BrokerCall : Type :=
| AmqpConnect
| CreateChannel
| AssertQueue
| Prefetch (count : nat)
| Consume
| Cancel
| ChannelClose
| ConnectionClose.

(** What the broker does with each call of one operation: [true] when the
    call returns, [false] when it throws. *)
Record Broker : Type := {
  connects : bool;
  createsChannel : bool;
  assertsQueue : bool;
  prefetches : bool;
  consumes : bool;
  cancels : bool;
  closesChannel : bool;
  closesConnection : bool
}.

(** The fields of the consumer object ([true] for a field that is not
    [null]) and the calls made so far. *)
Record t : Type := {
  connection : bool;
  channel : bool;
  isConsuming : bool;
  calls : list BrokerCall
}.

Definition initial : t :=
  {| connection := false; channel := false; isConsuming := false; calls := [] |}.

Definition setConnection (b : bool) : M t unit :=
  modify (fun s => {| connection := b; channel := channel s;
                      isConsuming := isConsuming s; calls := calls s |}).

Definition setChannel (b : bool) : M t unit :=
  modify (fun s => {| connection := connection s; channel := b;
                      isConsuming := isConsuming s; calls := calls s |}).

Definition setConsuming (b : bool) : M t unit :=
  modify (fun s => {| connection := connection s; channel := channel s;
                      isConsuming := b; calls := calls s |}).

Definition call (c : BrokerCall) (returns : bool) : M t unit :=
  modify (fun s => {| connection := connection s; channel := channel s;
                      isConsuming := isConsuming s; calls := snoc c (calls s) |}) ;;
  if returns then ret tt else throw "broker error".

Definition setupQueue (b : Broker) : M t unit :=
  s <- get ;;
  if negb (channel s) then throw "Channel not initialized"
  else
    call AssertQueue (assertsQueue b) ;;
    call (Prefetch 1) (prefetches b).

(** [connect]: the [catch] block logs and throws the error again. *)
Definition connect (b : Broker) : M t unit :=
  call AmqpConnect (connects b) ;;
  setConnection true ;;
  call CreateChannel (createsChannel b) ;;
  setChannel true ;;
  setupQueue b.

(** The ['error'] and ['close'] handlers of the connection. *)
Definition onConnectionEvent : M t unit := setConsuming false.

Definition startConsuming (b : Broker) : M t unit :=
  s <- get ;;
  if negb (channel s) then throw "Channel not initialized"
  else if isConsuming s then ret tt
  else
    call Consume (consumes b) ;;
    setConsuming true.

Definition stopConsuming (b : Broker) : M t unit :=
  s <- get ;;
  if channel s && isConsuming s then
    call Cancel (cancels b) ;;
    setConsuming false
  else ret tt.

Definition close (b : Broker) : t -> unit * t :=
  tryCatch
    (stopConsuming b ;;
     s <- get ;;
     (if channel s then call ChannelClose (closesChannel b) ;; setChannel false
      else ret tt) ;;
     s <- get ;;
     (if connection s then call ConnectionClose (closesConnection b) ;; setConnection false
      else ret tt))
    (fun _ s => (tt, s)).

Definition isConnected (s : t) : bool :=
  connection s && channel s && isConsuming s.

(** [startWorker] of [index.ts]: [Some code] when the process exits. *)
Definition startWorker (databaseConnects : bool) (b : Broker) : t -> option nat * t :=
  tryCatch
    ((if databaseConnects then ret tt else throw "database error") ;;
     connect b ;;
     startConsuming b ;;
     ret None)
    (fun _ s => (Some 1, s)).

(** What can happen to the consumer object, in any order. *)
Inductive Operation : Type :=
| Connect (b : Broker)
| StartConsuming (b : Broker)
| StopConsuming (b : Broker)
| Close (b : Broker)
| ConnectionEvent.

Definition apply (op : Operation) (s : t) : t :=
  match op with
  | Connect b => snd (connect b s)
  | StartConsuming b => snd (startConsuming b s)
  | StopConsuming b => snd (stopConsuming b s)
  | Close b => snd (close b s)
  | ConnectionEvent => snd (onConnectionEvent s)
  end.

Definition run (ops : list Operation) (s : t) : t :=
  fold_left (fun s op => apply op s) ops s.

(** [this.channel?.ack(msg)] and [this.channel?.nack(msg, false, false)]:
    the delivery is settled on the channel the consumer holds at that
    moment, and nothing is done when [close] has set the field to [null]
    since the delivery.  A call on a channel the object holds is taken to
    return, as in [TransactionWorker.settle]. *)
Definition settle (consumer : t) (st : TransactionWorker.Settlement)
    : M TransactionWorker.Store unit :=
  if channel consumer then TransactionWorker.settle st else ret tt.

(** [processMessage] as a method of the consumer object.  [consumer] is
    the object as it is when the handler comes to settle the delivery,
    that is after what it has awaited ([findOne], [save]); a run reads
    [this.channel] once.  With the channel set this is
    [TransactionWorker.processMessage]. *)
Definition processMessage (consumer : t) (now : N) (msg : TransactionWorker.Message)
    : TransactionWorker.Store -> unit * TransactionWorker.Store :=
  tryCatch
    (rawData <- match TransactionWorker.content msg with
                | TransactionWorker.Unparsable e => throw e
                | TransactionWorker.Parsed rawData => ret rawData
                end ;;
     let transactionData := rawData in
     if negb (TransactionWorker.validateTransactionMessage transactionData) then
       settle consumer (TransactionWorker.Ack (TransactionWorker.deliveryTag msg))
     else
       existingTransaction <-
         TransactionWorker.findOne (TransactionWorker.transactionId transactionData) ;;
       match existingTransaction with
       | Some _ => settle consumer (TransactionWorker.Ack (TransactionWorker.deliveryTag msg))
       | None =>
           TransactionWorker.insertHistory now transactionData ;;
           settle consumer (TransactionWorker.Ack (TransactionWorker.deliveryTag msg))
       end)
    (fun error s =>
       if JS.includes "productId: Path `productId` is required" error
       then exec (settle consumer
                    (TransactionWorker.Ack (TransactionWorker.deliveryTag msg))) s
       else exec (settle consumer
                    (TransactionWorker.Nack (TransactionWorker.deliveryTag msg) false false)) s).

(** Deliveries handled one at a time, each with the consumer object as its
    handler finds it when it settles. *)
Definition consume (deliveries : list (t * (N * TransactionWorker.Message)))
    (s : TransactionWorker.Store) : TransactionWorker.Store :=
  fold_left (fun s d => snd (processMessage (fst d) (fst (snd d)) (snd (snd d)) s))
    deliveries s.

End RabbitMQConsumer.

(* ================================================================== *)
(** ** More sample inputs and vocabulary *)
(* ================================================================== *)

Module Fixture.

Definition charge : PaymentRequest.t :=
  {| PaymentRequest.customerId := Some "CUST_1";
     PaymentRequest.orderId := Some "ORD_1";
     PaymentRequest.productId := Some "PROD_1";
     PaymentRequest.amount := Some (JS.Fin (50000 # 1));
     PaymentRequest.paymentMethod := Some "bank_transfer" |}.

Definition withAmount (amount : option JS.number) (body : PaymentRequest.t)
    : PaymentRequest.t :=
  {| PaymentRequest.customerId := PaymentRequest.customerId body;
     PaymentRequest.orderId := PaymentRequest.orderId body;
     PaymentRequest.productId := PaymentRequest.productId body;
     PaymentRequest.amount := amount;
     PaymentRequest.paymentMethod := PaymentRequest.paymentMethod body |}.

Definition iso (n : N) : string := JS.decimal n.

(** A broker on which every call returns. *)
Definition healthy : RabbitMQConsumer.Broker :=
  {| RabbitMQConsumer.connects := true;
     RabbitMQConsumer.createsChannel := true;
     RabbitMQConsumer.assertsQueue := true;
     RabbitMQConsumer.prefetches := true;
     RabbitMQConsumer.consumes := true;
     RabbitMQConsumer.cancels := true;
     RabbitMQConsumer.closesChannel := true;
     RabbitMQConsumer.closesConnection := true |}.

(** The one order of the world after [Sample.happy] has been served. *)
Definition orderId : string := "ORD_1700000000000_k3j2h1g0f".

Definition afterHappyOrder : World :=
  snd (OrderService.createOrder Sample.happy
         (Sample.order (Some (JS.Fin (50000 # 1))) None) emptyWorld).

End Fixture.

(** The outcomes of [createOrder], with the runs of the steps that lead to
    each: the response and the world the request leaves. *)
Inductive SagaOutcome (env : OrderService.Env) (orderData : CreateOrderRequest.t)
    (w : World) : HttpResponse OrderResponse.t -> World -> Prop :=
| IntakeRefused (message : string) (error : option string) :
    intakeAccepts orderData = false ->
    SagaOutcome env orderData w
      {| http_status := 400;
         http_body := createApiResponse false None (Some message) error |} w
| CustomerRefused (cv : ServiceResponse OrderService.Customer) (w1 : World) :
    intakeAccepts orderData = true ->
    OrderService.validateCustomer env (customerOf orderData) w = (Ok cv, w1) ->
    success cv = false ->
    SagaOutcome env orderData w (failure cv "Customer validation failed") w1
| ProductRefused (cv : ServiceResponse OrderService.Customer) (w1 : World)
    (pv : ServiceResponse OrderService.Product) (w2 : World) :
    intakeAccepts orderData = true ->
    OrderService.validateCustomer env (customerOf orderData) w = (Ok cv, w1) ->
    success cv = true ->
    OrderService.validateProduct env (productOf orderData) 1 w1 = (Ok pv, w2) ->
    success pv = false ->
    SagaOutcome env orderData w (failure pv "Product validation failed") w2
| InsertThrew (cv : ServiceResponse OrderService.Customer) (w1 : World)
    (pv : ServiceResponse OrderService.Product) (w2 : World) (e : string) :
    intakeAccepts orderData = true ->
    OrderService.validateCustomer env (customerOf orderData) w = (Ok cv, w1) ->
    success cv = true ->
    OrderService.validateProduct env (productOf orderData) 1 w1 = (Ok pv, w2) ->
    success pv = true ->
    OrderService.insertOrder env orderData w2 = (Throw e, w2) ->
    SagaOutcome env orderData w
      (OrderService.internalError "Failed to create order") w2
| PaymentRefused (cv : ServiceResponse OrderService.Customer) (w1 : World)
    (pv : ServiceResponse OrderService.Product) (w2 : World)
    (saved : Order.t) (w3 : World)
    (pr : ServiceResponse PaymentService.PaymentResponse) (w4 : World) :
    intakeAccepts orderData = true ->
    OrderService.validateCustomer env (customerOf orderData) w = (Ok cv, w1) ->
    success cv = true ->
    OrderService.validateProduct env (productOf orderData) 1 w1 = (Ok pv, w2) ->
    success pv = true ->
    OrderService.insertOrder env orderData w2 = (Ok saved, w3) ->
    OrderService.processPayment env (customerOf orderData) (Order.orderId saved)
      (productOf orderData) (amountOf orderData) w3 = (Ok pr, w4) ->
    success pr = false ->
    SagaOutcome env orderData w (failure pr "Payment processing failed")
      (snd (OrderService.saveOrder (OrderService.savedAt env)
              (Order.setStatus OrderStatus.CANCELLED saved) w4))
| PaymentAccepted (cv : ServiceResponse OrderService.Customer) (w1 : World)
    (pv : ServiceResponse OrderService.Product) (w2 : World)
    (saved : Order.t) (w3 : World)
    (pr : ServiceResponse PaymentService.PaymentResponse) (w4 : World) :
    intakeAccepts orderData = true ->
    OrderService.validateCustomer env (customerOf orderData) w = (Ok cv, w1) ->
    success cv = true ->
    OrderService.validateProduct env (productOf orderData) 1 w1 = (Ok pv, w2) ->
    success pv = true ->
    OrderService.insertOrder env orderData w2 = (Ok saved, w3) ->
    OrderService.processPayment env (customerOf orderData) (Order.orderId saved)
      (productOf orderData) (amountOf orderData) w3 = (Ok pr, w4) ->
    success pr = true ->
    SagaOutcome env orderData w
      (created (Order.setUpdatedAt (OrderService.savedAt env)
                  (Order.setStatus OrderStatus.CONFIRMED saved)))
      (logged (HttpPatchStock (productOf orderData) 1)
         (snd (OrderService.saveOrder (OrderService.savedAt env)
                 (Order.setStatus OrderStatus.CONFIRMED saved) w4))).


(** The document a charge leaves when the gateway approves it, and when
    it declines it. *)
Definition completedBy (env : PaymentService.Env) (pending : Payment.t) : Payment.t :=
  Payment.setUpdatedAt (PaymentService.savedAt env)
    (Payment.setTransactionId (Some (issuedId env))
       (Payment.setStatus PaymentStatus.COMPLETED pending)).

Definition failedBy (env : PaymentService.Env) (pending : Payment.t) : Payment.t :=
  Payment.setUpdatedAt (PaymentService.savedAt env)
    (Payment.setStatus PaymentStatus.FAILED pending).

(** The message handed to the channel for an approved charge. *)
Definition reportOf (env : PaymentService.Env) (body : PaymentRequest.t)
    (pending : Payment.t) : TransactionMessage.t :=
  {| TransactionMessage.customerId := Payment.customerId pending;
     TransactionMessage.orderId := Payment.orderId pending;
     TransactionMessage.productId := PaymentRequest.productId body;
     TransactionMessage.amount := Payment.amount pending;
     TransactionMessage.transactionId := issuedId env;
     TransactionMessage.timestamp := PaymentService.publishedAt env |}.

(** The answers of the payment controller to an approved and to a declined
    charge. *)
Definition approved (env : PaymentService.Env) (pending : Payment.t)
    : HttpResponse PaymentService.PaymentResponse :=
  {| http_status := 201;
     http_body :=
       createApiResponse true
         (Some {| PaymentService.pr_success := true;
                  PaymentService.pr_paymentId := Payment.paymentId pending;
                  PaymentService.pr_transactionId := Some (issuedId env);
                  PaymentService.pr_message := "Payment processed successfully" |})
         (Some "Payment processed successfully") None |}.

Definition declinedWith (env : PaymentService.Env) (pending : Payment.t)
    : HttpResponse PaymentService.PaymentResponse :=
  {| http_status := 400;
     http_body := createApiResponse false None (Some "Payment processing failed")
                    (Some (declineReason env (Payment.amount pending))) |}.

(** The queue after a publish attempt for a message. *)
Definition queueAfter (env : PaymentService.Env) (m : TransactionMessage.t)
    (queued : list TransactionMessage.t) : list TransactionMessage.t :=
  match PaymentService.channel env with
  | PaymentService.ChannelDown => queued
  | PaymentService.ChannelUp _ => snoc m queued
  end.

(** An amount the schema of the payment route refuses: absent, not a
    finite number, below 0.01, or beyond the safe-integer range. *)
Definition amountOutsideSchema (v : option JS.number) : Prop :=
  match v with
  | Some (JS.Fin q) => Qlt q (1 # 100) \/ Qlt PaymentService.maxSafeInteger q
  | _ => True
  end.

(** A body the schema of the payment route refuses. *)
Definition outsideChargeSchema (body : PaymentRequest.t) : Prop :=
  absentOrEmpty (PaymentRequest.customerId body) \/
  absentOrEmpty (PaymentRequest.orderId body) \/
  absentOrEmpty (PaymentRequest.productId body) \/
  amountOutsideSchema (PaymentRequest.amount body) \/
  (exists m, PaymentRequest.paymentMethod body = Some m /\
             ~ In m PaymentService.paymentMethods).

(** The payment collection, its counter and the queue are the same in two
    worlds. *)
Definition sameLedger (w w' : World) : Prop :=
  payments w' = payments w /\ nextPaymentOid w' = nextPaymentOid w /\
  queue w' = queue w.

(** The transaction identifiers held by stored payments. *)
Definition transactionIds (stored : list Payment.t) : list string :=
  flat_map (fun p => match Payment.transactionId p with
                     | Some tx => [tx]
                     | None => []
                     end) stored.

(** A queued message and the stored payment it reports. *)
Definition reports (m : TransactionMessage.t) (p : Payment.t) : Prop :=
  Payment.status p = PaymentStatus.COMPLETED /\
  Payment.transactionId p = Some (TransactionMessage.transactionId m) /\
  Payment.customerId p = TransactionMessage.customerId m /\
  Payment.orderId p = TransactionMessage.orderId m /\
  Payment.amount p = TransactionMessage.amount m /\
  TransactionMessage.productId m = Some (Payment.productId p).

(** The invariant of the payment collection and the queue. *)
Record Ledger (w : World) : Prop := {
  ledger_fresh : paymentsFresh w;
  payment_oids_distinct : NoDup (map Payment._id (payments w));
  payment_ids_distinct : NoDup (map Payment.paymentId (payments w));
  transaction_ids_distinct : NoDup (transactionIds (payments w));
  completed_has_transaction :
    forall p, In p (payments w) ->
      (Payment.status p = PaymentStatus.COMPLETED <-> Payment.transactionId p <> None);
  queued_is_paid :
    forall m, In m (queue w) -> exists p, In p (payments w) /\ reports m p;
  queue_distinct : NoDup (map TransactionMessage.transactionId (queue w));
  queue_valid :
    forall iso m, In m (queue w) ->
      TransactionWorker.validateTransactionMessage (Wire.delivered iso m) = true
}.

(** An order that has the verdict of its payment step, or was cancelled
    afterwards. *)
Definition settledOrder (o : Order.t) : Prop :=
  Order.orderStatus o = OrderStatus.CONFIRMED \/
  Order.orderStatus o = OrderStatus.CANCELLED.

Definition ordersSettled (w : World) : Prop :=
  forall o, In o (orders w) -> settledOrder o.

(** Two versions of one order: everything but the status and the time of
    the last update is the same. *)
Definition sameIdentity (o o' : Order.t) : Prop :=
  Order._id o' = Order._id o /\
  Order.orderId o' = Order.orderId o /\
  Order.customerId o' = Order.customerId o /\
  Order.productId o' = Order.productId o /\
  Order.amount o' = Order.amount o /\
  Order.shippingAddress o' = Order.shippingAddress o /\
  Order.createdAt o' = Order.createdAt o.

(** The audit record written for a message. *)
Definition mirrors (doc : TransactionHistory.t) (m : TransactionMessage.t) : Prop :=
  TransactionHistory.transactionId doc = TransactionMessage.transactionId m /\
  TransactionHistory.customerId doc = TransactionMessage.customerId m /\
  TransactionHistory.orderId doc = TransactionMessage.orderId m /\
  Some (TransactionHistory.productId doc) = TransactionMessage.productId m /\
  TransactionHistory.amount doc = TransactionMessage.amount m /\
  TransactionHistory.status doc = "completed".

(** What the intake of [createOrder] guarantees of a stored order, and the
    schema of the payment route of a stored Payment. *)
Definition validOrder (o : Order.t) : Prop :=
  JS.trim (Order.customerId o) <> "" /\
  JS.trim (Order.productId o) <> "" /\
  JS.gtb (Order.amount o) (JS.Fin 0) = true.

Definition validPayment (p : Payment.t) : Prop :=
  Payment.customerId p <> "" /\
  Payment.orderId p <> "" /\
  Payment.productId p <> "" /\
  exists q, Payment.amount p = JS.Fin q /\
            Qle (1 # 100) q /\ Qle q PaymentService.maxSafeInteger.

(** A completed Payment for an order, with its customer, product and
    amount. *)
Definition pays (p : Payment.t) (o : Order.t) : Prop :=
  Payment.status p = PaymentStatus.COMPLETED /\
  Payment.orderId p = Order.orderId o /\
  Payment.customerId p = Order.customerId o /\
  Payment.productId p = Order.productId o /\
  Payment.amount p = Order.amount o.

(** Every confirmed order has such a Payment. *)
Definition paidInFull (w : World) : Prop :=
  forall o, In o (orders w) ->
    Order.orderStatus o = OrderStatus.CONFIRMED ->
    exists p, In p (payments w) /\ pays p o.

(** How the consumer settles a delivery. *)
Definition settlementOf (msg : TransactionWorker.Message) : TransactionWorker.Settlement :=
  match TransactionWorker.content msg with
  | TransactionWorker.Parsed _ => TransactionWorker.Ack (TransactionWorker.deliveryTag msg)
  | TransactionWorker.Unparsable e =>
      if JS.includes "productId: Path `productId` is required" e
      then TransactionWorker.Ack (TransactionWorker.deliveryTag msg)
      else TransactionWorker.Nack (TransactionWorker.deliveryTag msg) false false
  end.

(** A store with other settlements. *)
Definition withSettled (settlements : list TransactionWorker.Settlement)
    (s : TransactionWorker.Store) : TransactionWorker.Store :=
  {| TransactionWorker.history := TransactionWorker.history s;
     TransactionWorker.nextOid := TransactionWorker.nextOid s;
     TransactionWorker.settled := settlements |}.

(** A delivery whose handler still finds the channel when it settles. *)
Definition channelHeld (d : RabbitMQConsumer.t * (N * TransactionWorker.Message)) : bool :=
  RabbitMQConsumer.channel (fst d).

(** Parsed data with the four identifiers as non-empty strings and an
    amount that is a number and at least 0. *)
Definition wellFormedMessage (data : TransactionWorker.RawData) : Prop :=
  exists transactionId customerId orderId productId amount,
    TransactionWorker.transactionId data = JS.Str transactionId /\
    transactionId <> "" /\
    TransactionWorker.customerId data = JS.Str customerId /\ customerId <> "" /\
    TransactionWorker.orderId data = JS.Str orderId /\ orderId <> "" /\
    TransactionWorker.productId data = JS.Str productId /\ productId <> "" /\
    TransactionWorker.amount data = JS.Num amount /\
    JS.geb amount (JS.Fin 0) = true.

(** The invariant of the consumer object. *)
Definition wellFormed (s : RabbitMQConsumer.t) : Prop :=
  (RabbitMQConsumer.isConsuming s = true -> RabbitMQConsumer.channel s = true) /\
  (RabbitMQConsumer.channel s = true -> RabbitMQConsumer.connection s = true).
(* ================================================================== *)
(** ** Runs on sample inputs *)
(* ================================================================== *)

Example trim_spaces : JS.trim "  a b  " = "a b".
Proof. reflexivity. Qed.

Example toString36_digits :
  JS.toString36 1295 = "zz" /\ JS.toString36 36 = "10" /\ JS.toString36 0 = "0".
Proof. repeat split; reflexivity. Qed.

Example decimal_digits : JS.decimal 1700 = "1700" /\ JS.decimal 0 = "0".
Proof. split; reflexivity. Qed.

Example includes_substring :
  JS.includes "bc" "abcd" = true /\ JS.includes "bd" "abcd" = false.
Proof. split; reflexivity. Qed.

(** Scenario A: a valid order of 50000 is confirmed and answered with 201. *)
Example scenario_A :
  let (response, w) :=
    OrderService.createOrder Sample.happy (Sample.order (Some (JS.Fin (50000 # 1))) None)
      emptyWorld in
  http_status response = 201 /\
  option_map OrderResponse.orderStatus (api_data (http_body response))
    = Some OrderStatus.CONFIRMED /\
  option_map OrderResponse.amount (api_data (http_body response))
    = Some (JS.Fin (50000 # 1)) /\
  map Order.orderStatus (orders w) = [OrderStatus.CONFIRMED] /\
  map Payment.status (payments w) = [PaymentStatus.COMPLETED] /\
  length (queue w) = 1.
Proof. vm_compute. repeat split. Qed.
(* ================================================================== *)
(** ** Intake validation *)
(* ================================================================== *)

Section RequiredFields.

Variable data : string -> JS.value.

Lemma requiredErrors_nil (fields : list string) :
  requiredErrors data fields = [] <->
  forall f, In f fields -> fieldMissing (data f) = false.
Proof.
  induction fields as [|f fields IH]; simpl.
  - split; [intros _ f []|reflexivity].
  - destruct (fieldMissing (data f)) eqn:E.
    + split; [discriminate|].
      intros H. specialize (H f (or_introl eq_refl)). congruence.
    + rewrite IH. split.
      * intros H g [<-|Hg]; auto.
      * intros H g Hg. apply H. now right.
Qed.

Lemma isValid_true (fields : list string) :
  isValid (validateRequiredFields data fields) = true <->
  forall f, In f fields -> fieldMissing (data f) = false.
Proof.
  unfold validateRequiredFields; simpl.
  rewrite <- requiredErrors_nil.
  destruct (requiredErrors data fields); simpl; split; congruence.
Qed.

End RequiredFields.

Lemma intake_rejects (orderData : CreateOrderRequest.t) :
  absentOrEmpty (CreateOrderRequest.customerId orderData) \/
  absentOrEmpty (CreateOrderRequest.productId orderData) \/
  absentOrNotPositive (CreateOrderRequest.amount orderData) ->
  intakeAccepts orderData = false.
Proof.
  intros H. unfold intakeAccepts.
  destruct (isValid _) eqn:V; [|reflexivity]. simpl.
  rewrite isValid_true in V.
  assert (Vc := V "customerId" (or_introl eq_refl)).
  assert (Vp := V "productId" (or_intror (or_introl eq_refl))).
  assert (Va := V "amount" (or_intror (or_intror (or_introl eq_refl)))).
  clear V. unfold OrderService.property in Vc, Vp, Va. simpl in Vc, Vp, Va.
  destruct H as [[H|H]|[[H|H]|H]];
    try (rewrite H in Vc; discriminate Vc);
    try (rewrite H in Vp; discriminate Vp).
  unfold absentOrNotPositive in H.
  destruct (CreateOrderRequest.amount orderData) as [n|]; [|discriminate Va].
  destruct n as [| | |q]; simpl in *; try discriminate; try reflexivity.
  unfold JS.gtb in H. simpl in H.
  apply negb_false_iff in H. rewrite H. reflexivity.
Qed.

(** What intake leaves to the rest of the saga: both identifiers are
    present and the amount is a number. *)
Lemma intake_fields (orderData : CreateOrderRequest.t) :
  intakeAccepts orderData = true ->
  exists customerId productId amount,
    CreateOrderRequest.customerId orderData = Some customerId /\
    CreateOrderRequest.productId orderData = Some productId /\
    CreateOrderRequest.amount orderData = Some amount /\
    JS.gtb amount (JS.Fin 0) = true.
Proof.
  intros H.
  destruct (CreateOrderRequest.customerId orderData) as [c|] eqn:Ec;
    [|rewrite intake_rejects in H; [discriminate|left; now left]].
  destruct (CreateOrderRequest.productId orderData) as [p|] eqn:Ep;
    [|rewrite intake_rejects in H; [discriminate|right; left; now left]].
  destruct (CreateOrderRequest.amount orderData) as [a|] eqn:Ea;
    [|rewrite intake_rejects in H; [discriminate|right; right; now rewrite Ea]].
  exists c, p, a. repeat split.
  destruct (JS.gtb a (JS.Fin 0)) eqn:G; [reflexivity|].
  rewrite intake_rejects in H; [discriminate|].
  right; right. now rewrite Ea.
Qed.

Lemma createOrder_rejected (env : OrderService.Env) (orderData : CreateOrderRequest.t)
    (w : World) :
  intakeAccepts orderData = false ->
  exists message error,
    OrderService.createOrder env orderData w =
      ({| http_status := 400;
          http_body := createApiResponse false None (Some message) error |}, w).
Proof.
  unfold intakeAccepts, OrderService.createOrder, tryCatch.
  destruct (isValid _); simpl.
  - intros H. apply negb_false_iff in H. rewrite H.
    eexists _, _. reflexivity.
  - intros _. eexists _, _. reflexivity.
Qed.

(** C8, as the code has it: a request whose [customerId] or [productId] is
    absent or empty, or whose [amount] is absent or a number that is not
    greater than 0 ([NaN] included), is answered with 400 and leaves the
    world as it was: no network call is logged and no order is stored.
    (An amount of [+Infinity] is greater than 0 and passes intake.) *)
Theorem intake_rejection_touches_nothing
    (env : OrderService.Env) (orderData : CreateOrderRequest.t) (w : World) :
  absentOrEmpty (CreateOrderRequest.customerId orderData) \/
  absentOrEmpty (CreateOrderRequest.productId orderData) \/
  absentOrNotPositive (CreateOrderRequest.amount orderData) ->
  exists message error,
    OrderService.createOrder env orderData w =
      ({| http_status := 400;
          http_body := createApiResponse false None (Some message) error |}, w).
Proof.
  intros H. apply createOrder_rejected, intake_rejects, H.
Qed.

Lemma intake_rejection_witness :
  exists message error,
    OrderService.createOrder Sample.happy (Sample.order (Some (JS.Fin (-10 # 1))) None)
      emptyWorld =
      ({| http_status := 400;
          http_body := createApiResponse false None (Some message) error |}, emptyWorld).
Proof.
  apply (intake_rejection_touches_nothing Sample.happy
           (Sample.order (Some (JS.Fin (-10 # 1))) None) emptyWorld).
  right; right. simpl. reflexivity.
Defined.

(** C8 as stated fails for an amount that is not finite: [1e999] in a JSON
    body is read as [+Infinity], passes intake, and the saga runs: the
    customer and product lookups are made, an order is stored, and the
    payment service is called. *)
Lemma infinite_amount_passes_intake :
  let orderData := Sample.order (Some JS.PosInf) None in
  let (response, w) := OrderService.createOrder Sample.happy orderData emptyWorld in
  option_map JS.isFinite (CreateOrderRequest.amount orderData) = Some false /\
  firstn 2 (trace w) = [HttpGetCustomer "CUST_1"; HttpGetProduct "PROD_1"] /\
  map Order.orderId (orders w) = ["ORD_1700000000000_k3j2h1g0f"] /\
  w <> emptyWorld.
Proof. vm_compute. repeat split. discriminate. Qed.

(* ================================================================== *)
(** ** Payment service: one charge, step by step *)
(* ================================================================== *)

Lemma insertPayment_inv (env : PaymentService.Env) (body : PaymentRequest.t)
    (w : World) (r : result Payment.t) (w1 : World) :
  PaymentService.insertPayment env body w = (r, w1) ->
  (exists e, r = Throw e /\ w1 = w) \/
  (exists p, r = Ok p /\
     w1 = logged (PaymentInserted p)
            (withPayments (snoc p) 1 w) /\
     Payment._id p = nextPaymentOid w /\
     Payment.status p = PaymentStatus.PENDING /\
     Payment.transactionId p = None /\
     PaymentRequest.customerId body = Some (Payment.customerId p) /\
     PaymentRequest.orderId body = Some (Payment.orderId p) /\
     PaymentRequest.productId body = Some (Payment.productId p) /\
     PaymentRequest.amount body = Some (Payment.amount p) /\
     Payment.paymentId p =
       "PAY_" ++ JS.decimal (PaymentService.preSaveNow env) ++ "_"
              ++ PaymentService.preSaveRandom env).
Proof.
  unfold PaymentService.insertPayment, Mongoose.requiredString.
  destruct (PaymentRequest.customerId body) as [c|];
    [destruct (c =? "")|]; try (intros [= <- <-]; left; eauto; fail).
  destruct (PaymentRequest.orderId body) as [o|];
    [destruct (o =? "")|]; try (intros [= <- <-]; left; eauto; fail).
  destruct (PaymentRequest.productId body) as [p|];
    [destruct (p =? "")|]; try (intros [= <- <-]; left; eauto; fail).
  destruct (PaymentRequest.amount body) as [a|];
    try (intros [= <- <-]; left; eauto; fail).
  destruct (_ && _); try (intros [= <- <-]; left; eauto; fail).
  unfold bind, get, throw, modify, emit, ret. cbv zeta.
  destruct (existsb _ _); intros [= <- <-]; [left; eauto|].
  right. eexists. repeat split.
Qed.

Lemma processPayment_run (env : PaymentService.Env) (body : PaymentRequest.t) (w : World) :
  PaymentService.processPayment env body w =
  match PaymentService.insertPayment env body w with
  | (Throw _, w1) => (PaymentService.internalError, w1)
  | (Ok p, w1) =>
      let w2 := logged (GatewaySimulated (Payment.paymentId p)) w1 in
      if approves env then
        let p1 := Payment.setTransactionId (Some (issuedId env))
                    (Payment.setStatus PaymentStatus.COMPLETED p) in
        if PaymentService.transactionIdTaken p1 (payments w2)
        then (PaymentService.internalError, w2)
        else
          let p2 := Payment.setUpdatedAt (PaymentService.savedAt env) p1 in
          let w3 := logged (PaymentUpdated p2) (withPayments (replacePayment p2) 0 w2) in
          let w4 := logged (PublishAttempted (issuedId env)) w3 in
          let message :=
            {| TransactionMessage.customerId := Payment.customerId p;
               TransactionMessage.orderId := Payment.orderId p;
               TransactionMessage.productId := PaymentRequest.productId body;
               TransactionMessage.amount := Payment.amount p;
               TransactionMessage.transactionId := issuedId env;
               TransactionMessage.timestamp := PaymentService.publishedAt env |} in
          ({| http_status := 201;
              http_body :=
                createApiResponse true
                  (Some {| PaymentService.pr_success := true;
                           PaymentService.pr_paymentId := Payment.paymentId p;
                           PaymentService.pr_transactionId := Some (issuedId env);
                           PaymentService.pr_message := "Payment processed successfully" |})
                  (Some "Payment processed successfully") None |},
           match PaymentService.channel env with
           | PaymentService.ChannelDown => w4
           | PaymentService.ChannelUp _ => withQueue (snoc message) w4
           end)
      else
        let p2 := Payment.setUpdatedAt (PaymentService.savedAt env)
                    (Payment.setStatus PaymentStatus.FAILED p) in
        ({| http_status := 400;
            http_body := createApiResponse false None (Some "Payment processing failed")
                           (Some (declineReason env (Payment.amount p))) |},
         logged (PaymentUpdated p2) (withPayments (replacePayment p2) 0 w2))
  end.
Proof.
  unfold PaymentService.processPayment, tryCatch, bind at 1.
  destruct (PaymentService.insertPayment env body w) as [[p|e] w1] eqn:Hins;
    [|reflexivity].
  apply insertPayment_inv in Hins.
  destruct Hins as [(e & [=] & _)|(p' & [= <-] & _ & _ & _ & Htx & _)].
  unfold PaymentService.simulatePaymentProcessing, bind, emit, modify, ret.
  fold (approves env). cbv zeta.
  destruct (approves env).
  - cbn [PaymentService.res_success PaymentService.res_transactionId].
    unfold PaymentService.savePayment, bind, get, emit, modify, ret, throw.
    fold (issuedId env).
    destruct (PaymentService.transactionIdTaken _ _); [reflexivity|].
    unfold PaymentService.publishTransaction, bind, emit, modify, ret.
    destruct (PaymentService.channel env); reflexivity.
  - cbn [PaymentService.res_success PaymentService.res_error].
    unfold PaymentService.savePayment, bind, get, emit, modify, ret, throw.
    cbn [PaymentService.transactionIdTaken Payment.transactionId Payment.setStatus].
    unfold PaymentService.transactionIdTaken. cbn [Payment.transactionId Payment.setStatus].
    rewrite Htx. reflexivity.
Qed.

Lemma replacePayment_In (doc x : Payment.t) (stored : list Payment.t) :
  In x stored -> Payment._id x = Payment._id doc -> In doc (replacePayment doc stored).
Proof.
  intros Hin Hid. unfold replacePayment.
  apply in_map_iff. exists x. split; [|exact Hin].
  rewrite Hid, Nat.eqb_refl. reflexivity.
Qed.

Lemma In_snoc {A : Type} (x : A) (l : list A) : In x (snoc x l).
Proof. unfold snoc. apply in_or_app. right. now left. Qed.

Lemma In_snoc_old {A : Type} (x y : A) (l : list A) : In y l -> In y (snoc x l).
Proof. unfold snoc. intros H. apply in_or_app. now left. Qed.

Lemma createPaymentSchema_nil (body : PaymentRequest.t) :
  PaymentService.createPaymentSchema body = [] ->
  PaymentService.joiString (PaymentRequest.customerId body) = true /\
  PaymentService.joiString (PaymentRequest.orderId body) = true /\
  PaymentService.joiString (PaymentRequest.productId body) = true /\
  PaymentService.joiAmount (PaymentRequest.amount body) = true /\
  PaymentService.joiPaymentMethod (PaymentRequest.paymentMethod body) = true.
Proof.
  unfold PaymentService.createPaymentSchema.
  destruct (PaymentService.joiString (PaymentRequest.customerId body)); [|discriminate].
  destruct (PaymentService.joiString (PaymentRequest.orderId body)); [|discriminate].
  destruct (PaymentService.joiString (PaymentRequest.productId body)); [|discriminate].
  destruct (PaymentService.joiAmount (PaymentRequest.amount body)); [|discriminate].
  destruct (PaymentService.joiPaymentMethod (PaymentRequest.paymentMethod body));
    [|discriminate].
  intros _. repeat split.
Qed.

Lemma validateCreatePayment_accepts (body : PaymentRequest.t) :
  PaymentService.validateCreatePayment body = None ->
  PaymentService.createPaymentSchema body = [].
Proof.
  unfold PaymentService.validateCreatePayment.
  destruct (PaymentService.createPaymentSchema body); [reflexivity|discriminate].
Qed.







(** With the channel down the publisher returns [false]; the charge is
    answered with 201 all the same and the Payment is [completed]. *)
Example charge_succeeds_without_channel :
  let env := Sample.withChannel PaymentService.ChannelDown Sample.approving in
  let body :=
    {| PaymentRequest.customerId := Some "CUST_1";
       PaymentRequest.orderId := Some "ORD_1";
       PaymentRequest.productId := Some "PROD_1";
       PaymentRequest.amount := Some (JS.Fin (50000 # 1));
       PaymentRequest.paymentMethod := Some "bank_transfer" |} in
  let (response, w) := PaymentService.postPayments env body emptyWorld in
  http_status response = 201 /\
  api_success (http_body response) = true /\
  map Payment.status (payments w) = [PaymentStatus.COMPLETED] /\
  queue w = [].
Proof. vm_compute. repeat split. Qed.

(* ================================================================== *)
(** ** Order service: the saga, step by step *)
(* ================================================================== *)

Section Extends.

Variable allowed : Event -> bool.

Lemma extends_refl (w : World) : extends allowed w w.
Proof. exists []. split; [now rewrite app_nil_r|reflexivity]. Qed.

Lemma extends_same (w w' : World) : trace w' = trace w -> extends allowed w w'.
Proof. intros H. exists []. split; [now rewrite app_nil_r|reflexivity]. Qed.

Lemma extends_trans (w1 w2 w3 : World) :
  extends allowed w1 w2 -> extends allowed w2 w3 -> extends allowed w1 w3.
Proof.
  intros (e1 & H1 & A1) (e2 & H2 & A2). exists (e1 ++ e2)%list. split.
  - rewrite H2, H1. now rewrite app_assoc.
  - rewrite forallb_app, A1, A2. reflexivity.
Qed.

Lemma extends_logged (e : Event) (w w' : World) :
  allowed e = true -> extends allowed w w' -> extends allowed w (logged e w').
Proof.
  intros He H. eapply extends_trans; [exact H|].
  exists [e]. split; [reflexivity|]. simpl. now rewrite He.
Qed.

End Extends.

Lemma extends_weaken (P Q : Event -> bool) (w w' : World) :
  (forall e, P e = true -> Q e = true) -> extends P w w' -> extends Q w w'.
Proof.
  intros HPQ (events & Ht & Ha). exists events. split; [exact Ht|].
  rewrite forallb_forall in *. auto.
Qed.

Lemma extends_no_stock (w w' : World) :
  extends beforeStockDecrement w w' ->
  exists events, trace w' = (trace w ++ events)%list /\
                 forall productId quantity, ~ In (HttpPatchStock productId quantity) events.
Proof.
  intros (events & Ht & Ha). exists events. split; [exact Ht|].
  intros p q Hin. rewrite forallb_forall in Ha. specialize (Ha _ Hin). discriminate.
Qed.

(** The payment service reads and writes its own collection and the
    queue; it leaves the orders alone. *)
Lemma postPayments_frame (env : PaymentService.Env) (body : PaymentRequest.t) (w : World) :
  let w' := snd (PaymentService.postPayments env body w) in
  orders w' = orders w /\ nextOrderOid w' = nextOrderOid w /\ extends paymentSide w w'.
Proof.
  cbv zeta. unfold PaymentService.postPayments.
  destruct (PaymentService.validateCreatePayment body).
  { cbn. repeat split. apply extends_refl. }
  rewrite processPayment_run.
  destruct (PaymentService.insertPayment env body w) as [[p|e] w1] eqn:Hins;
    apply insertPayment_inv in Hins;
    destruct Hins as [(e' & He & Hw)|(p' & Hp & Hw & _)]; try discriminate; subst w1.
  2:{ cbn. repeat split. apply extends_refl. }
  cbv zeta.
  destruct (approves env);
    [destruct (PaymentService.transactionIdTaken _ _);
     [|destruct (PaymentService.channel env)]|];
    cbn; (split; [reflexivity|]); (split; [reflexivity|]);
    repeat (first [apply extends_logged; [reflexivity|]
                  |apply extends_same; reflexivity
                  |apply extends_refl]).
  all: eapply extends_trans; [|apply extends_same; reflexivity].
  all: repeat (first [apply extends_logged; [reflexivity|]
                     |apply extends_same; reflexivity]).
Qed.

Lemma validateCustomer_inv (env : OrderService.Env) (customerId : string)
    (w : World) (r : result (ServiceResponse OrderService.Customer)) (w1 : World) :
  OrderService.validateCustomer env customerId w = (r, w1) ->
  w1 = logged (HttpGetCustomer customerId) w /\ exists cv, r = Ok cv.
Proof.
  unfold OrderService.validateCustomer, bind, emit, modify, ret.
  intros [= <- <-]. split; [reflexivity|]. eexists. reflexivity.
Qed.

Lemma validateProduct_inv (env : OrderService.Env) (productId : string) (quantity : nat)
    (w : World) (r : result (ServiceResponse OrderService.Product)) (w1 : World) :
  OrderService.validateProduct env productId quantity w = (r, w1) ->
  w1 = logged (HttpGetProduct productId) w /\ exists pv, r = Ok pv.
Proof.
  unfold OrderService.validateProduct, bind, emit, modify, ret.
  intros [= <- <-]. split; [reflexivity|]. eexists. reflexivity.
Qed.

Lemma updateProductStock_inv (env : OrderService.Env) (productId : string) (quantity : nat)
    (w : World) (r : result (ServiceResponse bool)) (w1 : World) :
  OrderService.updateProductStock env productId quantity w = (r, w1) ->
  w1 = logged (HttpPatchStock productId quantity) w /\ exists sr, r = Ok sr.
Proof.
  unfold OrderService.updateProductStock, bind, emit, modify, ret.
  intros [= <- <-]. split; [reflexivity|]. eexists. reflexivity.
Qed.

Lemma insertOrder_inv (env : OrderService.Env) (body : CreateOrderRequest.t)
    (w : World) (r : result Order.t) (w1 : World) :
  OrderService.insertOrder env body w = (r, w1) ->
  (exists e, r = Throw e /\ w1 = w) \/
  (exists o, r = Ok o /\
     w1 = logged (OrderInserted o) (withOrders (snoc o) 1 w) /\
     Order._id o = nextOrderOid w /\
     Order.orderStatus o = OrderStatus.PENDING /\
     Order.orderId o =
       JS.orDefault (CreateOrderRequest.orderId body)
         ("ORD_" ++ JS.decimal (OrderService.preSaveNow env) ++ "_"
                 ++ OrderService.preSaveRandom env) /\
     existsb (fun x => Order.orderId x =? Order.orderId o) (orders w) = false /\
     CreateOrderRequest.customerId body = Some (Order.customerId o) /\
     CreateOrderRequest.productId body = Some (Order.productId o) /\
     CreateOrderRequest.amount body = Some (Order.amount o) /\
     Order.shippingAddress o =
       option_map OrderService.castAddress (CreateOrderRequest.shippingAddress body)).
Proof.
  unfold OrderService.insertOrder, Mongoose.requiredString.
  destruct (CreateOrderRequest.customerId body) as [c|];
    [destruct (c =? "")|]; try (intros [= <- <-]; left; eauto; fail).
  destruct (CreateOrderRequest.productId body) as [p|];
    [destruct (p =? "")|]; try (intros [= <- <-]; left; eauto; fail).
  destruct (CreateOrderRequest.amount body) as [a|];
    try (intros [= <- <-]; left; eauto; fail).
  destruct (_ && _); try (intros [= <- <-]; left; eauto; fail).
  unfold bind, get, throw, modify, emit, ret. cbv zeta.
  destruct (existsb _ _) eqn:Hdup; intros [= <- <-]; [left; eauto|].
  right. eexists. repeat split. exact Hdup.
Qed.

Lemma processPayment_client_inv (env : OrderService.Env)
    (customerId orderId productId : string) (amount : JS.number)
    (w : World) (r : result (ServiceResponse PaymentService.PaymentResponse)) (w1 : World) :
  OrderService.processPayment env customerId orderId productId amount w = (r, w1) ->
  (exists pr, r = Ok pr) /\
  orders w1 = orders w /\ nextOrderOid w1 = nextOrderOid w /\
  extends paymentSide w w1.
Proof.
  unfold OrderService.processPayment, OrderService.axiosPostPayments, bind at 1 2.
  unfold emit, modify. cbv beta iota zeta.
  set (body := {| PaymentRequest.customerId := Some customerId |}).
  destruct (postPayments_frame (OrderService.paymentEnv env) body
              (logged (HttpPostPayment body) w)) as (Ho & Hn & He).
  assert (Hlog : extends paymentSide w (logged (HttpPostPayment body) w))
    by (apply extends_logged; [reflexivity|apply extends_refl]).
  destruct (OrderService.link env); unfold bind, OrderService.lift, ret.
  - destruct (PaymentService.postPayments _ _ _) as [resp w'] eqn:Hp.
    cbn in Ho, Hn, He. intros [= <- <-]. split; [eauto|].
    split; [exact Ho|]. split; [exact Hn|]. eapply extends_trans; eauto.
  - intros [= <- <-]. split; [eauto|]. repeat split. exact Hlog.
  - destruct (PaymentService.postPayments _ _ _) as [resp w'] eqn:Hp.
    cbn in Ho, Hn, He. intros [= <- <-]. split; [eauto|].
    split; [exact Ho|]. split; [exact Hn|]. eapply extends_trans; eauto.
Qed.

Lemma saveOrder_run (now : N) (doc : Order.t) (w : World) :
  OrderService.saveOrder now doc w =
    (Ok (Order.setUpdatedAt now doc),
     logged (OrderUpdated (Order.setUpdatedAt now doc))
       (withOrders (replaceOrder (Order.setUpdatedAt now doc)) 0 w)).
Proof. reflexivity. Qed.

Lemma find_snoc_fresh (key : string) (o : Order.t) (stored : list Order.t) :
  existsb (fun x => Order.orderId x =? key) stored = false ->
  Order.orderId o = key ->
  find (fun x => Order.orderId x =? key) (snoc o stored) = Some o.
Proof.
  intros Hfresh Hkey. unfold snoc.
  induction stored as [|x stored IH]; simpl in *.
  - now rewrite Hkey, String.eqb_refl.
  - apply orb_false_iff in Hfresh. destruct Hfresh as [Hx Hrest].
    rewrite Hx. auto.
Qed.

Lemma find_replaced (key : string) (o doc : Order.t) (stored : list Order.t) :
  existsb (fun x => Order.orderId x =? key) stored = false ->
  Order.orderId doc = key ->
  Order._id doc = Order._id o ->
  find (fun x => Order.orderId x =? key) (replaceOrder doc (snoc o stored)) = Some doc.
Proof.
  intros Hfresh Hkey Hid. unfold snoc, replaceOrder.
  induction stored as [|x stored IH]; simpl in *.
  - now rewrite Hid, Nat.eqb_refl, Hkey, String.eqb_refl.
  - apply orb_false_iff in Hfresh. destruct Hfresh as [Hx Hrest].
    destruct (Order._id x =? Order._id doc)%nat.
    + now rewrite Hkey, String.eqb_refl.
    + rewrite Hx. auto.
Qed.

Lemma replaceOrder_other (doc o : Order.t) (stored : list Order.t) :
  In o stored -> Order._id o <> Order._id doc -> In o (replaceOrder doc stored).
Proof.
  intros Hin Hid. unfold replaceOrder. apply in_map_iff. exists o.
  split; [|exact Hin]. apply Nat.eqb_neq in Hid. now rewrite Hid.
Qed.

Section Saga.

Variable env : OrderService.Env.
Variable orderData : CreateOrderRequest.t.

Ltac intake H :=
  unfold intakeAccepts in H; apply andb_prop in H;
  let Hv := fresh "Hv" in let Ha := fresh "Ha" in
  destruct H as [Hv Ha]; apply negb_true_iff in Ha;
  unfold OrderService.createOrder, tryCatch, bind;
  rewrite Hv, Ha; cbv beta iota; cbn [negb].

Ltac step H :=
  fold (customerOf orderData) (productOf orderData) (amountOf orderData);
  rewrite H; cbv beta iota; cbn [negb].

Lemma saga_customer_failed (w : World) cv w1 :
  intakeAccepts orderData = true ->
  OrderService.validateCustomer env (customerOf orderData) w = (Ok cv, w1) ->
  success cv = false ->
  OrderService.createOrder env orderData w = (failure cv "Customer validation failed", w1).
Proof.
  intros Hi Hc Hcs. intake Hi. step Hc. rewrite Hcs. reflexivity.
Qed.

Lemma saga_product_failed (w : World) cv w1 pv w2 :
  intakeAccepts orderData = true ->
  OrderService.validateCustomer env (customerOf orderData) w = (Ok cv, w1) ->
  success cv = true ->
  OrderService.validateProduct env (productOf orderData) 1 w1 = (Ok pv, w2) ->
  success pv = false ->
  OrderService.createOrder env orderData w = (failure pv "Product validation failed", w2).
Proof.
  intros Hi Hc Hcs Hp Hps. intake Hi. step Hc. rewrite Hcs. cbn [negb].
  step Hp. rewrite Hps. reflexivity.
Qed.

Lemma saga_insert_failed (w : World) cv w1 pv w2 e w3 :
  intakeAccepts orderData = true ->
  OrderService.validateCustomer env (customerOf orderData) w = (Ok cv, w1) ->
  success cv = true ->
  OrderService.validateProduct env (productOf orderData) 1 w1 = (Ok pv, w2) ->
  success pv = true ->
  OrderService.insertOrder env orderData w2 = (Throw e, w3) ->
  OrderService.createOrder env orderData w
    = (OrderService.internalError "Failed to create order", w3).
Proof.
  intros Hi Hc Hcs Hp Hps Ho. intake Hi. step Hc. rewrite Hcs. cbn [negb].
  step Hp. rewrite Hps. cbn [negb]. step Ho. reflexivity.
Qed.

Lemma saga_payment_failed (w : World) cv w1 pv w2 saved w3 pr w4 :
  intakeAccepts orderData = true ->
  OrderService.validateCustomer env (customerOf orderData) w = (Ok cv, w1) ->
  success cv = true ->
  OrderService.validateProduct env (productOf orderData) 1 w1 = (Ok pv, w2) ->
  success pv = true ->
  OrderService.insertOrder env orderData w2 = (Ok saved, w3) ->
  OrderService.processPayment env (customerOf orderData) (Order.orderId saved)
    (productOf orderData) (amountOf orderData) w3
    = (Ok pr, w4) ->
  success pr = false ->
  OrderService.createOrder env orderData w =
    (failure pr "Payment processing failed",
     snd (OrderService.saveOrder (OrderService.savedAt env)
            (Order.setStatus OrderStatus.CANCELLED saved) w4)).
Proof.
  intros Hi Hc Hcs Hp Hps Ho Hpay Hprs. intake Hi. step Hc. rewrite Hcs. cbn [negb].
  step Hp. rewrite Hps. cbn [negb]. step Ho. step Hpay. rewrite Hprs. cbn [negb].
  rewrite saveOrder_run. reflexivity.
Qed.

Lemma saga_payment_succeeded (w : World) cv w1 pv w2 saved w3 pr w4 :
  intakeAccepts orderData = true ->
  OrderService.validateCustomer env (customerOf orderData) w = (Ok cv, w1) ->
  success cv = true ->
  OrderService.validateProduct env (productOf orderData) 1 w1 = (Ok pv, w2) ->
  success pv = true ->
  OrderService.insertOrder env orderData w2 = (Ok saved, w3) ->
  OrderService.processPayment env (customerOf orderData) (Order.orderId saved)
    (productOf orderData) (amountOf orderData) w3
    = (Ok pr, w4) ->
  success pr = true ->
  OrderService.createOrder env orderData w =
    (created (Order.setUpdatedAt (OrderService.savedAt env)
                (Order.setStatus OrderStatus.CONFIRMED saved)),
     logged (HttpPatchStock (productOf orderData) 1)
       (snd (OrderService.saveOrder (OrderService.savedAt env)
               (Order.setStatus OrderStatus.CONFIRMED saved) w4))).
Proof.
  intros Hi Hc Hcs Hp Hps Ho Hpay Hprs. intake Hi. step Hc. rewrite Hcs. cbn [negb].
  step Hp. rewrite Hps. cbn [negb]. step Ho. step Hpay. rewrite Hprs. cbn [negb].
  rewrite saveOrder_run. cbv beta iota.
  unfold OrderService.updateProductStock, bind, emit, modify, ret. reflexivity.
Qed.

End Saga.

Lemma paymentSide_before_stock (e : Event) :
  paymentSide e = true -> beforeStockDecrement e = true.
Proof. destruct e; simpl; intros H; first [reflexivity|discriminate H]. Qed.

(** Step 1 to step 4 of one saga: the worlds after the customer lookup,
    the product lookup, the insert of the order and the payment call. *)
Section PaymentStep.

Variable env : OrderService.Env.
Variable orderData : CreateOrderRequest.t.
Variables w w1 w2 w3 w4 : World.
Variable cv : ServiceResponse OrderService.Customer.
Variable pv : ServiceResponse OrderService.Product.
Variable saved : Order.t.
Variable pr : ServiceResponse PaymentService.PaymentResponse.

Hypothesis accepted : intakeAccepts orderData = true.
Hypothesis customer_checked :
  OrderService.validateCustomer env (customerOf orderData) w = (Ok cv, w1).
Hypothesis customer_valid : success cv = true.
Hypothesis product_checked :
  OrderService.validateProduct env (productOf orderData) 1 w1 = (Ok pv, w2).
Hypothesis product_valid : success pv = true.
Hypothesis order_inserted :
  OrderService.insertOrder env orderData w2 = (Ok saved, w3).
Hypothesis payment_called :
  OrderService.processPayment env (customerOf orderData) (Order.orderId saved)
    (productOf orderData) (amountOf orderData) w3 = (Ok pr, w4).

Lemma inserted_facts :
  w3 = logged (OrderInserted saved) (withOrders (snoc saved) 1 w2) /\
  Order.orderStatus saved = OrderStatus.PENDING /\
  existsb (fun x => Order.orderId x =? Order.orderId saved) (orders w2) = false /\
  OrderService.findOne (Order.orderId saved) w3 = Some saved.
Proof.
  destruct (insertOrder_inv _ _ _ _ _ order_inserted)
    as [(e & [=] & _)|(o & [= <-] & Hw & _ & Hst & _ & Hfresh & _)].
  repeat split; try assumption.
  rewrite Hw. unfold OrderService.findOne. cbn.
  apply find_snoc_fresh; [exact Hfresh|reflexivity].
Qed.

Lemma orders_at_payment : orders w4 = snoc saved (orders w2).
Proof.
  destruct (processPayment_client_inv _ _ _ _ _ _ _ _ payment_called) as (_ & Ho & _).
  destruct inserted_facts as (Hw3 & _). rewrite Ho, Hw3. reflexivity.
Qed.

Lemma saga_log_before_verdict : extends beforeStockDecrement w w4.
Proof.
  destruct (validateCustomer_inv _ _ _ _ _ customer_checked) as (Hw1 & _).
  destruct (validateProduct_inv _ _ _ _ _ _ product_checked) as (Hw2 & _).
  destruct inserted_facts as (Hw3 & _).
  destruct (processPayment_client_inv _ _ _ _ _ _ _ _ payment_called) as (_ & _ & _ & He).
  eapply extends_trans; [|eapply extends_weaken; [exact paymentSide_before_stock|exact He]].
  rewrite Hw3, Hw2, Hw1.
  apply extends_logged; [reflexivity|].
  eapply extends_trans; [|apply extends_same; reflexivity].
  apply extends_logged; [reflexivity|].
  apply extends_logged; [reflexivity|].
  apply extends_refl.
Qed.

Lemma verdict_persisted (st : OrderStatus.t) :
  let doc := Order.setUpdatedAt (OrderService.savedAt env) (Order.setStatus st saved) in
  let w5 := snd (OrderService.saveOrder (OrderService.savedAt env)
                   (Order.setStatus st saved) w4) in
  OrderService.findOne (Order.orderId saved) w5 = Some doc /\
  (forall o, In o (orders w3) -> Order._id o <> Order._id saved -> In o (orders w5)) /\
  extends beforeStockDecrement w w5.
Proof.
  cbv zeta. rewrite saveOrder_run. cbn [snd].
  destruct inserted_facts as (Hw3 & _ & Hfresh & _).
  split; [|split].
  - unfold OrderService.findOne. cbn. rewrite orders_at_payment.
    apply find_replaced; [exact Hfresh|reflexivity|reflexivity].
  - intros o Hin Hid. cbn. rewrite orders_at_payment.
    apply replaceOrder_other; [|exact Hid].
    rewrite Hw3 in Hin. exact Hin.
  - apply extends_logged; [reflexivity|].
    eapply extends_trans; [exact saga_log_before_verdict|].
    apply extends_same. reflexivity.
Qed.

Hypothesis payment_failed : success pr = false.

(** C1.  When both validations succeed, the order is stored in state
    [pending] and the payment call fails (whatever the reason: declined,
    refused request, no answer), the order is written back as [cancelled],
    the answer is a failure with the status code of the payment result (400
    when it has none) and its error text, and no stock decrement is among
    the effects of the request. *)
Theorem payment_failure_cancels_order :
  exists cancelled w',
    OrderService.createOrder env orderData w =
      ({| http_status := JS.orStatus (statusCode pr) 400;
          http_body := createApiResponse false None
                         (Some "Payment processing failed") (error pr) |}, w') /\
    Order.orderStatus saved = OrderStatus.PENDING /\
    OrderService.findOne (Order.orderId saved) w3 = Some saved /\
    OrderService.saveOrder (OrderService.savedAt env)
      (Order.setStatus OrderStatus.CANCELLED saved) w4 = (Ok cancelled, w') /\
    Order.orderStatus cancelled = OrderStatus.CANCELLED /\
    OrderService.findOne (Order.orderId saved) w' = Some cancelled /\
    exists events,
      trace w' = (trace w ++ events)%list /\
      forall productId quantity, ~ In (HttpPatchStock productId quantity) events.
Proof.
  destruct inserted_facts as (_ & Hst & _ & Hfind).
  destruct (verdict_persisted OrderStatus.CANCELLED) as (Hfound & _ & Hlog).
  eexists _, _. split.
  { rewrite (saga_payment_failed env orderData w cv w1 pv w2 saved w3 pr w4);
      try assumption.
    reflexivity. }
  split; [exact Hst|]. split; [exact Hfind|].
  split; [rewrite saveOrder_run; reflexivity|].
  split; [reflexivity|].
  split; [exact Hfound|].
  apply extends_no_stock. exact Hlog.
Qed.

(** C10.  The compensation rewrites the order found under the [orderId] of
    the order created in [pending]: the document it leaves has status
    [cancelled] and a new [updatedAt], and the same [_id], [orderId],
    [customerId], [productId], [amount], [shippingAddress] and [createdAt]
    as the document written at creation; every other stored order is left
    as it was. *)
Theorem compensation_changes_status_only :
  exists persisted w',
    OrderService.createOrder env orderData w =
      (failure pr "Payment processing failed", w') /\
    OrderService.findOne (Order.orderId saved) w3 = Some saved /\
    Order.orderStatus saved = OrderStatus.PENDING /\
    OrderService.findOne (Order.orderId saved) w' = Some persisted /\
    Order.orderStatus persisted = OrderStatus.CANCELLED /\
    Order.updatedAt persisted = OrderService.savedAt env /\
    Order._id persisted = Order._id saved /\
    Order.orderId persisted = Order.orderId saved /\
    Order.customerId persisted = Order.customerId saved /\
    Order.productId persisted = Order.productId saved /\
    Order.amount persisted = Order.amount saved /\
    Order.shippingAddress persisted = Order.shippingAddress saved /\
    Order.createdAt persisted = Order.createdAt saved /\
    forall o, In o (orders w3) -> Order._id o <> Order._id saved -> In o (orders w').
Proof.
  destruct inserted_facts as (_ & Hst & _ & Hfind).
  destruct (verdict_persisted OrderStatus.CANCELLED) as (Hfound & Hothers & _).
  eexists _, _. split.
  { apply (saga_payment_failed env orderData w cv w1 pv w2 saved w3 pr w4);
      assumption. }
  split; [exact Hfind|]. split; [exact Hst|]. split; [exact Hfound|].
  repeat split. exact Hothers.
Qed.

End PaymentStep.

(** C4.  When the payment has succeeded and the order has been written
    back as [confirmed], a stock decrement that fails changes nothing: the
    answer is 201 with [success = true] and the projection of the confirmed
    order, no error is reported, and the stored order is [confirmed]. *)
Theorem stock_failure_keeps_confirmation
    (env : OrderService.Env) (orderData : CreateOrderRequest.t)
    (w w1 w2 w3 w4 w5 w6 : World)
    (cv : ServiceResponse OrderService.Customer)
    (pv : ServiceResponse OrderService.Product)
    (saved confirmed : Order.t)
    (pr : ServiceResponse PaymentService.PaymentResponse)
    (sr : ServiceResponse bool) :
  intakeAccepts orderData = true ->
  OrderService.validateCustomer env (customerOf orderData) w = (Ok cv, w1) ->
  success cv = true ->
  OrderService.validateProduct env (productOf orderData) 1 w1 = (Ok pv, w2) ->
  success pv = true ->
  OrderService.insertOrder env orderData w2 = (Ok saved, w3) ->
  OrderService.processPayment env (customerOf orderData) (Order.orderId saved)
    (productOf orderData) (amountOf orderData) w3 = (Ok pr, w4) ->
  success pr = true ->
  OrderService.saveOrder (OrderService.savedAt env)
    (Order.setStatus OrderStatus.CONFIRMED saved) w4 = (Ok confirmed, w5) ->
  OrderService.updateProductStock env (productOf orderData) 1 w5 = (Ok sr, w6) ->
  success sr = false ->
  OrderService.createOrder env orderData w = (created confirmed, w6) /\
  http_status (created confirmed) = 201 /\
  api_success (http_body (created confirmed)) = true /\
  api_error (http_body (created confirmed)) = None /\
  option_map OrderResponse.orderStatus (api_data (http_body (created confirmed)))
    = Some OrderStatus.CONFIRMED /\
  option_map OrderResponse.orderId (api_data (http_body (created confirmed)))
    = Some (Order.orderId saved) /\
  Order.orderStatus confirmed = OrderStatus.CONFIRMED /\
  OrderService.findOne (Order.orderId saved) w6 = Some confirmed.
Proof.
  intros Hi Hc Hcs Hp Hps Ho Hpay Hprs Hsave Hstock _.
  destruct (verdict_persisted env orderData w w1 w2 w3 w4 cv pv saved pr
              Hc Hp Ho Hpay OrderStatus.CONFIRMED) as (Hfound & _ & _).
  rewrite saveOrder_run in Hsave, Hfound. injection Hsave as <- <-.
  apply updateProductStock_inv in Hstock. destruct Hstock as (-> & _).
  split.
  { rewrite (saga_payment_succeeded env orderData w cv w1 pv w2 saved w3 pr w4);
      try assumption.
    rewrite saveOrder_run. reflexivity. }
  repeat split. exact Hfound.
Qed.

(** The status code a failed customer lookup is reported with. *)
Lemma validateCustomer_status (env : OrderService.Env) (customerId : string)
    (w w1 : World) (cv : ServiceResponse OrderService.Customer) :
  OrderService.validateCustomer env customerId w = (Ok cv, w1) ->
  match OrderService.customerReply env with
  | AxNoResponse code =>
      success cv = false /\
      statusCode cv = Some (if OrderService.isRefused code then 503 else 500)
  | AxResponse r =>
      if validateStatus (http_status r)
      then success cv = false -> statusCode cv = Some 404
      else success cv = false /\ statusCode cv = Some (http_status r)
  end.
Proof.
  unfold OrderService.validateCustomer, bind, emit, modify, ret.
  intros [= <- _].
  destruct (OrderService.customerReply env) as [r|code].
  - destruct (validateStatus (http_status r)); [|split; reflexivity].
    destruct (_ && _); [discriminate|reflexivity].
  - destruct (OrderService.isRefused code); split; reflexivity.
Qed.

(** The status code a failed product lookup is reported with. *)
Lemma validateProduct_status (env : OrderService.Env) (productId : string)
    (w w1 : World) (pv : ServiceResponse OrderService.Product) :
  OrderService.validateProduct env productId 1 w = (Ok pv, w1) ->
  match OrderService.productReply env with
  | AxNoResponse code =>
      success pv = false /\
      statusCode pv = Some (if OrderService.isRefused code then 503 else 500)
  | AxResponse r =>
      if validateStatus (http_status r)
      then success pv = false ->
           statusCode pv =
             Some (if api_success (http_body r) && OrderService.isSome (api_data (http_body r))
                   then 400 else 404)
      else success pv = false /\ statusCode pv = Some (http_status r)
  end.
Proof.
  unfold OrderService.validateProduct, bind, emit, modify, ret.
  intros [= <- _].
  destruct (OrderService.productReply env) as [r|code].
  - destruct (validateStatus (http_status r)); [|split; reflexivity].
    destruct (api_success (http_body r)); [|reflexivity].
    destruct (api_data (http_body r)) as [product|]; [|reflexivity].
    destruct (_ && _); [discriminate|reflexivity].
  - destruct (OrderService.isRefused code); split; reflexivity.
Qed.

(** C5.  When the customer validation fails, or it succeeds and the product
    validation fails, the answer is a failure with the status code of the
    failing validation (400 when it has none) and its error text; the
    collections and the queue are as before, and the only effects are the
    lookups.  The status code of a failed validation is the one of the
    collaborator: 404 when it answered 2xx without a usable record (400 for
    a product that is inactive or out of stock), its own status when it
    answered with an error, 503 when the connection was refused and 500 for
    any other failure without an answer. *)
Theorem failed_validation_creates_nothing
    (env : OrderService.Env) (orderData : CreateOrderRequest.t) (w w' : World)
    (message : string) (code : option nat) (error : option string) :
  intakeAccepts orderData = true ->
  ValidationFails env orderData w message code error w' ->
  OrderService.createOrder env orderData w =
    ({| http_status := JS.orStatus code 400;
        http_body := createApiResponse false None (Some message) error |}, w') /\
  orders w' = orders w /\ nextOrderOid w' = nextOrderOid w /\
  payments w' = payments w /\ nextPaymentOid w' = nextPaymentOid w /\
  queue w' = queue w /\
  extends isLookup w w' /\
  (forall cv w1,
      OrderService.validateCustomer env (customerOf orderData) w = (Ok cv, w1) ->
      match OrderService.customerReply env with
      | AxNoResponse reason =>
          success cv = false /\
          statusCode cv = Some (if OrderService.isRefused reason then 503 else 500)
      | AxResponse r =>
          if validateStatus (http_status r)
          then success cv = false -> statusCode cv = Some 404
          else success cv = false /\ statusCode cv = Some (http_status r)
      end) /\
  (forall pv w1 w2,
      OrderService.validateProduct env (productOf orderData) 1 w1 = (Ok pv, w2) ->
      match OrderService.productReply env with
      | AxNoResponse reason =>
          success pv = false /\
          statusCode pv = Some (if OrderService.isRefused reason then 503 else 500)
      | AxResponse r =>
          if validateStatus (http_status r)
          then success pv = false ->
               statusCode pv =
                 Some (if api_success (http_body r) &&
                          OrderService.isSome (api_data (http_body r))
                       then 400 else 404)
          else success pv = false /\ statusCode pv = Some (http_status r)
      end).
Proof.
  intros Hi Hfail.
  repeat apply conj.
  8:{ intros cv w1 H. exact (validateCustomer_status _ _ _ _ _ H). }
  8:{ intros pv w1 w2 H. exact (validateProduct_status _ _ _ _ _ H). }
  all: destruct Hfail as [cv w1 Hc Hcs|cv w1 pv w2 Hc Hcs Hp Hps].
  all: pose proof (validateCustomer_inv _ _ _ _ _ Hc) as (Hw1 & _).
  all: try pose proof (validateProduct_inv _ _ _ _ _ _ Hp) as (Hw2 & _).
  all: try (subst; reflexivity).
  - apply (saga_customer_failed env orderData w cv w1); assumption.
  - apply (saga_product_failed env orderData w cv w1 pv w2); assumption.
  - subst. apply extends_logged; [reflexivity|apply extends_refl].
  - subst. apply extends_logged; [reflexivity|].
    apply extends_logged; [reflexivity|apply extends_refl].
Qed.

(* ================================================================== *)
(** ** Transaction worker: idempotent ingestion *)
(* ================================================================== *)

Lemma find_none_existsb {A : Type} (f : A -> bool) (l : list A) :
  find f l = None <-> existsb f l = false.
Proof.
  induction l as [|x l IH]; simpl; [tauto|].
  destruct (f x); simpl; [split; discriminate|exact IH].
Qed.

Lemma existsb_count {A : Type} (f : A -> bool) (l : list A) :
  existsb f l = (0 <? length (filter f l))%nat.
Proof.
  induction l as [|x l IH]; simpl; [reflexivity|].
  destruct (f x); simpl; [reflexivity|exact IH].
Qed.

Lemma count_snoc (tx : string) (doc : TransactionHistory.t)
    (stored : list TransactionHistory.t) :
  length (filter (fun h => (TransactionHistory.transactionId h =? tx)%string) (snoc doc stored)) =
  (length (filter (fun h => (TransactionHistory.transactionId h =? tx)%string) stored) +
   if (TransactionHistory.transactionId doc =? tx)%string then 1 else 0)%nat.
Proof.
  unfold snoc. rewrite filter_app, length_app. simpl.
  destruct (TransactionHistory.transactionId doc =? tx); reflexivity.
Qed.

(** A message that passes [validateTransactionMessage] passes the
    validators of the schema. *)
Lemma valid_message_fits_schema (data : TransactionWorker.RawData) :
  TransactionWorker.validateTransactionMessage data = true ->
  exists tx,
    TransactionWorker.transactionId data = JS.Str tx /\
    TransactionWorker.invalidPaths
      (TransactionWorker.stringOf (TransactionWorker.customerId data))
      (TransactionWorker.stringOf (TransactionWorker.orderId data))
      (TransactionWorker.stringOf (TransactionWorker.productId data))
      (TransactionWorker.numberOf (TransactionWorker.amount data)) = [].
Proof.
  unfold TransactionWorker.validateTransactionMessage.
  destruct data as [tx c o p a ts]; simpl.
  intros H.
  assert (H' :
    TransactionWorker.isString tx && TransactionWorker.isString c &&
    TransactionWorker.isString o && TransactionWorker.isString p &&
    TransactionWorker.isNumber a && TransactionWorker.nonNegative a &&
    TransactionWorker.nonEmpty tx && TransactionWorker.nonEmpty c &&
    TransactionWorker.nonEmpty o && TransactionWorker.nonEmpty p = true).
  { destruct p as [| |?|?|p|]; try exact H. destruct p; [discriminate H|exact H]. }
  clear H.
  repeat (apply andb_prop in H'; let K := fresh "K" in destruct H' as [H' K]).
  destruct tx as [| |?|?|tx|]; try discriminate.
  destruct c as [| |?|?|c|]; try discriminate.
  destruct o as [| |?|?|o|]; try discriminate.
  destruct p as [| |?|?|p|]; try discriminate.
  destruct a as [| |?|a|?|]; try discriminate.
  destruct c as [|? ?]; [discriminate|].
  destruct o as [|? ?]; [discriminate|].
  destruct p as [|? ?]; [discriminate|].
  eexists. split; [reflexivity|].
  unfold TransactionWorker.invalidPaths. simpl in *.
  match goal with K : ?x = true |- context [if ?x then _ else _] => rewrite K end.
  reflexivity.
Qed.

(** One delivery, step by step. *)
Lemma processMessage_eq (now : N) (msg : TransactionWorker.Message)
    (s : TransactionWorker.Store) :
  TransactionWorker.processMessage now msg s =
  let tag := TransactionWorker.deliveryTag msg in
  let caught (e : string) (s1 : TransactionWorker.Store) :=
    if JS.includes "productId: Path `productId` is required" e
    then (tt, acknowledged tag s1)
    else (tt, snd (TransactionWorker.settle (TransactionWorker.Nack tag false false) s1)) in
  match TransactionWorker.content msg with
  | TransactionWorker.Unparsable e => caught e s
  | TransactionWorker.Parsed data =>
      if TransactionWorker.validateTransactionMessage data then
        match TransactionWorker.transactionId data with
        | JS.Str tx =>
            if existsb (fun h => TransactionHistory.transactionId h =? tx)
                 (TransactionWorker.history s)
            then (tt, acknowledged tag s)
            else
              match TransactionWorker.insertHistory now data s with
              | (Ok _, s1) => (tt, acknowledged tag s1)
              | (Throw e, s1) => caught e s1
              end
        | _ =>
            match TransactionWorker.insertHistory now data s with
            | (Ok _, s1) => (tt, acknowledged tag s1)
            | (Throw e, s1) => caught e s1
            end
        end
      else (tt, acknowledged tag s)
  end.
Proof.
  cbv zeta.
  unfold TransactionWorker.processMessage, tryCatch, bind.
  destruct (TransactionWorker.content msg) as [e|data].
  { unfold throw, exec. destruct (JS.includes _ e); reflexivity. }
  unfold ret. cbv beta iota.
  destruct (TransactionWorker.validateTransactionMessage data); cbn [negb];
    [|reflexivity].
  unfold TransactionWorker.findOne, bind, get, ret. cbv beta iota.
  destruct (TransactionWorker.transactionId data) as [| |?|?|tx|].
  5:{ destruct (existsb _ _) eqn:He.
      - destruct (find _ _) eqn:Hf; [reflexivity|].
        apply find_none_existsb in Hf. congruence.
      - apply find_none_existsb in He. rewrite He.
        destruct (TransactionWorker.insertHistory now data s) as [[doc|e] s1];
          [reflexivity|].
        unfold exec. destruct (JS.includes _ e); reflexivity. }
  all: destruct (TransactionWorker.insertHistory now data s) as [[doc|e] s1];
    [reflexivity|unfold exec; destruct (JS.includes _ e); reflexivity].
Qed.

(** One delivery: what it does to the collection and how it is settled. *)
Lemma processMessage_run (now : N) (msg : TransactionWorker.Message)
    (s : TransactionWorker.Store) :
  let s' := snd (TransactionWorker.processMessage now msg s) in
  (forall tx, TransactionWorker.bears tx msg = true ->
     if (0 <? TransactionWorker.countRecords tx s)%nat
     then s' = acknowledged (TransactionWorker.deliveryTag msg) s
     else exists doc,
            TransactionHistory.transactionId doc = tx /\
            TransactionHistory.status doc = "completed" /\
            TransactionWorker.history s' = snoc doc (TransactionWorker.history s) /\
            TransactionWorker.settled s' =
              snoc (TransactionWorker.Ack (TransactionWorker.deliveryTag msg))
                (TransactionWorker.settled s)) /\
  ((forall tx, TransactionWorker.bears tx msg = false) ->
     TransactionWorker.history s' = TransactionWorker.history s).
Proof.
  cbv zeta. rewrite processMessage_eq. cbv zeta.
  unfold TransactionWorker.bears.
  destruct (TransactionWorker.content msg) as [e|data].
  { split; [discriminate|]. intros _. destruct (JS.includes _ e); reflexivity. }
  destruct (TransactionWorker.validateTransactionMessage data) eqn:Hv; cbn [andb].
  2:{ split; [discriminate|]. intros _. reflexivity. }
  destruct (valid_message_fits_schema data Hv) as (tx0 & Htx & Hpaths).
  rewrite Htx.
  split.
  - intros tx Hb. apply String.eqb_eq in Hb. subst tx0.
    unfold TransactionWorker.countRecords. rewrite <- existsb_count.
    destruct (existsb _ _) eqn:He; [reflexivity|].
    unfold TransactionWorker.insertHistory. rewrite Hpaths.
    unfold bind, get, ret, throw, modify. cbv zeta.
    cbn [TransactionHistory.transactionId]. rewrite Htx.
    cbn [TransactionWorker.stringOf]. rewrite He.
    eexists. repeat split; reflexivity.
  - intros Hnone. specialize (Hnone tx0). rewrite String.eqb_refl in Hnone.
    discriminate.
Qed.

Ltac count_cases :=
  unfold TransactionWorker.countRecords in *;
  unfold acknowledged; cbn [TransactionWorker.history];
  repeat match goal with
         | |- context [(0 <? ?n)%nat] => destruct (Nat.ltb_spec 0 n)
         end;
  try reflexivity; try lia.

Lemma processMessage_count (now : N) (msg : TransactionWorker.Message)
    (s : TransactionWorker.Store) (tx : string) :
  TransactionWorker.countRecords tx (snd (TransactionWorker.processMessage now msg s)) =
  if (0 <? TransactionWorker.countRecords tx s)%nat
  then TransactionWorker.countRecords tx s
  else if TransactionWorker.bears tx msg then 1 else 0.
Proof.
  destruct (processMessage_run now msg s) as (Hbears & Hnone).
  cbv zeta in *.
  destruct (TransactionWorker.bears tx msg) eqn:Hb.
  - specialize (Hbears tx Hb).
    destruct (0 <? TransactionWorker.countRecords tx s)%nat eqn:Hc.
    + rewrite Hbears. reflexivity.
    + destruct Hbears as (doc & Hid & _ & Hh & _).
      unfold TransactionWorker.countRecords in *. rewrite Hh, count_snoc, Hid.
      rewrite String.eqb_refl. apply Nat.ltb_ge in Hc. lia.
  - (* the delivery bears another identifier, or none *)
    destruct (TransactionWorker.content msg) as [e|data] eqn:Hcontent.
    + unfold TransactionWorker.countRecords at 1. rewrite Hnone.
      * count_cases.
      * intros tx'. unfold TransactionWorker.bears. now rewrite Hcontent.
    + destruct (TransactionWorker.validateTransactionMessage data) eqn:Hv.
      * destruct (valid_message_fits_schema data Hv) as (tx0 & Htx & _).
        assert (Hb0 : TransactionWorker.bears tx0 msg = true).
        { unfold TransactionWorker.bears. rewrite Hcontent, Hv, Htx.
          now rewrite String.eqb_refl. }
        assert (Hne : (tx0 =? tx) = false).
        { unfold TransactionWorker.bears in Hb. rewrite Hcontent, Hv, Htx in Hb.
          exact Hb. }
        specialize (Hbears tx0 Hb0).
        destruct (0 <? TransactionWorker.countRecords tx0 s)%nat.
        -- rewrite Hbears. count_cases.
        -- destruct Hbears as (doc & Hid & _ & Hh & _).
           unfold TransactionWorker.countRecords at 1. rewrite Hh, count_snoc, Hid, Hne.
           count_cases.
      * unfold TransactionWorker.countRecords at 1. rewrite Hnone.
        -- count_cases.
        -- intros tx'. unfold TransactionWorker.bears. now rewrite Hcontent, Hv.
Qed.

Lemma consume_count (deliveries : list (N * TransactionWorker.Message))
    (s : TransactionWorker.Store) (tx : string) :
  TransactionWorker.countRecords tx (TransactionWorker.consume deliveries s) =
  if (0 <? TransactionWorker.countRecords tx s)%nat
  then TransactionWorker.countRecords tx s
  else if existsb (fun d => TransactionWorker.bears tx (snd d)) deliveries then 1 else 0.
Proof.
  revert s. induction deliveries as [|[now msg] deliveries IH]; intros s; simpl.
  - destruct (0 <? _)%nat eqn:Hc; [reflexivity|].
    apply Nat.ltb_ge in Hc. lia.
  - unfold TransactionWorker.consume in *. simpl. rewrite IH.
    rewrite processMessage_count.
    destruct (0 <? TransactionWorker.countRecords tx s)%nat eqn:Hc.
    + rewrite Hc. reflexivity.
    + destruct (TransactionWorker.bears tx msg); reflexivity.
Qed.

(** C3.  Starting from an empty collection, after any sequence of
    deliveries, taken one at a time, that contains a well-formed
    TransactionMessage bearing [tx], there is exactly one audit record with
    that [transactionId]; and in the store so reached every further delivery
    of a message bearing [tx] is acknowledged and changes nothing else. *)
Theorem redelivery_is_idempotent
    (deliveries : list (N * TransactionWorker.Message))
    (now : N) (msg : TransactionWorker.Message) (tx : string) :
  TransactionWorker.bears tx msg = true ->
  In (now, msg) deliveries ->
  let s := TransactionWorker.consume deliveries TransactionWorker.emptyStore in
  TransactionWorker.countRecords tx s = 1 /\
  forall later again,
    TransactionWorker.bears tx again = true ->
    TransactionWorker.processMessage later again s =
      (tt, acknowledged (TransactionWorker.deliveryTag again) s).
Proof.
  intros Hb Hin s.
  assert (Hone : TransactionWorker.countRecords tx s = 1).
  { unfold s. rewrite consume_count. cbn.
    assert (He : existsb (fun d => TransactionWorker.bears tx (snd d)) deliveries = true).
    { apply existsb_exists. exists (now, msg). split; [exact Hin|exact Hb]. }
    now rewrite He. }
  split; [exact Hone|].
  intros later again Hagain.
  destruct (processMessage_run later again s) as (Hbears & _).
  specialize (Hbears tx Hagain). cbv zeta in Hbears. rewrite Hone in Hbears.
  cbn in Hbears.
  destruct (TransactionWorker.processMessage later again s) as [[] s'].
  cbn in Hbears. now rewrite Hbears.
Qed.

(* ================================================================== *)
(** ** The invariant of the flow *)
(* ================================================================== *)

Lemma replacePayment_other (doc p : Payment.t) (stored : list Payment.t) :
  In p stored -> Payment._id p <> Payment._id doc -> In p (replacePayment doc stored).
Proof.
  intros Hin Hid. unfold replacePayment. apply in_map_iff. exists p.
  split; [|exact Hin]. apply Nat.eqb_neq in Hid. now rewrite Hid.
Qed.

Lemma replacePayment_ids (doc : Payment.t) (stored : list Payment.t) (bound : nat) :
  Payment._id doc < bound ->
  (forall p, In p stored -> Payment._id p < bound) ->
  forall p, In p (replacePayment doc stored) -> Payment._id p < bound.
Proof.
  intros Hdoc Hall p Hin. unfold replacePayment in Hin.
  apply in_map_iff in Hin. destruct Hin as (q & Hq & Hin).
  destruct (Payment._id q =? Payment._id doc)%nat; subst p; auto.
Qed.

Lemma In_snoc_inv {A : Type} (x y : A) (l : list A) :
  In y (snoc x l) -> In y l \/ y = x.
Proof.
  unfold snoc. intros H. apply in_app_or in H.
  destruct H as [H|[H|[]]]; auto.
Qed.

(** One charge: the payments stored before are still there, and a
    successful answer leaves a completed Payment for the [orderId] of the
    request. *)
Lemma postPayments_payments (env : PaymentService.Env) (body : PaymentRequest.t)
    (w : World) :
  paymentsFresh w ->
  let r := fst (PaymentService.postPayments env body w) in
  let w' := snd (PaymentService.postPayments env body w) in
  paymentsFresh w' /\
  (forall p, In p (payments w) -> In p (payments w')) /\
  (validateStatus (http_status r) = true ->
   exists p, In p (payments w') /\
             PaymentRequest.orderId body = Some (Payment.orderId p) /\
             Payment.status p = PaymentStatus.COMPLETED).
Proof.
  intros Hfresh. cbv zeta. unfold PaymentService.postPayments.
  destruct (PaymentService.validateCreatePayment body) as [refusal|] eqn:Hjoi.
  { cbn [fst snd]. split; [exact Hfresh|]. split; [auto|].
    unfold PaymentService.validateCreatePayment in Hjoi.
    destruct (PaymentService.createPaymentSchema body); [discriminate|].
    injection Hjoi as <-. cbn. discriminate. }
  rewrite processPayment_run.
  destruct (PaymentService.insertPayment env body w) as [[p|e] w1] eqn:Hins;
    apply insertPayment_inv in Hins;
    destruct Hins as [(e' & He & Hw)|(p' & Hp & Hw & Hid & Hst & Htx & _ & Hoid & _)];
    try discriminate; subst w1.
  2:{ cbn [fst snd]. split; [exact Hfresh|]. split; [auto|]. cbn. discriminate. }
  injection Hp as <-.
  assert (Hfresh1 : forall q, In q (snoc p (payments w)) -> Payment._id q < 1 + nextPaymentOid w).
  { intros q Hq. apply In_snoc_inv in Hq. destruct Hq as [Hq| ->].
    - specialize (Hfresh q Hq). lia.
    - lia. }
  assert (Hold : forall doc, Payment._id doc = Payment._id p ->
            forall q, In q (payments w) -> In q (replacePayment doc (snoc p (payments w)))).
  { intros doc Hdoc q Hq. apply replacePayment_other.
    - apply In_snoc_old, Hq.
    - specialize (Hfresh q Hq). lia. }
  cbv zeta.
  destruct (approves env).
  - destruct (PaymentService.transactionIdTaken _ _).
    + cbn. split; [exact Hfresh1|]. split; [|discriminate].
      intros q Hq. apply In_snoc_old, Hq.
    + assert (Hgoal :
        forall w',
          payments w' = replacePayment
                          (Payment.setUpdatedAt (PaymentService.savedAt env)
                             (Payment.setTransactionId (Some (issuedId env))
                                (Payment.setStatus PaymentStatus.COMPLETED p)))
                          (snoc p (payments w)) ->
          nextPaymentOid w' = 1 + nextPaymentOid w ->
          paymentsFresh w' /\
          (forall q, In q (payments w) -> In q (payments w')) /\
          (exists q, In q (payments w') /\
                     PaymentRequest.orderId body = Some (Payment.orderId q) /\
                     Payment.status q = PaymentStatus.COMPLETED)).
      { intros w' Hpay Hnext. split; [|split].
        - intros q Hq. rewrite Hpay in Hq. rewrite Hnext.
          eapply replacePayment_ids; [|exact Hfresh1|exact Hq]. cbn. lia.
        - intros q Hq. rewrite Hpay. apply Hold; [reflexivity|exact Hq].
        - eexists. split; [|split].
          + rewrite Hpay. eapply replacePayment_In; [apply In_snoc|reflexivity].
          + exact Hoid.
          + reflexivity. }
      cbn [fst snd].
      destruct (PaymentService.channel env);
        (edestruct Hgoal as (G1 & G2 & G3); [| |split; [exact G1|split; [exact G2|intros _; exact G3]]]);
        reflexivity.
  - cbn [fst snd payments nextPaymentOid logged withPayments http_status].
    split; [|split; [|discriminate]].
    + intros q Hq. eapply replacePayment_ids; [|exact Hfresh1|exact Hq]. cbn. lia.
    + intros q Hq.
      apply (Hold (Payment.setUpdatedAt (PaymentService.savedAt env)
                     (Payment.setStatus PaymentStatus.FAILED p)) eq_refl q Hq).
Qed.

(** The payment call as the order service sees it. *)
Lemma processPayment_client_payments (env : OrderService.Env)
    (customerId orderId productId : string) (amount : JS.number)
    (w w1 : World) (pr : ServiceResponse PaymentService.PaymentResponse) :
  OrderService.processPayment env customerId orderId productId amount w = (Ok pr, w1) ->
  paymentsFresh w ->
  paymentsFresh w1 /\
  (forall p, In p (payments w) -> In p (payments w1)) /\
  (success pr = true ->
   exists p, In p (payments w1) /\ Payment.orderId p = orderId /\
             Payment.status p = PaymentStatus.COMPLETED).
Proof.
  unfold OrderService.processPayment, OrderService.axiosPostPayments, bind at 1 2.
  unfold emit, modify. cbv beta iota zeta.
  set (body := {| PaymentRequest.customerId := Some customerId |}).
  intros Hrun Hfresh.
  assert (Hfresh0 : paymentsFresh (logged (HttpPostPayment body) w)) by exact Hfresh.
  destruct (postPayments_payments (OrderService.paymentEnv env) body _ Hfresh0)
    as (G1 & G2 & G3).
  revert Hrun.
  destruct (OrderService.link env); unfold bind, OrderService.lift, ret.
  - destruct (PaymentService.postPayments _ _ _) as [resp w'] eqn:Hp.
    cbn [fst snd] in G1, G2, G3. intros [= <- <-].
    split; [exact G1|]. split; [exact G2|].
    destruct (validateStatus (http_status resp)); [|discriminate].
    intros _. destruct G3 as (p & Hin & Hoid & Hst); [reflexivity|].
    exists p. split; [exact Hin|]. split; [|exact Hst].
    cbn in Hoid. congruence.
  - intros [= <- <-]. split; [exact Hfresh|]. split; [auto|].
    destruct (OrderService.isRefused code); discriminate.
  - destruct (PaymentService.postPayments _ _ _) as [resp w'] eqn:Hp.
    cbn [fst snd] in G1, G2. intros [= <- <-].
    split; [exact G1|]. split; [exact G2|].
    destruct (OrderService.isRefused code); discriminate.
Qed.

Lemma NoDup_snoc {A : Type} (x : A) (l : list A) :
  NoDup l -> ~ In x l -> NoDup (snoc x l).
Proof.
  unfold snoc. induction l as [|y l IH]; simpl; intros Hnd Hnin.
  - constructor; [intros []|constructor].
  - inversion Hnd as [|? ? Hy Hl]; subst. constructor.
    + intros Hin. apply in_app_or in Hin. destruct Hin as [Hin|[->|[]]]; tauto.
    + apply IH; tauto.
Qed.

Lemma map_snoc {A B : Type} (f : A -> B) (x : A) (l : list A) :
  map f (snoc x l) = snoc (f x) (map f l).
Proof. unfold snoc. now rewrite map_app. Qed.

Lemma NoDup_map_inj {A B : Type} (f : A -> B) (l : list A) (x y : A) :
  NoDup (map f l) -> In x l -> In y l -> f x = f y -> x = y.
Proof.
  induction l as [|z l IH]; simpl; [tauto|].
  intros Hnd Hx Hy Hf. inversion Hnd as [|? ? Hz Hl]; subst.
  destruct Hx as [->|Hx], Hy as [->|Hy]; try reflexivity.
  - exfalso. apply Hz. rewrite Hf. now apply in_map.
  - exfalso. apply Hz. rewrite <- Hf. now apply in_map.
  - auto.
Qed.

Lemma not_taken (key : string) (stored : list Order.t) :
  existsb (fun x => Order.orderId x =? key) stored = false ->
  ~ In key (map Order.orderId stored).
Proof.
  intros He Hin. apply in_map_iff in Hin. destruct Hin as (o & Ho & Hin).
  assert (existsb (fun x => Order.orderId x =? key) stored = true).
  { apply existsb_exists. exists o. split; [exact Hin|]. now apply String.eqb_eq. }
  congruence.
Qed.

Lemma replaceOrder_oids (doc : Order.t) (stored : list Order.t) :
  map Order._id (replaceOrder doc stored) = map Order._id stored.
Proof.
  unfold replaceOrder. rewrite map_map. apply map_ext_in. intros o _.
  destruct (Order._id o =? Order._id doc)%nat eqn:E; [|reflexivity].
  apply Nat.eqb_eq in E. now rewrite E.
Qed.

Lemma replaceOrder_snoc_fresh (doc o : Order.t) (stored : list Order.t) :
  (forall x, In x stored -> Order._id x <> Order._id doc) ->
  Order._id o = Order._id doc ->
  replaceOrder doc (snoc o stored) = snoc doc stored.
Proof.
  intros Hfresh Hid. unfold replaceOrder, snoc. rewrite map_app. simpl.
  rewrite Hid, Nat.eqb_refl. f_equal.
  rewrite <- (map_id stored) at 2. apply map_ext_in. intros x Hx.
  specialize (Hfresh x Hx). apply Nat.eqb_neq in Hfresh. now rewrite Hfresh.
Qed.

Lemma replaceOrder_In (doc o : Order.t) (stored : list Order.t) :
  In o (replaceOrder doc stored) -> o = doc \/ In o stored.
Proof.
  unfold replaceOrder. intros H. apply in_map_iff in H.
  destruct H as (x & Hx & Hin).
  destruct (Order._id x =? Order._id doc)%nat; subst; auto.
Qed.

Lemma Consistent_same (w w' : World) :
  orders w' = orders w -> nextOrderOid w' = nextOrderOid w ->
  payments w' = payments w -> nextPaymentOid w' = nextPaymentOid w ->
  Consistent w -> Consistent w'.
Proof.
  intros Ho Hn Hp Hq [H1 H2 H3 H4 H5].
  constructor; unfold ordersFresh, paymentsFresh, confirmedIsPaid in *;
    rewrite ?Ho, ?Hn, ?Hp, ?Hq; assumption.
Qed.

Lemma Consistent_empty : Consistent emptyWorld.
Proof.
  constructor; cbn; try constructor; intros ? [].
Qed.

(** The worlds a [createOrder] can end in: nothing stored, or an order
    inserted, paid for and written back with the verdict. *)
Lemma createOrder_cases (env : OrderService.Env) (orderData : CreateOrderRequest.t)
    (w : World) :
  let w' := snd (OrderService.createOrder env orderData w) in
  (orders w' = orders w /\ nextOrderOid w' = nextOrderOid w /\
   payments w' = payments w /\ nextPaymentOid w' = nextPaymentOid w)
  \/
  (exists w2 saved w3 pr w4,
      orders w2 = orders w /\ nextOrderOid w2 = nextOrderOid w /\
      payments w2 = payments w /\ nextPaymentOid w2 = nextPaymentOid w /\
      OrderService.insertOrder env orderData w2 = (Ok saved, w3) /\
      OrderService.processPayment env (customerOf orderData) (Order.orderId saved)
        (productOf orderData) (amountOf orderData) w3 = (Ok pr, w4) /\
      orders w' =
        replaceOrder
          (Order.setUpdatedAt (OrderService.savedAt env)
             (Order.setStatus
                (if success pr then OrderStatus.CONFIRMED else OrderStatus.CANCELLED)
                saved))
          (orders w4) /\
      nextOrderOid w' = nextOrderOid w4 /\
      payments w' = payments w4 /\ nextPaymentOid w' = nextPaymentOid w4).
Proof.
  cbv zeta.
  destruct (intakeAccepts orderData) eqn:Hi.
  2:{ destruct (createOrder_rejected env orderData w Hi) as (m & e & ->).
      left. repeat split. }
  destruct (OrderService.validateCustomer env (customerOf orderData) w)
    as [rc w1] eqn:Hc.
  destruct (validateCustomer_inv _ _ _ _ _ Hc) as (Hw1 & cv & ->).
  destruct (success cv) eqn:Hcs.
  2:{ rewrite (saga_customer_failed env orderData w cv w1 Hi Hc Hcs).
      left. subst w1. repeat split. }
  destruct (OrderService.validateProduct env (productOf orderData) 1 w1)
    as [rp w2] eqn:Hp.
  destruct (validateProduct_inv _ _ _ _ _ _ Hp) as (Hw2 & pv & ->).
  destruct (success pv) eqn:Hps.
  2:{ rewrite (saga_product_failed env orderData w cv w1 pv w2 Hi Hc Hcs Hp Hps).
      left. subst w2 w1. repeat split. }
  destruct (OrderService.insertOrder env orderData w2) as [[saved|e] w3] eqn:Ho.
  2:{ rewrite (saga_insert_failed env orderData w cv w1 pv w2 e w3 Hi Hc Hcs Hp Hps Ho).
      destruct (insertOrder_inv _ _ _ _ _ Ho) as [(e' & _ & ->)|(o & [=] & _)].
      left. subst w2 w1. repeat split. }
  destruct (OrderService.processPayment env (customerOf orderData) (Order.orderId saved)
              (productOf orderData) (amountOf orderData) w3) as [rpay w4] eqn:Hpay.
  destruct (processPayment_client_inv _ _ _ _ _ _ _ _ Hpay) as ((pr & ->) & _).
  right. exists w2, saved, w3, pr, w4.
  split; [subst w2 w1; reflexivity|]. split; [subst w2 w1; reflexivity|].
  split; [subst w2 w1; reflexivity|]. split; [subst w2 w1; reflexivity|].
  split; [exact Ho|]. split; [exact Hpay|].
  destruct (success pr) eqn:Hprs.
  - rewrite (saga_payment_succeeded env orderData w cv w1 pv w2 saved w3 pr w4
               Hi Hc Hcs Hp Hps Ho Hpay Hprs).
    rewrite saveOrder_run. repeat split.
  - rewrite (saga_payment_failed env orderData w cv w1 pv w2 saved w3 pr w4
               Hi Hc Hcs Hp Hps Ho Hpay Hprs).
    rewrite saveOrder_run. repeat split.
Qed.

Lemma createOrder_consistent (env : OrderService.Env) (orderData : CreateOrderRequest.t)
    (w : World) :
  Consistent w -> Consistent (snd (OrderService.createOrder env orderData w)).
Proof.
  intros Hw.
  destruct (createOrder_cases env orderData w)
    as [(Ho & Hn & Hp & Hq)
       |(w2 & saved & w3 & pr & w4 & Ho2 & Hn2 & Hp2 & Hq2 & Hins & Hpay
         & Ho & Hn & Hp & Hq)].
  { eapply Consistent_same; eassumption. }
  assert (Hw2 : Consistent w2) by (eapply Consistent_same; eassumption).
  clear Hw. destruct Hw2 as [F1 F2 F3 F4 F5].
  destruct (insertOrder_inv _ _ _ _ _ Hins)
    as [(e & [=] & _)|(o & [= <-] & Hw3 & Hid & _ & _ & Hfresh & _)].
  destruct (processPayment_client_inv _ _ _ _ _ _ _ _ Hpay) as (_ & Ho4 & Hn4 & _).
  assert (Hpf3 : paymentsFresh w3) by (subst w3; exact F4).
  destruct (processPayment_client_payments _ _ _ _ _ _ _ _ Hpay Hpf3)
    as (G1 & G2 & G3).
  set (doc := Order.setUpdatedAt _ _) in Ho.
  assert (Hdoc : Order._id doc = nextOrderOid w2) by exact Hid.
  assert (Horders : orders (snd (OrderService.createOrder env orderData w))
                    = snoc doc (orders w2)).
  { rewrite Ho, Ho4, Hw3. cbn [orders logged withOrders].
    apply replaceOrder_snoc_fresh; [|rewrite Hid, Hdoc; reflexivity].
    intros x Hx. specialize (F1 x Hx). rewrite Hdoc. lia. }
  assert (Hnext : nextOrderOid (snd (OrderService.createOrder env orderData w))
                  = 1 + nextOrderOid w2).
  { rewrite Hn, Hn4, Hw3. reflexivity. }
  constructor.
  - intros x Hx. rewrite Horders in Hx. rewrite Hnext.
    apply In_snoc_inv in Hx. destruct Hx as [Hx| ->].
    + specialize (F1 x Hx). lia.
    + lia.
  - rewrite Horders, map_snoc. apply NoDup_snoc; [exact F2|].
    intros Hin. apply in_map_iff in Hin. destruct Hin as (x & Hx & Hin).
    specialize (F1 x Hin). lia.
  - rewrite Horders, map_snoc. apply NoDup_snoc; [exact F3|].
    apply not_taken. exact Hfresh.
  - intros p Hin. rewrite Hp in Hin. rewrite Hq. apply G1, Hin.
  - intros x Hx Hst. rewrite Horders in Hx. apply In_snoc_inv in Hx.
    destruct Hx as [Hx| ->].
    + destruct (F5 x Hx Hst) as (p & Hin & Hoid & Hps).
      exists p. split; [|split; assumption].
      rewrite Hp. apply G2. subst w3. exact Hin.
    + destruct (success pr) eqn:Hprs; [|discriminate Hst].
      destruct (G3 eq_refl) as (p & Hin & Hoid & Hps).
      exists p. split; [rewrite Hp; exact Hin|]. split; [|exact Hps].
      exact Hoid.
Qed.

Lemma cancelOrder_consistent (now : N) (orderId : string) (w : World) :
  Consistent w -> Consistent (snd (OrderService.cancelOrder now orderId w)).
Proof.
  intros Hw. unfold OrderService.cancelOrder, tryCatch, bind, get.
  cbv beta iota.
  destruct (OrderService.findOne orderId w) as [order|] eqn:Hfind; [|exact Hw].
  destruct (OrderService.cancellable (Order.orderStatus order)); [|exact Hw].
  cbn [negb]. rewrite saveOrder_run. unfold ret. cbv beta iota. cbn [snd].
  set (doc := Order.setUpdatedAt now (Order.setStatus OrderStatus.CANCELLED order)).
  unfold OrderService.findOne in Hfind. apply find_some in Hfind.
  destruct Hfind as (Hin & _).
  destruct Hw as [F1 F2 F3 F4 F5].
  assert (Hids : map Order.orderId (replaceOrder doc (orders w))
                 = map Order.orderId (orders w)).
  { unfold replaceOrder. rewrite map_map. apply map_ext_in. intros x Hx.
    destruct (Order._id x =? Order._id doc)%nat eqn:E; [|reflexivity].
    apply Nat.eqb_eq in E.
    rewrite (NoDup_map_inj Order._id (orders w) x order F2 Hx Hin E). reflexivity. }
  constructor; unfold ordersFresh, paymentsFresh, confirmedIsPaid;
    cbn [orders nextOrderOid payments nextPaymentOid logged withOrders].
  - intros x Hx. apply (in_map Order._id) in Hx. rewrite replaceOrder_oids in Hx.
    apply in_map_iff in Hx. destruct Hx as (y & <- & Hy). apply F1, Hy.
  - rewrite replaceOrder_oids. exact F2.
  - rewrite Hids. exact F3.
  - exact F4.
  - intros x Hx Hst. apply replaceOrder_In in Hx. destruct Hx as [->|Hx].
    + discriminate Hst.
    + apply F5; assumption.
Qed.

Lemma postPayments_consistent (env : PaymentService.Env) (body : PaymentRequest.t)
    (w : World) :
  Consistent w -> Consistent (snd (PaymentService.postPayments env body w)).
Proof.
  intros [F1 F2 F3 F4 F5].
  destruct (postPayments_frame env body w) as (Ho & Hn & _).
  destruct (postPayments_payments env body w F4) as (G1 & G2 & _).
  cbv zeta in *.
  constructor; unfold ordersFresh, confirmedIsPaid; rewrite ?Ho, ?Hn; try assumption.
  intros o Hin Hst. destruct (F5 o Hin Hst) as (p & Hp & Hrest).
  exists p. split; [apply G2, Hp|exact Hrest].
Qed.

Lemma run_consistent (requests : list System.Request) (w : World) :
  Consistent w -> Consistent (System.run requests w).
Proof.
  revert w. induction requests as [|r requests IH]; intros w Hw; [exact Hw|].
  unfold System.run in *. simpl. apply IH.
  destruct r as [env body|now orderId|env body]; simpl.
  - apply createOrder_consistent, Hw.
  - apply cancelOrder_consistent, Hw.
  - apply postPayments_consistent, Hw.
Qed.

(** C2.  In every world reached from the empty one by orders submitted,
    orders cancelled and charges posted to the payment service, an order
    whose status is [confirmed] has a Payment with status [completed] for
    its [orderId]. *)
Theorem confirmed_orders_are_paid (requests : list System.Request) :
  let w := System.run requests emptyWorld in
  forall o,
    In o (orders w) ->
    Order.orderStatus o = OrderStatus.CONFIRMED ->
    exists p,
      In p (payments w) /\
      Payment.orderId p = Order.orderId o /\
      Payment.status p = PaymentStatus.COMPLETED.
Proof.
  intros w. apply (confirmed_is_paid w).
  apply run_consistent, Consistent_empty.
Qed.

(** [updateOrderStatus] is outside the flow of C2: it can confirm an order
    whose payment was declined. *)
Example status_overwrite_confirms_unpaid_order :
  let declined :=
    Sample.env Sample.declining (AxResponse (Sample.ok true)) OrderService.Delivered
      (AxResponse (Sample.ok Sample.customer)) in
  let w1 := snd (OrderService.createOrder declined
                   (Sample.order (Some (JS.Fin (50000 # 1))) None) emptyWorld) in
  let w2 := snd (OrderService.updateOrderStatus 1700000009000
                   "ORD_1700000000000_k3j2h1g0f" (Some OrderStatus.CONFIRMED) w1) in
  map Order.orderStatus (orders w1) = [OrderStatus.CANCELLED] /\
  map Order.orderStatus (orders w2) = [OrderStatus.CONFIRMED] /\
  map Payment.status (payments w2) = [PaymentStatus.FAILED].
Proof. vm_compute. repeat split. Qed.

(* ================================================================== *)
(** ** The ceiling of the payment simulator *)
(* ================================================================== *)

Lemma processPayment_client_answered (env : OrderService.Env)
    (orderData : CreateOrderRequest.t) (saved : Order.t) (w w' : World)
    (reply : HttpResponse PaymentService.PaymentResponse) :
  OrderService.link env = OrderService.Delivered ->
  PaymentService.postPayments (OrderService.paymentEnv env) (chargeFor orderData saved)
    (logged (HttpPostPayment (chargeFor orderData saved)) w) = (reply, w') ->
  validateStatus (http_status reply) = false ->
  OrderService.processPayment env (customerOf orderData) (Order.orderId saved)
    (productOf orderData) (amountOf orderData) w =
    (Ok (createServiceResponse false None
           (Some (JS.orDefault (api_message (http_body reply)) "Payment service error"))
           (Some (http_status reply))), w').
Proof.
  intros Hlink Hpost Hstatus.
  unfold OrderService.processPayment, OrderService.axiosPostPayments, bind at 1 2.
  unfold emit, modify. cbv beta iota zeta.
  fold (chargeFor orderData saved). rewrite Hlink.
  unfold bind, OrderService.lift, ret. rewrite Hpost. cbv beta iota.
  rewrite Hstatus. reflexivity.
Qed.


(* ================================================================== *)
(** ** Order identifiers *)
(* ================================================================== *)

(** What one [createOrder] does to the collection of orders: nothing, or
    one document more, with the identifier the insert gave it. *)
Lemma createOrder_orders (env : OrderService.Env) (orderData : CreateOrderRequest.t)
    (w : World) :
  ordersFresh w ->
  let w' := snd (OrderService.createOrder env orderData w) in
  orders w' = orders w \/
  exists doc,
    orders w' = snoc doc (orders w) /\
    Order._id doc = nextOrderOid w /\
    Order.orderId doc =
      JS.orDefault (CreateOrderRequest.orderId orderData) (generatedOrderId env) /\
    ~ In (Order.orderId doc) (map Order.orderId (orders w)).
Proof.
  intros F1. cbv zeta.
  destruct (createOrder_cases env orderData w)
    as [(Ho & _)
       |(w2 & saved & w3 & pr & w4 & Ho2 & Hn2 & _ & _ & Hins & Hpay & Ho & _)].
  { left. exact Ho. }
  right.
  destruct (insertOrder_inv _ _ _ _ _ Hins)
    as [(e & [=] & _)|(o & [= <-] & Hw3 & Hid & _ & Hoid & Hfresh & _)].
  destruct (processPayment_client_inv _ _ _ _ _ _ _ _ Hpay) as (_ & Ho4 & _).
  set (doc := Order.setUpdatedAt _ _) in Ho.
  exists doc. split; [|split; [|split]].
  - rewrite Ho, Ho4, Hw3. cbn [orders logged withOrders]. rewrite Ho2.
    apply replaceOrder_snoc_fresh; [|reflexivity].
    intros x Hx. specialize (F1 x Hx).
    change (Order._id doc) with (Order._id saved). rewrite Hid, Hn2. lia.
  - change (Order._id doc) with (Order._id saved). now rewrite Hid, Hn2.
  - exact Hoid.
  - change (Order.orderId doc) with (Order.orderId saved).
    rewrite <- Ho2. apply not_taken, Hfresh.
Qed.

(** C9, as the code has it.  In a world reached by the flow, the order a
    [createOrder] adds carries the [orderId] of the payload when the
    payload has a non-empty one, and otherwise the identifier the pre-save
    hook generates from the clock and a random draw, in which the payload
    plays no part.  Either way no order stored before has that identifier,
    and the identifiers of the stored orders are pairwise distinct. *)
Theorem order_identifier_is_generated_unless_supplied
    (requests : list System.Request) (env : OrderService.Env)
    (orderData : CreateOrderRequest.t) (o : Order.t) :
  let w := System.run requests emptyWorld in
  let w' := snd (OrderService.createOrder env orderData w) in
  In o (orders w') ->
  ~ In o (orders w) ->
  Order.orderId o =
    JS.orDefault (CreateOrderRequest.orderId orderData) (generatedOrderId env) /\
  (absentOrEmpty (CreateOrderRequest.orderId orderData) ->
     Order.orderId o = generatedOrderId env) /\
  ~ In (Order.orderId o) (map Order.orderId (orders w)) /\
  NoDup (map Order.orderId (orders w')).
Proof.
  intros w w' Hin Hnew.
  assert (Hw : Consistent w) by apply run_consistent, Consistent_empty.
  assert (Hw' : Consistent w') by apply createOrder_consistent, Hw.
  destruct (createOrder_orders env orderData w (orders_fresh w Hw))
    as [Hsame|(doc & Ho & _ & Hoid & Hfresh)]; unfold w' in *.
  { rewrite Hsame in Hin. contradiction. }
  rewrite Ho in Hin. apply In_snoc_inv in Hin.
  destruct Hin as [Hin| ->]; [contradiction|].
  split; [exact Hoid|]. split; [|split].
  - intros [Habs|Hemp]; rewrite Hoid.
    + now rewrite Habs.
    + now rewrite Hemp.
  - exact Hfresh.
  - exact (order_ids_distinct w' Hw').
Qed.

(* ================================================================== *)
(** ** The statements at sample inputs *)
(* ================================================================== *)

Lemma payment_failure_run :
  let env := Sample.declined in
  let orderData := Sample.order (Some (JS.Fin (50000 # 1))) None in
  exists w1 w2 w3 w4 cv pv saved pr,
    intakeAccepts orderData = true /\
    OrderService.validateCustomer env (customerOf orderData) emptyWorld = (Ok cv, w1) /\
    success cv = true /\
    OrderService.validateProduct env (productOf orderData) 1 w1 = (Ok pv, w2) /\
    success pv = true /\
    OrderService.insertOrder env orderData w2 = (Ok saved, w3) /\
    OrderService.processPayment env (customerOf orderData) (Order.orderId saved)
      (productOf orderData) (amountOf orderData) w3 = (Ok pr, w4) /\
    success pr = false /\
    exists cancelled w',
      OrderService.createOrder env orderData emptyWorld
        = (failure pr "Payment processing failed", w') /\
      OrderService.findOne (Order.orderId saved) w' = Some cancelled /\
      Order.orderStatus cancelled = OrderStatus.CANCELLED.
Proof.
  cbv zeta. do 8 eexists.
  do 8 (split; [cbv; reflexivity|]).
  destruct (payment_failure_cancels_order Sample.declined
              (Sample.order (Some (JS.Fin (50000 # 1))) None) emptyWorld
              _ _ _ _ _ _ _ _
              eq_refl eq_refl eq_refl eq_refl eq_refl eq_refl eq_refl eq_refl)
    as (cancelled & w' & Hrun & _ & _ & _ & Hst & Hfind & _).
  exists cancelled, w'. split; [exact Hrun|]. split; [exact Hfind|exact Hst].
Defined.

Lemma compensation_run :
  let env := Sample.declined in
  let orderData := Sample.order (Some (JS.Fin (50000 # 1))) None in
  exists w1 w2 w3 w4 cv pv saved pr,
    intakeAccepts orderData = true /\
    OrderService.validateCustomer env (customerOf orderData) emptyWorld = (Ok cv, w1) /\
    success cv = true /\
    OrderService.validateProduct env (productOf orderData) 1 w1 = (Ok pv, w2) /\
    success pv = true /\
    OrderService.insertOrder env orderData w2 = (Ok saved, w3) /\
    OrderService.processPayment env (customerOf orderData) (Order.orderId saved)
      (productOf orderData) (amountOf orderData) w3 = (Ok pr, w4) /\
    success pr = false /\
    exists persisted w',
      OrderService.createOrder env orderData emptyWorld
        = (failure pr "Payment processing failed", w') /\
      OrderService.findOne (Order.orderId saved) w' = Some persisted /\
      Order.orderStatus persisted = OrderStatus.CANCELLED /\
      Order.amount persisted = Order.amount saved.
Proof.
  cbv zeta. do 8 eexists.
  do 8 (split; [cbv; reflexivity|]).
  destruct (compensation_changes_status_only Sample.declined
              (Sample.order (Some (JS.Fin (50000 # 1))) None) emptyWorld
              _ _ _ _ _ _ _ _
              eq_refl eq_refl eq_refl eq_refl eq_refl eq_refl eq_refl eq_refl)
    as (persisted & w' & Hrun & _ & _ & Hfind & Hst & _ & _ & _ & _ & _ & Ham & _).
  exists persisted, w'. repeat split; assumption.
Defined.

Lemma stock_failure_run :
  let env := Sample.outOfStock in
  let orderData := Sample.order (Some (JS.Fin (50000 # 1))) None in
  exists w1 w2 w3 w4 w5 w6 cv pv saved confirmed pr sr,
    intakeAccepts orderData = true /\
    OrderService.validateCustomer env (customerOf orderData) emptyWorld = (Ok cv, w1) /\
    success cv = true /\
    OrderService.validateProduct env (productOf orderData) 1 w1 = (Ok pv, w2) /\
    success pv = true /\
    OrderService.insertOrder env orderData w2 = (Ok saved, w3) /\
    OrderService.processPayment env (customerOf orderData) (Order.orderId saved)
      (productOf orderData) (amountOf orderData) w3 = (Ok pr, w4) /\
    success pr = true /\
    OrderService.saveOrder (OrderService.savedAt env)
      (Order.setStatus OrderStatus.CONFIRMED saved) w4 = (Ok confirmed, w5) /\
    OrderService.updateProductStock env (productOf orderData) 1 w5 = (Ok sr, w6) /\
    success sr = false /\
    OrderService.createOrder env orderData emptyWorld = (created confirmed, w6) /\
    http_status (created confirmed) = 201 /\
    OrderService.findOne (Order.orderId saved) w6 = Some confirmed.
Proof.
  cbv zeta. do 12 eexists.
  do 11 (split; [cbv; reflexivity|]).
  destruct (stock_failure_keeps_confirmation Sample.outOfStock
              (Sample.order (Some (JS.Fin (50000 # 1))) None) emptyWorld
              _ _ _ _ _ _ _ _ _ _ _ _
              eq_refl eq_refl eq_refl eq_refl eq_refl eq_refl eq_refl eq_refl
              eq_refl eq_refl eq_refl)
    as (Hrun & Hstatus & _ & _ & _ & _ & _ & Hfind).
  split; [exact Hrun|]. split; [exact Hstatus|exact Hfind].
Defined.

Lemma unknown_customer_run :
  let env := Sample.unknownCustomer in
  let orderData := Sample.order (Some (JS.Fin (50000 # 1))) None in
  exists w',
    intakeAccepts orderData = true /\
    ValidationFails env orderData emptyWorld
      "Customer validation failed" (Some 404) (Some "Customer not found") w' /\
    OrderService.createOrder env orderData emptyWorld =
      ({| http_status := 404;
          http_body := createApiResponse false None
                         (Some "Customer validation failed")
                         (Some "Customer not found") |}, w') /\
    orders w' = [].
Proof.
  cbv zeta.
  assert (Hfails :
    ValidationFails Sample.unknownCustomer
      (Sample.order (Some (JS.Fin (50000 # 1))) None) emptyWorld
      "Customer validation failed" (Some 404) (Some "Customer not found")
      (logged (HttpGetCustomer "CUST_1") emptyWorld)).
  { apply (CustomerFails Sample.unknownCustomer
             (Sample.order (Some (JS.Fin (50000 # 1))) None) emptyWorld
             (createServiceResponse false None (Some "Customer not found") (Some 404)));
      reflexivity. }
  eexists. split; [reflexivity|]. split; [exact Hfails|].
  destruct (failed_validation_creates_nothing Sample.unknownCustomer
              (Sample.order (Some (JS.Fin (50000 # 1))) None) emptyWorld _ _ _ _
              eq_refl Hfails) as (Hrun & Horders & _).
  split; [exact Hrun|exact Horders].
Defined.

(** C5 as stated fails where it says that an unreachable service is
    reported with 503: only a refused connection is.  When the host of the
    customer service cannot be reached ([EHOSTUNREACH]) the saga fails with
    500 (and stores nothing). *)
Lemma unreachable_customer_service_is_reported_as_500 :
  let (response, w') :=
    OrderService.createOrder Sample.unreachableCustomer
      (Sample.order (Some (JS.Fin (50000 # 1))) None) emptyWorld in
  http_status response = 500 /\
  http_status response <> 503 /\
  api_error (http_body response) = Some "Internal server error" /\
  orders w' = [] /\
  trace w' = [HttpGetCustomer "CUST_1"].
Proof. vm_compute. repeat split. discriminate. Qed.



Lemma confirmed_order_has_completed_payment :
  let w :=
    System.run
      [System.SubmitOrder Sample.happy (Sample.order (Some (JS.Fin (50000 # 1))) None)]
      emptyWorld in
  exists o,
    In o (orders w) /\
    Order.orderStatus o = OrderStatus.CONFIRMED /\
    exists p,
      In p (payments w) /\
      Payment.orderId p = Order.orderId o /\
      Payment.status p = PaymentStatus.COMPLETED.
Proof.
  cbv zeta. eexists.
  split; [cbv; left; reflexivity|]. split; [reflexivity|].
  apply (confirmed_orders_are_paid
           [System.SubmitOrder Sample.happy
              (Sample.order (Some (JS.Fin (50000 # 1))) None)]).
  - cbv. left. reflexivity.
  - reflexivity.
Defined.

(** Scenario E: the same TransactionMessage delivered three times leaves
    one audit record. *)
Lemma three_deliveries_one_record :
  let msg := Sample.transaction 1 "TXN_1" (50000 # 1) in
  let deliveries := [(1700000003000, msg); (1700000004000, msg); (1700000005000, msg)]%N in
  let s := TransactionWorker.consume deliveries TransactionWorker.emptyStore in
  TransactionWorker.bears "TXN_1" msg = true /\
  In (1700000003000%N, msg) deliveries /\
  TransactionWorker.countRecords "TXN_1" s = 1 /\
  TransactionWorker.processMessage 1700000006000 msg s = (tt, acknowledged 1 s).
Proof.
  cbv zeta. split; [reflexivity|]. split; [left; reflexivity|].
  destruct (redelivery_is_idempotent
              [(1700000003000, Sample.transaction 1 "TXN_1" (50000 # 1));
               (1700000004000, Sample.transaction 1 "TXN_1" (50000 # 1));
               (1700000005000, Sample.transaction 1 "TXN_1" (50000 # 1))]%N
              1700000003000 (Sample.transaction 1 "TXN_1" (50000 # 1)) "TXN_1"
              eq_refl (or_introl eq_refl)) as (Hone & Hagain).
  split; [exact Hone|].
  apply (Hagain 1700000006000%N (Sample.transaction 1 "TXN_1" (50000 # 1)) eq_refl).
Defined.

Lemma generated_identifier_run :
  let orderData := Sample.order (Some (JS.Fin (50000 # 1))) None in
  let w' := snd (OrderService.createOrder Sample.happy orderData
                   (System.run [] emptyWorld)) in
  exists o,
    In o (orders w') /\
    ~ In o (orders (System.run [] emptyWorld)) /\
    Order.orderId o = "ORD_1700000000000_k3j2h1g0f" /\
    generatedOrderId Sample.happy = "ORD_1700000000000_k3j2h1g0f".
Proof.
  cbv zeta. eexists.
  split; [cbv; left; reflexivity|]. split; [intros []|].
  destruct (order_identifier_is_generated_unless_supplied [] Sample.happy
              (Sample.order (Some (JS.Fin (50000 # 1))) None) _
              (or_introl eq_refl) (fun H : False => H)) as (_ & Hgen & _).
  split; [|reflexivity].
  exact (eq_trans (Hgen (or_introl eq_refl)) eq_refl).
Defined.

(** C9 as stated fails: the route applies no schema to the body, the
    controller spreads the body into the new document, and the pre-save
    hook generates an identifier only for a document that has none.  A
    payload that carries an [orderId] decides the [orderId] of the order. *)
Lemma client_supplied_order_identifier_is_kept :
  let orderData := Sample.order (Some (JS.Fin (50000 # 1))) (Some "ORD_CHOSEN_BY_CLIENT") in
  let (response, w') := OrderService.createOrder Sample.happy orderData emptyWorld in
  http_status response = 201 /\
  map Order.orderId (orders w') = ["ORD_CHOSEN_BY_CLIENT"] /\
  option_map OrderResponse.orderId (api_data (http_body response))
    = Some "ORD_CHOSEN_BY_CLIENT" /\
  generatedOrderId Sample.happy <> "ORD_CHOSEN_BY_CLIENT".
Proof. vm_compute. repeat split. discriminate. Qed.

(* ================================================================== *)
(** * Required fields *)
(* ================================================================== *)

Lemma requiredErrors_filter (data : string -> JS.value) (fields : list string) :
  requiredErrors data fields =
  map (fun f => {| field := f; message := f ++ " is required" |})
      (filter (fun f => fieldMissing (data f)) fields).
Proof.
  induction fields as [|f rest IH]; [reflexivity|].
  cbn. destruct (fieldMissing (data f)); cbn; rewrite IH; reflexivity.
Qed.

(** X1.  The 400 of the intake names what is missing.  When at least one
    of [customerId], [productId], [amount] is missing from the body of
    [createOrder] (absent, falsy, or a blank string), the answer is 400
    'Validation failed', its error text is "<field> is required" for
    exactly the missing fields, in that order, joined by ", ", and the
    world is unchanged.  When none is missing and the amount is not
    greater than 0, the answer is 400 'Amount must be a positive number'
    without error text. *)
Theorem intake_error_names_the_missing_fields
    (env : OrderService.Env) (orderData : CreateOrderRequest.t) (w : World) :
  let missing :=
    filter (fun f => fieldMissing (OrderService.property orderData f))
      ["customerId"; "productId"; "amount"] in
  (missing <> [] ->
   OrderService.createOrder env orderData w =
     ({| http_status := 400;
         http_body :=
           createApiResponse false None (Some "Validation failed")
             (Some (String.concat ", " (map (fun f => f ++ " is required") missing))) |},
      w)) /\
  (missing = [] ->
   JS.leb (OrderService.toNumber (CreateOrderRequest.amount orderData)) (JS.Fin 0) = true ->
   OrderService.createOrder env orderData w =
     ({| http_status := 400;
         http_body := createApiResponse false None
                        (Some "Amount must be a positive number") None |}, w)).
Proof.
  cbv zeta. unfold OrderService.createOrder, tryCatch, validateRequiredFields, joinMessages.
  cbn [isValid errors]. rewrite requiredErrors_filter, length_map, map_map.
  cbn [message].
  destruct (filter _ _) as [|f rest] eqn:Hmissing.
  - split; [intros H; now elim H|]. intros _ Hle. cbn [length Nat.eqb negb].
    rewrite Hle. reflexivity.
  - split; [|discriminate]. intros _. reflexivity.
Qed.

Lemma intake_error_names_the_missing_fields_run :
  let orderData :=
    {| CreateOrderRequest.customerId := Some "   ";
       CreateOrderRequest.productId := Some "PROD_1";
       CreateOrderRequest.amount := None;
       CreateOrderRequest.shippingAddress := None;
       CreateOrderRequest.orderId := None |} in
  filter (fun f => fieldMissing (OrderService.property orderData f))
    ["customerId"; "productId"; "amount"] <> [] /\
  OrderService.createOrder Sample.happy orderData emptyWorld =
    ({| http_status := 400;
        http_body :=
          createApiResponse false None (Some "Validation failed")
            (Some "customerId is required, amount is required") |}, emptyWorld).
Proof.
  cbv zeta. split; [vm_compute; discriminate|].
  refine (eq_trans (proj1 (intake_error_names_the_missing_fields Sample.happy _ emptyWorld) _)
            _).
  - vm_compute. discriminate.
  - vm_compute. reflexivity.
Defined.

(* ================================================================== *)
(** * The outcomes of [createOrder] *)
(* ================================================================== *)

Lemma createOrder_outcome (env : OrderService.Env) (orderData : CreateOrderRequest.t)
    (w : World) :
  SagaOutcome env orderData w
    (fst (OrderService.createOrder env orderData w))
    (snd (OrderService.createOrder env orderData w)).
Proof.
  destruct (intakeAccepts orderData) eqn:Hacc.
  2:{ destruct (createOrder_rejected env orderData w Hacc) as (m & e & Hrun).
      rewrite Hrun. cbn [fst snd]. now constructor. }
  destruct (OrderService.validateCustomer env (customerOf orderData) w)
    as [rc w1] eqn:Hc.
  destruct (validateCustomer_inv _ _ _ _ _ Hc) as (_ & cv & ->).
  destruct (success cv) eqn:Hcv.
  2:{ rewrite (saga_customer_failed env orderData w cv w1 Hacc Hc Hcv). cbn [fst snd].
      now apply CustomerRefused. }
  destruct (OrderService.validateProduct env (productOf orderData) 1 w1)
    as [rp w2] eqn:Hp.
  destruct (validateProduct_inv _ _ _ _ _ _ Hp) as (_ & pv & ->).
  destruct (success pv) eqn:Hpv.
  2:{ rewrite (saga_product_failed env orderData w cv w1 pv w2 Hacc Hc Hcv Hp Hpv).
      cbn [fst snd]. now apply (ProductRefused env orderData w cv w1 pv w2). }
  destruct (OrderService.insertOrder env orderData w2) as [[saved|e] w3] eqn:Hi.
  2:{ rewrite (saga_insert_failed env orderData w cv w1 pv w2 e w3 Hacc Hc Hcv Hp Hpv Hi).
      destruct (insertOrder_inv _ _ _ _ _ Hi) as [(e' & _ & Hw3)|(o & [=] & _)].
      rewrite Hw3 in Hi |- *. cbn [fst snd].
      now apply (InsertThrew env orderData w cv w1 pv w2 e). }
  destruct (OrderService.processPayment env (customerOf orderData) (Order.orderId saved)
              (productOf orderData) (amountOf orderData) w3) as [rpay w4] eqn:Hpay.
  destruct (processPayment_client_inv _ _ _ _ _ _ _ _ Hpay) as ((pr & ->) & _).
  destruct (success pr) eqn:Hpr.
  - rewrite (saga_payment_succeeded env orderData w cv w1 pv w2 saved w3 pr w4
               Hacc Hc Hcv Hp Hpv Hi Hpay Hpr).
    cbn [fst snd].
    now apply (PaymentAccepted env orderData w cv w1 pv w2 saved w3 pr w4).
  - rewrite (saga_payment_failed env orderData w cv w1 pv w2 saved w3 pr w4
               Hacc Hc Hcv Hp Hpv Hi Hpay Hpr).
    cbn [fst snd].
    now apply (PaymentRefused env orderData w cv w1 pv w2 saved w3 pr w4).
Qed.

(* ================================================================== *)
(** * Cancelling and overwriting the status of an order *)
(* ================================================================== *)

Lemma find_replaceOrder (key : string) (order doc : Order.t) (stored : list Order.t) :
  find (fun o => Order.orderId o =? key) stored = Some order ->
  Order.orderId doc = key ->
  Order._id doc = Order._id order ->
  find (fun o => Order.orderId o =? key) (replaceOrder doc stored) = Some doc.
Proof.
  intros Hfind Hkey Hid.
  assert (Hdoc : (Order.orderId doc =? key) = true) by (apply String.eqb_eq, Hkey).
  induction stored as [|x rest IH]; [discriminate|].
  cbn in Hfind |- *.
  destruct (Order.orderId x =? key) eqn:Hx.
  - injection Hfind as ->. rewrite Hid, Nat.eqb_refl, Hdoc. reflexivity.
  - destruct (Order._id x =? Order._id doc)%nat.
    + rewrite Hdoc. reflexivity.
    + rewrite Hx. apply IH, Hfind.
Qed.

Lemma cancelOrder_run (now : N) (orderId : string) (w : World) :
  OrderService.cancelOrder now orderId w =
  match OrderService.findOne orderId w with
  | None =>
      ({| http_status := 404;
          http_body := createApiResponse false None (Some "Order not found") None |}, w)
  | Some order =>
      if OrderService.cancellable (Order.orderStatus order) then
        let doc := Order.setUpdatedAt now (Order.setStatus OrderStatus.CANCELLED order) in
        ({| http_status := 200;
            http_body := createApiResponse true (Some doc)
                           (Some "Order cancelled successfully") None |},
         logged (OrderUpdated doc) (withOrders (replaceOrder doc) 0 w))
      else
        ({| http_status := 400;
            http_body := createApiResponse false None
                           (Some "Order cannot be cancelled at this stage") None |}, w)
  end.
Proof.
  unfold OrderService.cancelOrder, tryCatch, bind, get. cbv beta iota.
  destruct (OrderService.findOne orderId w) as [order|]; [|reflexivity].
  destruct (OrderService.cancellable (Order.orderStatus order)); cbn [negb];
    [rewrite saveOrder_run|]; reflexivity.
Qed.

Lemma updateOrderStatus_run (now : N) (orderId : string) (status : OrderStatus.t)
    (w : World) :
  OrderService.updateOrderStatus now orderId (Some status) w =
  match OrderService.findOne orderId w with
  | None =>
      ({| http_status := 404;
          http_body := createApiResponse false None (Some "Order not found") None |}, w)
  | Some order =>
      if OrderStatus.eqb status (Order.orderStatus order) then
        ({| http_status := 200;
            http_body := createApiResponse true (Some order)
                           (Some "Order status updated successfully") None |}, w)
      else
        let doc := Order.setUpdatedAt now (Order.setStatus status order) in
        ({| http_status := 200;
            http_body := createApiResponse true (Some doc)
                           (Some "Order status updated successfully") None |},
         logged (OrderUpdated doc) (withOrders (replaceOrder doc) 0 w))
  end.
Proof.
  unfold OrderService.updateOrderStatus, tryCatch, bind, get. cbv beta iota.
  destruct (OrderService.findOne orderId w) as [order|]; [|reflexivity].
  unfold OrderService.saveStatus.
  destruct (OrderStatus.eqb status (Order.orderStatus order)); [reflexivity|].
  rewrite saveOrder_run. reflexivity.
Qed.

Lemma findOne_orderId (orderId : string) (w : World) (order : Order.t) :
  OrderService.findOne orderId w = Some order ->
  In order (orders w) /\ Order.orderId order = orderId.
Proof.
  unfold OrderService.findOne. intros H. apply find_some in H.
  destruct H as (Hin & Heq). split; [exact Hin|]. apply String.eqb_eq, Heq.
Qed.

Lemma findOne_rewritten (now : N) (st : OrderStatus.t) (orderId : string) (w : World)
    (order : Order.t) :
  OrderService.findOne orderId w = Some order ->
  let doc := Order.setUpdatedAt now (Order.setStatus st order) in
  OrderService.findOne orderId
    (logged (OrderUpdated doc) (withOrders (replaceOrder doc) 0 w)) = Some doc.
Proof.
  intros Hfind doc. unfold OrderService.findOne.
  cbn [orders logged withOrders].
  apply (find_replaceOrder orderId order doc); [exact Hfind| |reflexivity].
  apply (findOne_orderId _ _ _ Hfind).
Qed.

(** X2.  [cancelOrder] cancels an order only from [pending] or
    [confirmed].  An unknown [orderId] is answered 404 and an order in any
    other state 400, and both leave the world as it was.  In the two states
    that can be cancelled the answer is 200 with the order rewritten as
    [cancelled]; that document is the one found under the [orderId]
    afterwards, orders with another [_id] are still stored, the payments
    and the queue are untouched (no refund is made, no message is sent),
    and the one effect is the update of the order. *)
Theorem cancellation_guard (now : N) (orderId : string) (w : World) :
  match OrderService.findOne orderId w with
  | None =>
      OrderService.cancelOrder now orderId w =
        ({| http_status := 404;
            http_body := createApiResponse false None (Some "Order not found") None |}, w)
  | Some order =>
      match Order.orderStatus order with
      | OrderStatus.PENDING | OrderStatus.CONFIRMED =>
          let doc := Order.setUpdatedAt now (Order.setStatus OrderStatus.CANCELLED order) in
          let w' := snd (OrderService.cancelOrder now orderId w) in
          fst (OrderService.cancelOrder now orderId w) =
            {| http_status := 200;
               http_body := createApiResponse true (Some doc)
                              (Some "Order cancelled successfully") None |} /\
          OrderService.findOne orderId w' = Some doc /\
          (forall o, In o (orders w) -> Order._id o <> Order._id order ->
                     In o (orders w')) /\
          sameLedger w w' /\
          trace w' = snoc (OrderUpdated doc) (trace w)
      | _ =>
          OrderService.cancelOrder now orderId w =
            ({| http_status := 400;
                http_body := createApiResponse false None
                               (Some "Order cannot be cancelled at this stage") None |}, w)
      end
  end.
Proof.
  rewrite cancelOrder_run.
  destruct (OrderService.findOne orderId w) as [order|] eqn:Hfind; [|reflexivity].
  pose proof (findOne_rewritten now OrderStatus.CANCELLED orderId w order Hfind) as Hafter.
  destruct (Order.orderStatus order) eqn:Hst; cbn; try reflexivity.
  all: split; [reflexivity|]; split; [exact Hafter|]; split;
    [|split; [repeat split|reflexivity]].
  all: intros o Hin Hid; apply replaceOrder_other; [exact Hin|exact Hid].
Qed.

(** X4.  [updateOrderStatus] has no transition table.  A body without a
    value of the status enumeration is answered 400 and an unknown
    [orderId] 404, both leaving the world as it was.  A status other than
    the one the order has is written whatever the two are (a cancelled or
    delivered order can be made pending or confirmed again): the answer is
    200 with the rewritten document, which carries the new status and time
    of update and the identity fields and amount of the old one and is the
    one found under the [orderId] afterwards; orders with another [_id] are
    still stored, payments and queue are untouched, and the one effect is
    the update of the order.  The status the order already has is answered
    200 as well, with the document as it was loaded: no path is modified,
    so nothing is written and the world is left as it was, [updatedAt]
    included. *)
Theorem status_update_has_no_transition_table
    (now : N) (orderId : string) (status : option OrderStatus.t) (w : World) :
  match status, OrderService.findOne orderId w with
  | None, _ =>
      OrderService.updateOrderStatus now orderId status w =
        ({| http_status := 400;
            http_body := createApiResponse false None (Some "Invalid order status") None |}, w)
  | Some _, None =>
      OrderService.updateOrderStatus now orderId status w =
        ({| http_status := 404;
            http_body := createApiResponse false None (Some "Order not found") None |}, w)
  | Some st, Some order =>
      if OrderStatus.eqb st (Order.orderStatus order) then
        OrderService.updateOrderStatus now orderId status w =
          ({| http_status := 200;
              http_body := createApiResponse true (Some order)
                             (Some "Order status updated successfully") None |}, w)
      else
        let doc := Order.setUpdatedAt now (Order.setStatus st order) in
        let w' := snd (OrderService.updateOrderStatus now orderId status w) in
        fst (OrderService.updateOrderStatus now orderId status w) =
          {| http_status := 200;
             http_body := createApiResponse true (Some doc)
                            (Some "Order status updated successfully") None |} /\
        OrderService.findOne orderId w' = Some doc /\
        Order.orderStatus doc = st /\
        Order.updatedAt doc = now /\
        sameIdentity order doc /\
        (forall o, In o (orders w) -> Order._id o <> Order._id order ->
                   In o (orders w')) /\
        sameLedger w w' /\
        trace w' = snoc (OrderUpdated doc) (trace w)
  end.
Proof.
  destruct status as [st|]; [|reflexivity].
  rewrite updateOrderStatus_run.
  destruct (OrderService.findOne orderId w) as [order|] eqn:Hfind; [|reflexivity].
  destruct (OrderStatus.eqb st (Order.orderStatus order)); [reflexivity|].
  pose proof (findOne_rewritten now st orderId w order Hfind) as Hafter.
  cbn. split; [reflexivity|]. split; [exact Hafter|].
  split; [reflexivity|]. split; [reflexivity|]. split; [repeat split|].
  split; [|split; [repeat split|reflexivity]].
  intros o Hin Hid. apply replaceOrder_other; [exact Hin|exact Hid].
Qed.

(* ================================================================== *)
(** * Reading back a created order *)
(* ================================================================== *)

Lemma getOrderById_run (orderId : string) (w : World) :
  OrderController.getOrderById orderId w =
  match OrderService.findOne orderId w with
  | None =>
      ({| http_status := 404;
          http_body := createApiResponse false None (Some "Order not found") None |}, w)
  | Some order =>
      ({| http_status := 200;
          http_body := createApiResponse true (Some order)
                         (Some "Order retrieved successfully") None |}, w)
  end.
Proof.
  unfold OrderController.getOrderById, tryCatch, bind, get. cbv beta iota.
  destruct (OrderService.findOne orderId w); reflexivity.
Qed.

(** X5.  Whenever [createOrder] answers with data (it does so only with
    201), [getOrderById] for the [orderId] of the answer, asked in the world
    the request left, answers 200 with the stored order; that order is
    confirmed and carries the customer, product, amount and timestamps of
    the answer.  A failed saga answers without data. *)
Theorem created_order_can_be_read_back
    (env : OrderService.Env) (orderData : CreateOrderRequest.t) (w w' : World)
    (response : HttpResponse OrderResponse.t) (projection : OrderResponse.t) :
  OrderService.createOrder env orderData w = (response, w') ->
  api_data (http_body response) = Some projection ->
  http_status response = 201 /\
  exists order,
    OrderController.getOrderById (OrderResponse.orderId projection) w' =
      ({| http_status := 200;
          http_body := createApiResponse true (Some order)
                         (Some "Order retrieved successfully") None |}, w') /\
    Order.orderStatus order = OrderStatus.CONFIRMED /\
    OrderResponse.orderStatus projection = OrderStatus.CONFIRMED /\
    Order.customerId order = OrderResponse.customerId projection /\
    Order.productId order = OrderResponse.productId projection /\
    Order.amount order = OrderResponse.amount projection /\
    Order.createdAt order = OrderResponse.createdAt projection /\
    Order.updatedAt order = OrderResponse.updatedAt projection.
Proof.
  intros Hrun Hdata.
  pose proof (createOrder_outcome env orderData w) as Hout.
  rewrite Hrun in Hout. cbn [fst snd] in Hout.
  destruct Hout as [m e Hacc|cv w1 Hacc Hc Hcv|cv w1 pv w2 Hacc Hc Hcv Hp Hpv
                   |cv w1 pv w2 e Hacc Hc Hcv Hp Hpv Hi
                   |cv w1 pv w2 saved w3 pr w4 Hacc Hc Hcv Hp Hpv Hi Hpay Hpr
                   |cv w1 pv w2 saved w3 pr w4 Hacc Hc Hcv Hp Hpv Hi Hpay Hpr];
    try discriminate Hdata.
  cbn in Hdata. injection Hdata as <-.
  split; [reflexivity|].
  destruct (verdict_persisted env orderData w w1 w2 w3 w4 cv pv saved pr
              Hc Hp Hi Hpay OrderStatus.CONFIRMED) as (Hfind & _).
  eexists. split.
  - rewrite getOrderById_run. cbn [OrderResponse.orderId Order.orderId Order.setUpdatedAt
                                   Order.setStatus].
    unfold OrderService.findOne in Hfind |- *. cbn [orders logged].
    rewrite Hfind. reflexivity.
  - repeat split.
Qed.

Lemma created_order_can_be_read_back_run :
  exists response w' projection,
    OrderService.createOrder Sample.happy
      (Sample.order (Some (JS.Fin (50000 # 1))) None) emptyWorld = (response, w') /\
    api_data (http_body response) = Some projection /\
    http_status response = 201 /\
    exists order,
      OrderController.getOrderById (OrderResponse.orderId projection) w' =
        ({| http_status := 200;
            http_body := createApiResponse true (Some order)
                           (Some "Order retrieved successfully") None |}, w') /\
      Order.orderStatus order = OrderStatus.CONFIRMED.
Proof.
  eexists _, _, _.
  split; [vm_compute; reflexivity|].
  split; [vm_compute; reflexivity|].
  destruct (created_order_can_be_read_back Sample.happy
              (Sample.order (Some (JS.Fin (50000 # 1))) None) emptyWorld _ _ _
              eq_refl eq_refl) as (Hst & order & Hget & Hconfirmed & _).
  split; [exact Hst|].
  exists order. split; [exact Hget|exact Hconfirmed].
Defined.

(* ================================================================== *)
(** * Every stored order is settled *)
(* ================================================================== *)

Lemma replaceOrder_settles (doc saved : Order.t) (stored : list Order.t) :
  Order._id doc = Order._id saved ->
  settledOrder doc ->
  (forall o, In o stored -> settledOrder o) ->
  forall o, In o (replaceOrder doc (snoc saved stored)) -> settledOrder o.
Proof.
  intros Hid Hdoc Hold o Hin. unfold replaceOrder in Hin.
  apply in_map_iff in Hin. destruct Hin as (x & <- & Hx).
  destruct (Order._id x =? Order._id doc)%nat eqn:E; [exact Hdoc|].
  apply In_snoc_inv in Hx. destruct Hx as [Hx| ->].
  - apply Hold, Hx.
  - rewrite Hid, Nat.eqb_refl in E. discriminate E.
Qed.

Lemma createOrder_settles (env : OrderService.Env) (orderData : CreateOrderRequest.t)
    (w : World) :
  ordersSettled w -> ordersSettled (snd (OrderService.createOrder env orderData w)).
Proof.
  intros Hw.
  destruct (createOrder_outcome env orderData w)
    as [m e Hacc|cv w1 Hacc Hc Hcv|cv w1 pv w2 Hacc Hc Hcv Hp Hpv
       |cv w1 pv w2 e Hacc Hc Hcv Hp Hpv Hi
       |cv w1 pv w2 saved w3 pr w4 Hacc Hc Hcv Hp Hpv Hi Hpay Hpr
       |cv w1 pv w2 saved w3 pr w4 Hacc Hc Hcv Hp Hpv Hi Hpay Hpr];
    try exact Hw;
    destruct (validateCustomer_inv _ _ _ _ _ Hc) as (Hw1 & _);
    try (destruct (validateProduct_inv _ _ _ _ _ _ Hp) as (Hw2 & _)).
  - rewrite Hw1. exact Hw.
  - rewrite Hw2, Hw1. exact Hw.
  - rewrite Hw2, Hw1. exact Hw.
  - rewrite saveOrder_run. intros o. cbn [snd orders logged withOrders].
    rewrite (orders_at_payment env orderData w2 w3 w4 saved pr Hi Hpay).
    apply replaceOrder_settles; [reflexivity|right; reflexivity|].
    rewrite Hw2, Hw1. exact Hw.
  - rewrite saveOrder_run. intros o. cbn [snd orders logged withOrders].
    rewrite (orders_at_payment env orderData w2 w3 w4 saved pr Hi Hpay).
    apply replaceOrder_settles; [reflexivity|left; reflexivity|].
    rewrite Hw2, Hw1. exact Hw.
Qed.

Lemma cancelOrder_settles (now : N) (orderId : string) (w : World) :
  ordersSettled w -> ordersSettled (snd (OrderService.cancelOrder now orderId w)).
Proof.
  intros Hw. rewrite cancelOrder_run.
  destruct (OrderService.findOne orderId w) as [order|]; [|exact Hw].
  destruct (OrderService.cancellable (Order.orderStatus order)); [|exact Hw].
  intros o Hin. cbn in Hin. apply replaceOrder_In in Hin.
  destruct Hin as [->|Hin]; [right; reflexivity|apply Hw, Hin].
Qed.

Lemma handle_settles (r : System.Request) (w : World) :
  ordersSettled w -> ordersSettled (System.handle r w).
Proof.
  intros Hw. destruct r as [env body|now orderId|env body]; cbn [System.handle].
  - apply createOrder_settles, Hw.
  - apply cancelOrder_settles, Hw.
  - unfold ordersSettled.
    destruct (postPayments_frame env body w) as (Ho & _). rewrite Ho. exact Hw.
Qed.

Lemma run_settles (requests : list System.Request) (w : World) :
  ordersSettled w -> ordersSettled (System.run requests w).
Proof.
  revert w. induction requests as [|r rest IH]; intros w Hw; [exact Hw|].
  cbn. apply IH, handle_settles, Hw.
Qed.

(** X6.  In every world reached from the empty one by [createOrder],
    [cancelOrder] and charges posted to the payment service, every stored
    order is confirmed or cancelled.  No order is left pending:
    [createOrder] writes the verdict of the payment step over the order it
    inserted before it answers, whatever the payment service did; and the
    states processing, shipped and delivered are reached by no request of
    the flow. *)
Theorem stored_orders_are_confirmed_or_cancelled (requests : list System.Request)
    (o : Order.t) :
  In o (orders (System.run requests emptyWorld)) ->
  Order.orderStatus o = OrderStatus.CONFIRMED \/
  Order.orderStatus o = OrderStatus.CANCELLED.
Proof.
  apply (run_settles requests emptyWorld). intros x [].
Qed.

Lemma stored_orders_are_confirmed_or_cancelled_run :
  let requests :=
    [System.SubmitOrder Sample.declined (Sample.order (Some (JS.Fin (50000 # 1))) None)] in
  exists o,
    In o (orders (System.run requests emptyWorld)) /\
    (Order.orderStatus o = OrderStatus.CONFIRMED \/
     Order.orderStatus o = OrderStatus.CANCELLED).
Proof.
  cbv zeta.
  assert (Hin : exists o,
            In o (orders (System.run
                            [System.SubmitOrder Sample.declined
                               (Sample.order (Some (JS.Fin (50000 # 1))) None)]
                            emptyWorld)))
    by (vm_compute; eexists; left; reflexivity).
  destruct Hin as (o & Hin). exists o. split; [exact Hin|].
  exact (stored_orders_are_confirmed_or_cancelled _ o Hin).
Defined.

(* ================================================================== *)
(** * The effects of [createOrder], in order *)
(* ================================================================== *)


Lemma processPayment_client_cases (env : OrderService.Env)
    (orderData : CreateOrderRequest.t) (saved : Order.t) (w w4 : World)
    (pr : ServiceResponse PaymentService.PaymentResponse) :
  OrderService.processPayment env (customerOf orderData) (Order.orderId saved)
    (productOf orderData) (amountOf orderData) w = (Ok pr, w4) ->
  let charge := chargeFor orderData saved in
  let w0 := logged (HttpPostPayment charge) w in
  let reply := fst (PaymentService.postPayments (OrderService.paymentEnv env) charge w0) in
  (w4 = w0 /\ success pr = false) \/
  (w4 = snd (PaymentService.postPayments (OrderService.paymentEnv env) charge w0) /\
   (success pr = true ->
      OrderService.link env = OrderService.Delivered /\
      validateStatus (http_status reply) = true /\
      api_success (http_body reply) = true /\
      data pr = api_data (http_body reply) /\
      OrderService.isSome (api_data (http_body reply)) = true)).
Proof.
  unfold OrderService.processPayment, OrderService.axiosPostPayments, bind at 1 2.
  unfold emit, modify. cbv beta iota zeta.
  change {| PaymentRequest.customerId := Some (customerOf orderData);
            PaymentRequest.orderId := Some (Order.orderId saved);
            PaymentRequest.productId := Some (productOf orderData);
            PaymentRequest.amount := JS.jsonNumber (amountOf orderData);
            PaymentRequest.paymentMethod := Some "bank_transfer" |}
    with (chargeFor orderData saved).
  destruct (OrderService.link env) as [|code|code]; unfold bind, OrderService.lift, ret.
  - destruct (PaymentService.postPayments _ _ _) as [resp w'] eqn:Hp.
    cbn [fst snd]. intros [= <- <-]. right. split; [reflexivity|].
    destruct (validateStatus (http_status resp)); [|discriminate].
    destruct (api_success (http_body resp)); [|discriminate].
    destruct (api_data (http_body resp)); [|discriminate].
    intros _. repeat split.
  - intros [= <- <-]. left. split; [reflexivity|].
    destruct (OrderService.isRefused code); reflexivity.
  - destruct (PaymentService.postPayments _ _ _) as [resp w'] eqn:Hp.
    cbn [fst snd]. intros [= <- <-]. right. split; [reflexivity|].
    destruct (OrderService.isRefused code); discriminate.
Qed.



(* ================================================================== *)
(** * What an inserted order presupposes *)
(* ================================================================== *)

Lemma validateCustomer_success (env : OrderService.Env) (customerId : string)
    (w w1 : World) (cv : ServiceResponse OrderService.Customer) :
  OrderService.validateCustomer env customerId w = (Ok cv, w1) ->
  success cv = true ->
  exists r customer,
    OrderService.customerReply env = AxResponse r /\
    validateStatus (http_status r) = true /\
    api_success (http_body r) = true /\
    api_data (http_body r) = Some customer.
Proof.
  unfold OrderService.validateCustomer, bind, emit, modify, ret. cbv beta iota.
  intros [= <- _].
  destruct (OrderService.customerReply env) as [r|code].
  - destruct (validateStatus (http_status r)) eqn:H1; [|discriminate].
    destruct (api_success (http_body r)) eqn:H2; [|discriminate].
    destruct (api_data (http_body r)) as [customer|] eqn:H3; [|discriminate].
    intros _. exists r, customer. repeat split; assumption.
  - destruct (OrderService.isRefused code); discriminate.
Qed.

Lemma validateProduct_success (env : OrderService.Env) (productId : string)
    (w w1 : World) (pv : ServiceResponse OrderService.Product) :
  OrderService.validateProduct env productId 1 w = (Ok pv, w1) ->
  success pv = true ->
  exists r product,
    OrderService.productReply env = AxResponse r /\
    validateStatus (http_status r) = true /\
    api_success (http_body r) = true /\
    api_data (http_body r) = Some product /\
    OrderService.isActive product = true /\
    JS.geb (OrderService.stock product) (JS.Fin 1) = true.
Proof.
  unfold OrderService.validateProduct, bind, emit, modify, ret. cbv beta iota.
  intros [= <- _].
  destruct (OrderService.productReply env) as [r|code].
  - destruct (validateStatus (http_status r)) eqn:H1; [|discriminate].
    destruct (api_success (http_body r)) eqn:H2; [|discriminate].
    destruct (api_data (http_body r)) as [product|] eqn:H3; [|discriminate].
    destruct (OrderService.isActive product) eqn:Hactive; [|discriminate].
    match goal with
    | |- context [if ?b then _ else _] => destruct b eqn:Hstock; [|discriminate]
    end.
    intros _. exists r, product. repeat split; first [assumption|exact Hstock].
  - destruct (OrderService.isRefused code); discriminate.
Qed.

(** X8.  [createOrder] changes the order collection only after the body
    has passed the intake checks, the customer service has answered the
    lookup with a 2xx success that carries a customer, and the product
    service has answered with a 2xx success that carries a product which
    is active and has a stock of at least 1. *)
Theorem order_is_stored_only_after_both_validations
    (env : OrderService.Env) (orderData : CreateOrderRequest.t) (w : World) :
  orders (snd (OrderService.createOrder env orderData w)) <> orders w ->
  intakeAccepts orderData = true /\
  (exists r customer,
      OrderService.customerReply env = AxResponse r /\
      validateStatus (http_status r) = true /\
      api_success (http_body r) = true /\
      api_data (http_body r) = Some customer) /\
  (exists r product,
      OrderService.productReply env = AxResponse r /\
      validateStatus (http_status r) = true /\
      api_success (http_body r) = true /\
      api_data (http_body r) = Some product /\
      OrderService.isActive product = true /\
      JS.geb (OrderService.stock product) (JS.Fin 1) = true).
Proof.
  destruct (createOrder_outcome env orderData w)
    as [m e Hacc|cv w1 Hacc Hc Hcv|cv w1 pv w2 Hacc Hc Hcv Hp Hpv
       |cv w1 pv w2 e Hacc Hc Hcv Hp Hpv Hi
       |cv w1 pv w2 saved w3 pr w4 Hacc Hc Hcv Hp Hpv Hi Hpay Hpr
       |cv w1 pv w2 saved w3 pr w4 Hacc Hc Hcv Hp Hpv Hi Hpay Hpr];
    intros Hchanged;
    try (exfalso; apply Hchanged; reflexivity);
    destruct (validateCustomer_inv _ _ _ _ _ Hc) as (Hw1 & _);
    try (destruct (validateProduct_inv _ _ _ _ _ _ Hp) as (Hw2 & _)).
  - exfalso. apply Hchanged. rewrite Hw1. reflexivity.
  - exfalso. apply Hchanged. rewrite Hw2, Hw1. reflexivity.
  - exfalso. apply Hchanged. rewrite Hw2, Hw1. reflexivity.
  - split; [exact Hacc|]. split.
    + exact (validateCustomer_success _ _ _ _ _ Hc Hcv).
    + exact (validateProduct_success _ _ _ _ _ Hp Hpv).
  - split; [exact Hacc|]. split.
    + exact (validateCustomer_success _ _ _ _ _ Hc Hcv).
    + exact (validateProduct_success _ _ _ _ _ Hp Hpv).
Qed.

Lemma order_is_stored_only_after_both_validations_run :
  orders (snd (OrderService.createOrder Sample.declined
                 (Sample.order (Some (JS.Fin (50000 # 1))) None) emptyWorld))
    <> orders emptyWorld /\
  exists r product,
    OrderService.productReply Sample.declined = AxResponse r /\
    api_data (http_body r) = Some product /\
    OrderService.isActive product = true.
Proof.
  assert (H : orders (snd (OrderService.createOrder Sample.declined
                             (Sample.order (Some (JS.Fin (50000 # 1))) None) emptyWorld))
              <> orders emptyWorld) by (vm_compute; discriminate).
  split; [exact H|].
  destruct (order_is_stored_only_after_both_validations _ _ _ H)
    as (_ & _ & r & product & Hr & _ & _ & Hd & Ha & _).
  exists r, product. repeat split; assumption.
Defined.

(* ================================================================== *)
(** * The schema of the order middleware and the intake of the controller *)
(* ================================================================== *)

Lemma createOrderSchema_nil (body : CreateOrderRequest.t) :
  OrderValidation.createOrderSchema body = [] ->
  PaymentService.joiString (CreateOrderRequest.customerId body) = true /\
  PaymentService.joiString (CreateOrderRequest.productId body) = true /\
  PaymentService.joiAmount (CreateOrderRequest.amount body) = true /\
  OrderValidation.joiShippingAddress (CreateOrderRequest.shippingAddress body) = true /\
  CreateOrderRequest.orderId body = None.
Proof.
  unfold OrderValidation.createOrderSchema.
  destruct (PaymentService.joiString (CreateOrderRequest.customerId body));
    [|discriminate].
  destruct (PaymentService.joiString (CreateOrderRequest.productId body));
    [|discriminate].
  destruct (PaymentService.joiAmount (CreateOrderRequest.amount body));
    [|discriminate].
  destruct (OrderValidation.joiShippingAddress (CreateOrderRequest.shippingAddress body));
    [|discriminate].
  destruct (CreateOrderRequest.orderId body); [discriminate|].
  intros _. repeat split.
Qed.

Lemma joiString_inv (v : option string) :
  PaymentService.joiString v = true -> exists s, v = Some s /\ s <> "".
Proof.
  destruct v as [s|]; [|discriminate]. cbn. intros H. exists s. split; [reflexivity|].
  intros ->. discriminate H.
Qed.

Lemma joiAmount_inv (v : option JS.number) :
  PaymentService.joiAmount v = true ->
  exists q, v = Some (JS.Fin q) /\ Qle (1 # 100) q /\ Qle q PaymentService.maxSafeInteger.
Proof.
  destruct v as [[| | |q]|]; try discriminate. cbn. intros H.
  apply andb_prop in H. destruct H as (H1 & H2).
  exists q. split; [reflexivity|]. split; apply Qle_bool_iff; assumption.
Qed.

Lemma positive_amount (q : Q) :
  Qle (1 # 100) q -> Qle_bool q 0 = false /\ Qeq_bool q 0 = false /\ Qle_bool 0 q = true.
Proof.
  intros H. split; [|split].
  - destruct (Qle_bool q 0) eqn:E; [|reflexivity].
    apply Qle_bool_iff in E. exfalso.
    assert (Hc : Qle (1 # 100) 0) by (eapply Qle_trans; eassumption).
    revert Hc. unfold Qle. cbn. lia.
  - destruct (Qeq_bool q 0) eqn:E; [|reflexivity].
    apply Qeq_bool_iff in E. exfalso. rewrite E in H.
    revert H. unfold Qle. cbn. lia.
  - apply Qle_bool_iff. eapply Qle_trans; [|exact H]. unfold Qle. cbn. lia.
Qed.

(** X9.  What [validateCreateOrder] lets through ([next()]) has a
    non-empty [customerId] and [productId], a finite amount of at least 0.01
    and no [orderId]; when neither identifier is blank, such a body also
    passes the two intake checks of [createOrder].  So, mounted on the
    route, the schema would refuse an infinite amount and a client-chosen
    [orderId] with 400, which the controller alone accepts. *)
Theorem order_schema_implies_intake (body : CreateOrderRequest.t) :
  OrderValidation.validateCreateOrder body = None ->
  exists customerId productId q,
    CreateOrderRequest.customerId body = Some customerId /\ customerId <> "" /\
    CreateOrderRequest.productId body = Some productId /\ productId <> "" /\
    CreateOrderRequest.amount body = Some (JS.Fin q) /\ Qle (1 # 100) q /\
    CreateOrderRequest.orderId body = None /\
    (JS.trim customerId <> "" -> JS.trim productId <> "" ->
     intakeAccepts body = true).
Proof.
  unfold OrderValidation.validateCreateOrder.
  destruct (OrderValidation.createOrderSchema body) eqn:Hschema; [|discriminate].
  intros _.
  destruct (createOrderSchema_nil body Hschema) as (Hc & Hp & Ha & _ & Hid).
  destruct (joiString_inv _ Hc) as (c & Hc' & Hcne).
  destruct (joiString_inv _ Hp) as (p & Hp' & Hpne).
  destruct (joiAmount_inv _ Ha) as (q & Ha' & Hq & _).
  exists c, p, q. repeat (split; [assumption|]).
  intros Hct Hpt.
  destruct (positive_amount q Hq) as (Hle & Heq & _).
  unfold intakeAccepts. apply andb_true_intro. split.
  - apply isValid_true. intros f Hf.
    assert (Hstr : forall s, s <> "" -> JS.trim s <> "" ->
                     fieldMissing (JS.Str s) = false).
    { intros s Hs Hts. unfold fieldMissing. cbn [JS.truthy].
      apply String.eqb_neq in Hs. apply String.eqb_neq in Hts.
      rewrite Hs, Hts. reflexivity. }
    cbn in Hf. destruct Hf as [<-|[<-|[<-|[]]]]; unfold OrderService.property; cbn.
    + rewrite Hc'. apply Hstr; assumption.
    + rewrite Hp'. apply Hstr; assumption.
    + rewrite Ha'. unfold fieldMissing. cbn [JS.truthy]. rewrite Heq. reflexivity.
  - rewrite Ha'. cbn. rewrite Hle. reflexivity.
Qed.

Lemma order_schema_implies_intake_run :
  OrderValidation.validateCreateOrder (Sample.order (Some (JS.Fin (50000 # 1))) None)
    = None /\
  intakeAccepts (Sample.order (Some (JS.Fin (50000 # 1))) None) = true /\
  OrderValidation.validateCreateOrder (Sample.order (Some JS.PosInf) None) <> None /\
  OrderValidation.validateCreateOrder
    (Sample.order (Some (JS.Fin (50000 # 1))) (Some "ORD_CHOSEN_BY_CLIENT")) <> None.
Proof.
  split; [reflexivity|].
  split.
  - destruct (order_schema_implies_intake
                (Sample.order (Some (JS.Fin (50000 # 1))) None) eq_refl)
      as (c & p & q & Hc & _ & Hp & _ & _ & _ & _ & Hintake).
    injection Hc as <-. injection Hp as <-.
    apply Hintake; vm_compute; discriminate.
  - split; vm_compute; discriminate.
Defined.

(* ================================================================== *)
(** * The schema of the payment route *)
(* ================================================================== *)

Lemma joiString_refuses (v : option string) :
  absentOrEmpty v -> PaymentService.joiString v = false.
Proof. intros [->| ->]; reflexivity. Qed.

Lemma joiAmount_refuses (v : option JS.number) :
  amountOutsideSchema v -> PaymentService.joiAmount v = false.
Proof.
  destruct v as [[| | |q]|]; try reflexivity. cbn.
  intros [H|H].
  - destruct (Qle_bool (1 # 100) q) eqn:E; [|reflexivity].
    apply Qle_bool_iff in E. exfalso. apply (Qlt_not_le _ _ H E).
  - destruct (Qle_bool q PaymentService.maxSafeInteger) eqn:E;
      [|apply andb_false_r].
    apply Qle_bool_iff in E. exfalso. apply (Qlt_not_le _ _ H E).
Qed.

Lemma joiPaymentMethod_refuses (m : string) :
  ~ In m PaymentService.paymentMethods ->
  PaymentService.joiPaymentMethod (Some m) = false.
Proof.
  intros Hnot. cbn [PaymentService.joiPaymentMethod].
  destruct (existsb (String.eqb m) PaymentService.paymentMethods) eqn:E; [|reflexivity].
  apply existsb_exists in E. destruct E as (x & Hin & Heq).
  apply String.eqb_eq in Heq. subst x. contradiction.
Qed.

Lemma schema_refuses (body : PaymentRequest.t) :
  outsideChargeSchema body ->
  exists details,
    PaymentService.validateCreatePayment body =
      Some {| http_status := 400;
              http_body := createApiResponse false None (Some "Validation failed")
                             (Some details) |}.
Proof.
  intros Hout.
  assert (Hne : PaymentService.createPaymentSchema body <> []).
  { intros Hnil. destruct (createPaymentSchema_nil body Hnil) as (H1 & H2 & H3 & H4 & H5).
    destruct Hout as [H|[H|[H|[H|(m & Hm & Hnot)]]]].
    - rewrite (joiString_refuses _ H) in H1. discriminate.
    - rewrite (joiString_refuses _ H) in H2. discriminate.
    - rewrite (joiString_refuses _ H) in H3. discriminate.
    - rewrite (joiAmount_refuses _ H) in H4. discriminate.
    - rewrite Hm, (joiPaymentMethod_refuses m Hnot) in H5. discriminate. }
  unfold PaymentService.validateCreatePayment.
  destruct (PaymentService.createPaymentSchema body) as [|d ds]; [contradiction|].
  eexists. reflexivity.
Qed.

(** X10.  A charge whose body the schema of the payment route refuses (an
    identifier absent or empty; an amount absent, not a finite number,
    below 0.01 or beyond the safe-integer range; a payment method outside
    the five accepted ones) is answered 400 'Validation failed' by the
    route and leaves the world exactly as it was: no Payment is stored, the
    gateway is not consulted, nothing is published, nothing is logged. *)
Theorem refused_charge_leaves_no_trace
    (env : PaymentService.Env) (body : PaymentRequest.t) (w : World) :
  outsideChargeSchema body ->
  exists details,
    PaymentService.postPayments env body w =
      ({| http_status := 400;
          http_body := createApiResponse false None (Some "Validation failed")
                         (Some details) |}, w).
Proof.
  intros Hout. destruct (schema_refuses body Hout) as (details & Hrefused).
  exists details. unfold PaymentService.postPayments. rewrite Hrefused. reflexivity.
Qed.

Lemma refused_charge_leaves_no_trace_run :
  outsideChargeSchema (Fixture.withAmount (Some (JS.Fin (1 # 1000))) Fixture.charge) /\
  exists details,
    PaymentService.postPayments Sample.approving
      (Fixture.withAmount (Some (JS.Fin (1 # 1000))) Fixture.charge) emptyWorld =
      ({| http_status := 400;
          http_body := createApiResponse false None (Some "Validation failed")
                         (Some details) |}, emptyWorld).
Proof.
  assert (H : outsideChargeSchema
                (Fixture.withAmount (Some (JS.Fin (1 # 1000))) Fixture.charge)).
  { right; right; right; left. left. reflexivity. }
  split; [exact H|].
  exact (refused_charge_leaves_no_trace Sample.approving _ emptyWorld H).
Defined.

(* ================================================================== *)
(** * An order whose charge the payment route refuses *)
(* ================================================================== *)

Lemma json_amount_outside (amount : option JS.number) :
  amountOutsideSchema amount ->
  amountOutsideSchema (JS.jsonNumber (OrderService.toNumber amount)).
Proof.
  destruct amount as [[| | |q]|]; cbn; auto.
Qed.

(** X11.  The intake of [createOrder] and the schema of the payment route
    disagree on amounts.  An order that passes the intake and both
    validations and is inserted, but whose amount the payment schema
    refuses (positive and below 0.01, an infinity, or beyond the
    safe-integer range), is charged over a working link and refused there:
    the saga answers 400 with the error 'Validation failed', the order is
    written back as cancelled, and no Payment is stored and nothing is
    queued. *)
Theorem order_outside_payment_schema_is_cancelled
    (env : OrderService.Env) (orderData : CreateOrderRequest.t)
    (w w1 w2 w3 : World)
    (cv : ServiceResponse OrderService.Customer)
    (pv : ServiceResponse OrderService.Product)
    (saved : Order.t) :
  intakeAccepts orderData = true ->
  OrderService.validateCustomer env (customerOf orderData) w = (Ok cv, w1) ->
  success cv = true ->
  OrderService.validateProduct env (productOf orderData) 1 w1 = (Ok pv, w2) ->
  success pv = true ->
  OrderService.insertOrder env orderData w2 = (Ok saved, w3) ->
  OrderService.link env = OrderService.Delivered ->
  amountOutsideSchema (CreateOrderRequest.amount orderData) ->
  let cancelled := Order.setUpdatedAt (OrderService.savedAt env)
                     (Order.setStatus OrderStatus.CANCELLED saved) in
  let w' := snd (OrderService.createOrder env orderData w) in
  fst (OrderService.createOrder env orderData w) =
    {| http_status := 400;
       http_body := createApiResponse false None (Some "Payment processing failed")
                      (Some "Validation failed") |} /\
  OrderService.findOne (Order.orderId saved) w' = Some cancelled /\
  sameLedger w w'.
Proof.
  intros Hacc Hc Hcv Hp Hpv Hi Hlink Hout. cbv zeta.
  assert (Hcharge : outsideChargeSchema (chargeFor orderData saved)).
  { right; right; right; left. apply json_amount_outside, Hout. }
  destruct (schema_refuses _ Hcharge) as (details & Hrefused).
  assert (Hpost :
    PaymentService.postPayments (OrderService.paymentEnv env) (chargeFor orderData saved)
      (logged (HttpPostPayment (chargeFor orderData saved)) w3) =
    ({| http_status := 400;
        http_body := createApiResponse false None (Some "Validation failed")
                       (Some details) |},
     logged (HttpPostPayment (chargeFor orderData saved)) w3)).
  { unfold PaymentService.postPayments. rewrite Hrefused. reflexivity. }
  pose proof (processPayment_client_answered env orderData saved w3 _ _
                Hlink Hpost eq_refl) as Hpay.
  rewrite (saga_payment_failed env orderData w cv w1 pv w2 saved w3 _ _
             Hacc Hc Hcv Hp Hpv Hi Hpay eq_refl).
  cbn [fst snd].
  split; [reflexivity|]. split.
  - apply (verdict_persisted env orderData w w1 w2 w3 _ cv pv saved _ Hc Hp Hi Hpay
             OrderStatus.CANCELLED).
  - destruct (validateCustomer_inv _ _ _ _ _ Hc) as (Hw1 & _).
    destruct (validateProduct_inv _ _ _ _ _ _ Hp) as (Hw2 & _).
    destruct (inserted_facts env orderData w2 w3 saved Hi) as (Hw3 & _).
    rewrite saveOrder_run, Hw3, Hw2, Hw1. repeat split.
Qed.

Lemma order_outside_payment_schema_is_cancelled_run :
  let env := Sample.happy in
  let orderData := Sample.order (Some (JS.Fin (1 # 1000))) None in
  exists w1 w2 w3 cv pv saved,
    intakeAccepts orderData = true /\
    OrderService.validateCustomer env (customerOf orderData) emptyWorld = (Ok cv, w1) /\
    success cv = true /\
    OrderService.validateProduct env (productOf orderData) 1 w1 = (Ok pv, w2) /\
    success pv = true /\
    OrderService.insertOrder env orderData w2 = (Ok saved, w3) /\
    OrderService.link env = OrderService.Delivered /\
    amountOutsideSchema (CreateOrderRequest.amount orderData) /\
    http_status (fst (OrderService.createOrder env orderData emptyWorld)) = 400 /\
    map Order.orderStatus (orders (snd (OrderService.createOrder env orderData emptyWorld)))
      = [OrderStatus.CANCELLED] /\
    sameLedger emptyWorld (snd (OrderService.createOrder env orderData emptyWorld)).
Proof.
  cbv zeta. eexists _, _, _, _, _, _.
  split; [vm_compute; reflexivity|].
  split; [cbv; reflexivity|].
  split; [reflexivity|].
  split; [cbv; reflexivity|].
  split; [reflexivity|].
  split; [cbv; reflexivity|].
  split; [reflexivity|].
  split; [left; reflexivity|].
  destruct (order_outside_payment_schema_is_cancelled Sample.happy
              (Sample.order (Some (JS.Fin (1 # 1000))) None)
              emptyWorld _ _ _ _ _ _
              eq_refl eq_refl eq_refl eq_refl eq_refl eq_refl eq_refl
              (or_introl eq_refl)) as (Hanswer & _ & Hledger).
  split; [rewrite Hanswer; reflexivity|].
  split; [vm_compute; reflexivity|exact Hledger].
Defined.

(* ================================================================== *)
(** * The outcomes of a charge *)
(* ================================================================== *)

Lemma insertPayment_fresh (env : PaymentService.Env) (body : PaymentRequest.t)
    (w w1 : World) (p : Payment.t) :
  PaymentService.insertPayment env body w = (Ok p, w1) ->
  existsb (fun q => Payment.paymentId q =? Payment.paymentId p) (payments w) = false.
Proof.
  unfold PaymentService.insertPayment, Mongoose.requiredString.
  destruct (PaymentRequest.customerId body) as [c|];
    [destruct (c =? "")|]; try discriminate.
  destruct (PaymentRequest.orderId body) as [o|];
    [destruct (o =? "")|]; try discriminate.
  destruct (PaymentRequest.productId body) as [x|];
    [destruct (x =? "")|]; try discriminate.
  destruct (PaymentRequest.amount body) as [a|]; try discriminate.
  destruct (_ && _); try discriminate.
  unfold bind, get, throw, modify, emit, ret. cbv zeta.
  destruct (existsb _ _) eqn:E; intros [= <- <-]. exact E.
Qed.

Lemma replacePayment_snoc_fresh (doc p : Payment.t) (stored : list Payment.t) :
  (forall x, In x stored -> Payment._id x <> Payment._id doc) ->
  Payment._id p = Payment._id doc ->
  replacePayment doc (snoc p stored) = snoc doc stored.
Proof.
  intros Hfresh Hid. unfold replacePayment, snoc. rewrite map_app. simpl.
  rewrite Hid, Nat.eqb_refl. f_equal.
  rewrite <- (map_id stored) at 2. apply map_ext_in. intros x Hx.
  specialize (Hfresh x Hx). apply Nat.eqb_neq in Hfresh. now rewrite Hfresh.
Qed.

Lemma transactionIdTaken_spec (doc : Payment.t) (tx : string) (stored : list Payment.t) :
  Payment.transactionId doc = Some tx ->
  PaymentService.transactionIdTaken doc stored = true <->
  exists q, In q stored /\ Payment._id q <> Payment._id doc /\
            Payment.transactionId q = Some tx.
Proof.
  intros Htx. unfold PaymentService.transactionIdTaken. rewrite Htx.
  rewrite existsb_exists. split.
  - intros (q & Hin & Hq). apply andb_prop in Hq. destruct Hq as (Hid & Hsame).
    exists q. split; [exact Hin|]. split.
    + apply negb_true_iff, Nat.eqb_neq in Hid. exact Hid.
    + destruct (Payment.transactionId q) as [t|]; [|discriminate].
      apply String.eqb_eq in Hsame. now subst t.
  - intros (q & Hin & Hid & Hsame). exists q. split; [exact Hin|].
    apply andb_true_intro. split.
    + apply negb_true_iff, Nat.eqb_neq. exact Hid.
    + rewrite Hsame. apply String.eqb_refl.
Qed.

Lemma postPayments_outcome (env : PaymentService.Env) (body : PaymentRequest.t)
    (w : World) :
  paymentsFresh w ->
  let reply := fst (PaymentService.postPayments env body w) in
  let w' := snd (PaymentService.postPayments env body w) in
  (sameLedger w w' /\
   (PaymentService.validateCreatePayment body = Some reply \/
    (PaymentService.validateCreatePayment body = None /\
     reply = PaymentService.internalError)))
  \/
  (exists pending w1,
      PaymentService.validateCreatePayment body = None /\
      PaymentService.insertPayment env body w = (Ok pending, w1) /\
      nextPaymentOid w' = S (nextPaymentOid w) /\
      ((payments w' = snoc pending (payments w) /\
        queue w' = queue w /\
        reply = PaymentService.internalError /\
        approves env = true /\
        exists q, In q (payments w) /\
                  Payment.transactionId q = Some (issuedId env))
       \/
       (payments w' = snoc (completedBy env pending) (payments w) /\
        queue w' = queueAfter env (reportOf env body pending) (queue w) /\
        reply = approved env pending /\
        approves env = true /\
        forall q, In q (payments w) ->
                  Payment.transactionId q <> Some (issuedId env))
       \/
       (payments w' = snoc (failedBy env pending) (payments w) /\
        queue w' = queue w /\
        reply = declinedWith env pending /\
        approves env = false))).
Proof.
  intros Hfresh. cbv zeta. unfold PaymentService.postPayments.
  destruct (PaymentService.validateCreatePayment body) as [refusal|] eqn:Hjoi.
  { left. cbn [fst snd]. split; [repeat split|left; reflexivity]. }
  rewrite processPayment_run.
  destruct (PaymentService.insertPayment env body w) as [[p|e] w1] eqn:Hins.
  2:{ destruct (insertPayment_inv _ _ _ _ _ Hins) as [(e' & _ & ->)|(p' & [=] & _)].
      left. cbn [fst snd]. split; [repeat split|right; split; reflexivity]. }
  right. exists p, w1. split; [reflexivity|]. split; [reflexivity|].
  destruct (insertPayment_inv _ _ _ _ _ Hins)
    as [(e' & [=] & _)|(p' & [= <-] & Hw1 & Hid & Hst & Htx & _)].
  assert (Hother : forall x, In x (payments w) -> Payment._id x <> Payment._id p).
  { intros x Hx. specialize (Hfresh x Hx). rewrite Hid. lia. }
  rewrite Hw1. cbv zeta.
  destruct (approves env) eqn:Happ.
  - destruct (PaymentService.transactionIdTaken _ _) eqn:Htaken.
    + cbn [fst snd]. split; [reflexivity|]. left.
      repeat (split; [reflexivity|]).
      apply (transactionIdTaken_spec _ (issuedId env)) in Htaken; [|reflexivity].
      destruct Htaken as (q & Hin & Hqid & Hq).
      exists q. split; [|exact Hq].
      cbn in Hin. apply In_snoc_inv in Hin. destruct Hin as [Hin| ->]; [exact Hin|].
      exfalso. apply Hqid. reflexivity.
    + assert (Hnone : forall q, In q (payments w) ->
                        Payment.transactionId q <> Some (issuedId env)).
      { intros q Hq Heq.
        assert (Hex : PaymentService.transactionIdTaken
                        (Payment.setTransactionId (Some (issuedId env))
                           (Payment.setStatus PaymentStatus.COMPLETED p))
                        (payments (logged (GatewaySimulated (Payment.paymentId p))
                                     (logged (PaymentInserted p)
                                        (withPayments (snoc p) 1 w)))) = true).
        { apply (transactionIdTaken_spec _ (issuedId env)); [reflexivity|].
          exists q. split; [cbn; apply In_snoc_old, Hq|].
          split; [apply Hother, Hq|exact Heq]. }
        rewrite Hex in Htaken. discriminate Htaken. }
      assert (Hrep : replacePayment (completedBy env p) (snoc p (payments w))
                     = snoc (completedBy env p) (payments w)).
      { apply replacePayment_snoc_fresh; [exact Hother|reflexivity]. }
      split; [destruct (PaymentService.channel env); reflexivity|].
      right; left.
      split; [destruct (PaymentService.channel env); cbn; exact Hrep|].
      split; [unfold queueAfter; destruct (PaymentService.channel env); reflexivity|].
      split; [reflexivity|]. split; [reflexivity|exact Hnone].
  - cbn [fst snd]. split; [reflexivity|]. right; right.
    split; [|repeat split].
    cbn. apply (replacePayment_snoc_fresh (failedBy env p)); [exact Hother|reflexivity].
Qed.

Lemma flow_is_consistent (requests : list System.Request) :
  Consistent (System.run requests emptyWorld).
Proof. apply run_consistent, Consistent_empty. Qed.

(** X12.  What the payment route answers tells what it has stored.  In
    every world of the flow, a charge either stores nothing (400 from the
    schema, or 500 because the insert threw), or stores exactly one new
    Payment after the stored ones, all of which it leaves as they were:
    completed and carrying the issued [transactionId] when the answer is
    201 (with one message queued if the channel is up, none if it is
    down); failed when the answer is 400 'Payment processing failed' with
    the reason of the gateway; and left pending, with answer 500, when the
    gateway approved but the issued [transactionId] is already held by a
    stored Payment, so that the second save throws. *)
Theorem charge_answer_tells_what_is_stored
    (requests : list System.Request)
    (env : PaymentService.Env) (body : PaymentRequest.t) :
  let w := System.run requests emptyWorld in
  let reply := fst (PaymentService.postPayments env body w) in
  let w' := snd (PaymentService.postPayments env body w) in
  (sameLedger w w' /\
   (PaymentService.validateCreatePayment body = Some reply \/
    (PaymentService.validateCreatePayment body = None /\
     reply = PaymentService.internalError)))
  \/
  (exists pending w1,
      PaymentService.validateCreatePayment body = None /\
      PaymentService.insertPayment env body w = (Ok pending, w1) /\
      nextPaymentOid w' = S (nextPaymentOid w) /\
      ((payments w' = snoc pending (payments w) /\
        queue w' = queue w /\
        reply = PaymentService.internalError /\
        approves env = true /\
        exists q, In q (payments w) /\
                  Payment.transactionId q = Some (issuedId env))
       \/
       (payments w' = snoc (completedBy env pending) (payments w) /\
        queue w' = queueAfter env (reportOf env body pending) (queue w) /\
        reply = approved env pending /\
        approves env = true /\
        forall q, In q (payments w) ->
                  Payment.transactionId q <> Some (issuedId env))
       \/
       (payments w' = snoc (failedBy env pending) (payments w) /\
        queue w' = queue w /\
        reply = declinedWith env pending /\
        approves env = false))).
Proof.
  apply postPayments_outcome, (payments_fresh _ (flow_is_consistent requests)).
Qed.

(* ================================================================== *)
(** * The ledger: payments and queue *)
(* ================================================================== *)

Lemma transactionIds_snoc (p : Payment.t) (stored : list Payment.t) :
  transactionIds (snoc p stored) =
  (transactionIds stored ++
   match Payment.transactionId p with Some tx => [tx] | None => [] end)%list.
Proof.
  unfold transactionIds, snoc. rewrite flat_map_app. cbn. rewrite app_nil_r. reflexivity.
Qed.

Lemma In_transactionIds (tx : string) (stored : list Payment.t) :
  In tx (transactionIds stored) <->
  exists q, In q stored /\ Payment.transactionId q = Some tx.
Proof.
  unfold transactionIds. rewrite in_flat_map. split.
  - intros (q & Hin & Hq). exists q. split; [exact Hin|].
    destruct (Payment.transactionId q) as [t|]; [|contradiction].
    destruct Hq as [->|[]]. reflexivity.
  - intros (q & Hin & Hq). exists q. split; [exact Hin|]. rewrite Hq. now left.
Qed.

Lemma Ledger_same (w w' : World) :
  sameLedger w w' -> Ledger w -> Ledger w'.
Proof.
  intros (Hp & Hn & Hq) [F1 F2 F3 F4 F5 F6 F7 F8].
  constructor; unfold paymentsFresh; rewrite ?Hp, ?Hn, ?Hq; assumption.
Qed.

Lemma sameLedger_refl (w : World) : sameLedger w w.
Proof. repeat split. Qed.

Lemma sameLedger_trans (w1 w2 w3 : World) :
  sameLedger w1 w2 -> sameLedger w2 w3 -> sameLedger w1 w3.
Proof.
  intros (A1 & A2 & A3) (B1 & B2 & B3). unfold sameLedger.
  rewrite B1, B2, B3. repeat split; assumption.
Qed.

Lemma Ledger_empty : Ledger emptyWorld.
Proof.
  constructor.
  - intros p [].
  - constructor.
  - constructor.
  - constructor.
  - intros p [].
  - intros m [].
  - constructor.
  - intros iso m [].
Qed.

Lemma nonEmpty_string (s : string) :
  s <> "" -> TransactionWorker.nonEmpty (JS.Str s) = true.
Proof. destruct s; [contradiction|reflexivity]. Qed.

Lemma report_is_valid (env : PaymentService.Env) (body : PaymentRequest.t)
    (w w1 : World) (pending : Payment.t) (iso : N -> string) :
  PaymentService.validateCreatePayment body = None ->
  PaymentService.insertPayment env body w = (Ok pending, w1) ->
  TransactionWorker.validateTransactionMessage
    (Wire.delivered iso (reportOf env body pending)) = true.
Proof.
  intros Hjoi Hins.
  destruct (createPaymentSchema_nil body (validateCreatePayment_accepts body Hjoi))
    as (Hc & Ho & Hp & Ha & _).
  destruct (insertPayment_inv _ _ _ _ _ Hins)
    as [(e' & [=] & _)|(p' & [= <-] & _ & _ & _ & _ & Hbc & Hbo & Hbp & Hba & _)].
  rewrite Hbc in Hc. rewrite Hbo in Ho. rewrite Hbp in Hp. rewrite Hba in Ha.
  destruct (joiString_inv _ Hc) as (c & [= <-] & Hcne).
  destruct (joiString_inv _ Ho) as (o & [= <-] & Hone).
  destruct (joiString_inv _ Hp) as (x & [= <-] & Hxne).
  destruct (joiAmount_inv _ Ha) as (q & [= Hq] & Hmin & _).
  destruct (positive_amount q Hmin) as (_ & _ & Hpos).
  unfold TransactionWorker.validateTransactionMessage, Wire.delivered, reportOf.
  cbn [TransactionWorker.productId TransactionWorker.transactionId
       TransactionWorker.customerId TransactionWorker.orderId TransactionWorker.amount
       TransactionMessage.productId TransactionMessage.transactionId
       TransactionMessage.customerId TransactionMessage.orderId TransactionMessage.amount].
  rewrite Hbp, Hq. cbn [JS.jsonNumber TransactionWorker.isString TransactionWorker.isNumber
                        TransactionWorker.nonNegative andb].
  rewrite (nonEmpty_string _ Hcne), (nonEmpty_string _ Hone), (nonEmpty_string _ Hxne).
  unfold JS.geb, JS.leb. rewrite Hpos.
  destruct (Payment.productId pending); [contradiction|reflexivity].
Qed.

Lemma postPayments_ledger (env : PaymentService.Env) (body : PaymentRequest.t)
    (w : World) :
  Ledger w -> Ledger (snd (PaymentService.postPayments env body w)).
Proof.
  intros Hw.
  destruct (postPayments_outcome env body w (ledger_fresh _ Hw))
    as [(Hsame & _)|(p & w1 & Hjoi & Hins & Hnext & Hcases)].
  { exact (Ledger_same _ _ Hsame Hw). }
  cbv zeta in *.
  set (w' := snd (PaymentService.postPayments env body w)) in *.
  destruct Hw as [F1 F2 F3 F4 F5 F6 F7 F8].
  pose proof (insertPayment_fresh _ _ _ _ _ Hins) as Hpid.
  destruct (insertPayment_inv _ _ _ _ _ Hins)
    as [(e' & [=] & _)|(p' & [= <-] & _ & Hid & Hst & Htx & Hbc & Hbo & Hbp & Hba & _)].
  assert (Hstored : exists stored,
            payments w' = snoc stored (payments w) /\
            Payment._id stored = Payment._id p /\
            Payment.paymentId stored = Payment.paymentId p /\
            (Payment.status stored = PaymentStatus.COMPLETED <->
             Payment.transactionId stored <> None) /\
            (forall tx, Payment.transactionId stored = Some tx ->
                        tx = issuedId env /\
                        stored = completedBy env p /\
                        forall q, In q (payments w) ->
                                  Payment.transactionId q <> Some (issuedId env)) /\
            (queue w' = queue w \/
             (queue w' = snoc (reportOf env body p) (queue w) /\
              stored = completedBy env p))).
  { destruct Hcases as [(Hpay & Hq & _)|[(Hpay & Hq & _ & _ & Hnone)|(Hpay & Hq & _)]].
    - exists p. split; [exact Hpay|]. split; [reflexivity|]. split; [reflexivity|].
      split; [rewrite Hst, Htx; split; [discriminate|intros H; now elim H]|].
      split; [intros tx Heq; rewrite Htx in Heq; discriminate|left; exact Hq].
    - exists (completedBy env p). split; [exact Hpay|].
      split; [reflexivity|]. split; [reflexivity|].
      split; [split; [discriminate|reflexivity]|].
      split; [intros tx [= <-]; repeat split; exact Hnone|].
      unfold queueAfter in Hq. destruct (PaymentService.channel env).
      + left; exact Hq.
      + right; split; [exact Hq|reflexivity].
    - exists (failedBy env p). split; [exact Hpay|].
      split; [reflexivity|]. split; [reflexivity|].
      split; [cbn; rewrite Htx; split; [discriminate|intros H; now elim H]|].
      split; [intros tx Heq; cbn in Heq; rewrite Htx in Heq; discriminate|left; exact Hq]. }
  destruct Hstored as (stored & Hpay & Hsid & Hspid & Hsst & Hstx & Hqueue).
  assert (Hnew : forall m, In m (queue w') ->
            In m (queue w) \/ (m = reportOf env body p /\ stored = completedBy env p)).
  { intros m Hm. destruct Hqueue as [Hq|(Hq & Hs)]; rewrite Hq in Hm; [left; exact Hm|].
    apply In_snoc_inv in Hm. destruct Hm as [Hm| ->]; [left; exact Hm|right; split; auto]. }
  constructor.
  - intros x Hx. rewrite Hpay in Hx. rewrite Hnext.
    apply In_snoc_inv in Hx. destruct Hx as [Hx| ->].
    + specialize (F1 x Hx). lia.
    + rewrite Hsid, Hid. lia.
  - rewrite Hpay, map_snoc. apply NoDup_snoc; [exact F2|].
    intros Hin. apply in_map_iff in Hin. destruct Hin as (x & Hx & Hin).
    specialize (F1 x Hin). rewrite Hsid, Hid in Hx. lia.
  - rewrite Hpay, map_snoc. apply NoDup_snoc; [exact F3|].
    intros Hin. apply in_map_iff in Hin. destruct Hin as (x & Hx & Hin).
    assert (Hex : existsb (fun q => Payment.paymentId q =? Payment.paymentId p)
                    (payments w) = true).
    { apply existsb_exists. exists x. split; [exact Hin|].
      apply String.eqb_eq. rewrite Hx. exact Hspid. }
    rewrite Hex in Hpid. discriminate Hpid.
  - rewrite Hpay, transactionIds_snoc.
    destruct (Payment.transactionId stored) as [tx|] eqn:Hs.
    + destruct (Hstx tx eq_refl) as (-> & _ & Hnone).
      apply (NoDup_snoc (issuedId env)); [exact F4|].
      intros Hin. apply In_transactionIds in Hin. destruct Hin as (q & Hq & Heq).
      exact (Hnone q Hq Heq).
    + rewrite app_nil_r. exact F4.
  - intros x Hx. rewrite Hpay in Hx. apply In_snoc_inv in Hx.
    destruct Hx as [Hx| ->]; [apply F5, Hx|exact Hsst].
  - intros m Hm. destruct (Hnew m Hm) as [Hold|(-> & Hs)].
    + destruct (F6 m Hold) as (x & Hx & Hrep). exists x.
      split; [rewrite Hpay; apply In_snoc_old, Hx|exact Hrep].
    + exists stored. split; [rewrite Hpay; apply In_snoc|].
      rewrite Hs. unfold reports, reportOf, completedBy. cbn.
      repeat split. exact Hbp.
  - destruct Hqueue as [Hq|(Hq & Hs)]; rewrite Hq; [exact F7|].
    rewrite map_snoc. apply NoDup_snoc; [exact F7|].
    intros Hin. apply in_map_iff in Hin. destruct Hin as (m & Hm & Hin).
    destruct (F6 m Hin) as (x & Hx & _ & Hxtx & _).
    destruct (Hstx (issuedId env)) as (_ & _ & Hnone); [rewrite Hs; reflexivity|].
    apply (Hnone x Hx). rewrite Hxtx, Hm. reflexivity.
  - intros iso m Hm. destruct (Hnew m Hm) as [Hold|(-> & _)].
    + apply F8, Hold.
    + apply (report_is_valid env body w w1 p iso Hjoi Hins).
Qed.

Lemma cancelOrder_frame (now : N) (orderId : string) (w : World) :
  sameLedger w (snd (OrderService.cancelOrder now orderId w)).
Proof.
  rewrite cancelOrder_run.
  destruct (OrderService.findOne orderId w) as [order|]; [|apply sameLedger_refl].
  destruct (OrderService.cancellable (Order.orderStatus order)); repeat split.
Qed.

Lemma createOrder_ledger_cases (env : OrderService.Env)
    (orderData : CreateOrderRequest.t) (w : World) :
  let w' := snd (OrderService.createOrder env orderData w) in
  sameLedger w w' \/
  exists charge w0,
    sameLedger w w0 /\
    sameLedger (snd (PaymentService.postPayments (OrderService.paymentEnv env) charge w0)) w'.
Proof.
  cbv zeta.
  destruct (createOrder_outcome env orderData w)
    as [m e Hacc|cv w1 Hacc Hc Hcv|cv w1 pv w2 Hacc Hc Hcv Hp Hpv
       |cv w1 pv w2 e Hacc Hc Hcv Hp Hpv Hi
       |cv w1 pv w2 saved w3 pr w4 Hacc Hc Hcv Hp Hpv Hi Hpay Hpr
       |cv w1 pv w2 saved w3 pr w4 Hacc Hc Hcv Hp Hpv Hi Hpay Hpr];
    [left; apply sameLedger_refl| | | | |];
    destruct (validateCustomer_inv _ _ _ _ _ Hc) as (Hw1 & _);
    try (destruct (validateProduct_inv _ _ _ _ _ _ Hp) as (Hw2 & _)).
  - left. rewrite Hw1. repeat split.
  - left. rewrite Hw2, Hw1. repeat split.
  - left. rewrite Hw2, Hw1. repeat split.
  - destruct (inserted_facts env orderData w2 w3 saved Hi) as (Hw3 & _).
    rewrite saveOrder_run. cbn [snd].
    destruct (processPayment_client_cases env orderData saved w3 w4 pr Hpay)
      as [(-> & _)|(-> & _)].
    + left. rewrite Hw3, Hw2, Hw1. repeat split.
    + right. eexists _, _. split; [|repeat split].
      rewrite Hw3, Hw2, Hw1. repeat split.
  - destruct (inserted_facts env orderData w2 w3 saved Hi) as (Hw3 & _).
    rewrite saveOrder_run. cbn [snd].
    destruct (processPayment_client_cases env orderData saved w3 w4 pr Hpay)
      as [(-> & _)|(-> & _)].
    + left. rewrite Hw3, Hw2, Hw1. repeat split.
    + right. eexists _, _. split; [|repeat split].
      rewrite Hw3, Hw2, Hw1. repeat split.
Qed.

Lemma handle_ledger (r : System.Request) (w : World) :
  Ledger w -> Ledger (System.handle r w).
Proof.
  intros Hw. destruct r as [env body|now orderId|env body]; cbn [System.handle].
  - destruct (createOrder_ledger_cases env body w)
      as [Hsame|(charge & w0 & Hsame0 & Hsame')].
    + exact (Ledger_same _ _ Hsame Hw).
    + apply (Ledger_same _ _ Hsame'). apply postPayments_ledger.
      exact (Ledger_same _ _ Hsame0 Hw).
  - exact (Ledger_same _ _ (cancelOrder_frame now orderId w) Hw).
  - apply postPayments_ledger, Hw.
Qed.

Lemma run_ledger (requests : list System.Request) (w : World) :
  Ledger w -> Ledger (System.run requests w).
Proof.
  revert w. induction requests as [|r rest IH]; intros w Hw; [exact Hw|].
  cbn. apply IH, handle_ledger, Hw.
Qed.

Lemma flow_ledger (requests : list System.Request) :
  Ledger (System.run requests emptyWorld).
Proof. apply run_ledger, Ledger_empty. Qed.

(** X13.  In every world of the flow the identifiers of the stored
    payments are unique: no two share a [paymentId], no two hold the same
    [transactionId], and a Payment holds a [transactionId] exactly when it
    is completed (pending and failed payments have none). *)
Theorem payment_identifiers_are_unique (requests : list System.Request) :
  let w := System.run requests emptyWorld in
  NoDup (map Payment.paymentId (payments w)) /\
  NoDup (transactionIds (payments w)) /\
  forall p, In p (payments w) ->
    (Payment.status p = PaymentStatus.COMPLETED <-> Payment.transactionId p <> None).
Proof.
  destruct (flow_ledger requests) as [F1 F2 F3 F4 F5 F6 F7 F8].
  cbv zeta. split; [exact F3|]. split; [exact F4|exact F5].
Qed.

(** X14.  In every world of the flow, every message on the transaction
    queue reports a stored Payment that is completed and has the
    [transactionId], customer, order, product and amount of the message;
    and no two queued messages bear the same [transactionId]. *)
Theorem queued_message_reports_a_completed_payment (requests : list System.Request) :
  let w := System.run requests emptyWorld in
  (forall m, In m (queue w) ->
     exists p, In p (payments w) /\
               Payment.status p = PaymentStatus.COMPLETED /\
               Payment.transactionId p = Some (TransactionMessage.transactionId m) /\
               Payment.customerId p = TransactionMessage.customerId m /\
               Payment.orderId p = TransactionMessage.orderId m /\
               Payment.amount p = TransactionMessage.amount m /\
               TransactionMessage.productId m = Some (Payment.productId p)) /\
  NoDup (map TransactionMessage.transactionId (queue w)).
Proof.
  destruct (flow_ledger requests) as [F1 F2 F3 F4 F5 F6 F7 F8].
  cbv zeta. split; [exact F6|exact F7].
Qed.

(* ================================================================== *)
(** * What later requests leave alone *)
(* ================================================================== *)

Lemma run_app (requests more : list System.Request) (w : World) :
  System.run (requests ++ more) w = System.run more (System.run requests w).
Proof. unfold System.run. apply fold_left_app. Qed.

Lemma handle_consistent (r : System.Request) (w : World) :
  Consistent w -> Consistent (System.handle r w).
Proof. intros Hw. exact (run_consistent [r] w Hw). Qed.

Lemma handle_keeps_payments (r : System.Request) (w : World) :
  Consistent w ->
  forall p, In p (payments w) -> In p (payments (System.handle r w)).
Proof.
  intros Hw p Hp. pose proof (payments_fresh _ Hw) as Hfresh.
  destruct r as [env body|now orderId|env body]; cbn [System.handle].
  - destruct (createOrder_ledger_cases env body w)
      as [(Hsame & _)|(charge & w0 & (Hp0 & Hn0 & _) & (Hp' & _))].
    + rewrite Hsame. exact Hp.
    + rewrite Hp'.
      apply (postPayments_payments (OrderService.paymentEnv env) charge w0).
      * unfold paymentsFresh. rewrite Hp0, Hn0. exact Hfresh.
      * rewrite Hp0. exact Hp.
  - destruct (cancelOrder_frame now orderId w) as (Hsame & _). rewrite Hsame. exact Hp.
  - apply (postPayments_payments env body w Hfresh), Hp.
Qed.

(** X15.  A stored Payment is final once the request that created it has
    been answered: whatever requests of the flow follow, the document is
    still in the collection, unchanged.  A Payment left pending by a failed
    save stays pending; no request retries, refunds or removes a charge. *)
Theorem stored_payment_never_changes (requests more : list System.Request)
    (p : Payment.t) :
  In p (payments (System.run requests emptyWorld)) ->
  In p (payments (System.run (requests ++ more) emptyWorld)).
Proof.
  rewrite run_app. pose proof (flow_is_consistent requests) as Hw.
  generalize dependent (System.run requests emptyWorld). clear requests.
  induction more as [|r rest IH]; intros w Hw Hp; [exact Hp|].
  cbn. apply IH; [apply handle_consistent, Hw|apply handle_keeps_payments; assumption].
Qed.

Lemma stored_payment_never_changes_run :
  let first :=
    [System.SubmitOrder Sample.declined (Sample.order (Some (JS.Fin (50000 # 1))) None)] in
  let more := [System.CancelOrder 1700000005000 Fixture.orderId;
               System.Charge Sample.approving Fixture.charge] in
  exists p,
    In p (payments (System.run first emptyWorld)) /\
    Payment.status p = PaymentStatus.FAILED /\
    In p (payments (System.run (first ++ more) emptyWorld)).
Proof.
  cbv zeta.
  assert (Hin : exists p,
            In p (payments (System.run
                              [System.SubmitOrder Sample.declined
                                 (Sample.order (Some (JS.Fin (50000 # 1))) None)]
                              emptyWorld)) /\
            Payment.status p = PaymentStatus.FAILED)
    by (vm_compute; eexists; split; [left; reflexivity|reflexivity]).
  destruct Hin as (p & Hin & Hst). exists p. split; [exact Hin|]. split; [exact Hst|].
  exact (stored_payment_never_changes _ _ p Hin).
Defined.

Lemma sameIdentity_refl (o : Order.t) : sameIdentity o o.
Proof. repeat split. Qed.

Lemma sameIdentity_trans (o1 o2 o3 : Order.t) :
  sameIdentity o1 o2 -> sameIdentity o2 o3 -> sameIdentity o1 o3.
Proof.
  intros (A1 & A2 & A3 & A4 & A5 & A6 & A7) (B1 & B2 & B3 & B4 & B5 & B6 & B7).
  unfold sameIdentity. rewrite B1, B2, B3, B4, B5, B6, B7. repeat split; assumption.
Qed.

Lemma replaceOrder_In_doc (x doc : Order.t) (stored : list Order.t) :
  In x stored -> Order._id x = Order._id doc -> In doc (replaceOrder doc stored).
Proof.
  intros Hin Hid. unfold replaceOrder. apply in_map_iff. exists x.
  split; [|exact Hin]. rewrite Hid, Nat.eqb_refl. reflexivity.
Qed.

Lemma handle_keeps_orders (r : System.Request) (w : World) (o : Order.t) :
  Consistent w ->
  In o (orders w) ->
  exists o',
    In o' (orders (System.handle r w)) /\
    sameIdentity o o' /\
    (Order.orderStatus o' = Order.orderStatus o \/
     Order.orderStatus o' = OrderStatus.CANCELLED) /\
    (Order.orderStatus o = OrderStatus.CANCELLED -> o' = o).
Proof.
  intros Hw Ho.
  assert (Hkept : In o (orders (System.handle r w)) ->
            exists o',
              In o' (orders (System.handle r w)) /\
              sameIdentity o o' /\
              (Order.orderStatus o' = Order.orderStatus o \/
               Order.orderStatus o' = OrderStatus.CANCELLED) /\
              (Order.orderStatus o = OrderStatus.CANCELLED -> o' = o)).
  { intros Hin. exists o. split; [exact Hin|]. split; [apply sameIdentity_refl|].
    split; [left; reflexivity|reflexivity]. }
  destruct r as [env body|now orderId|env body]; cbn [System.handle] in *.
  - apply Hkept.
    destruct (createOrder_orders env body w (orders_fresh _ Hw)) as [->|(doc & -> & _)].
    + exact Ho.
    + apply In_snoc_old, Ho.
  - revert Hkept. rewrite cancelOrder_run.
    destruct (OrderService.findOne orderId w) as [order|] eqn:Hfind; [|intros H; apply H, Ho].
    destruct (OrderService.cancellable (Order.orderStatus order)) eqn:Hcan;
      [|intros H; apply H, Ho].
    cbn [snd orders logged withOrders]. intros Hkept.
    destruct (Nat.eq_dec (Order._id o) (Order._id order)) as [Heq|Hne].
    + destruct (findOne_orderId _ _ _ Hfind) as (Hin & _).
      assert (o = order)
        by exact (NoDup_map_inj Order._id (orders w) o order
                    (order_oids_distinct _ Hw) Ho Hin Heq).
      subst o.
      exists (Order.setUpdatedAt now (Order.setStatus OrderStatus.CANCELLED order)).
      split; [apply (replaceOrder_In_doc order); [exact Hin|reflexivity]|].
      split; [repeat split|]. split; [right; reflexivity|].
      intros Hst. rewrite Hst in Hcan. discriminate Hcan.
    + apply Hkept. apply replaceOrder_other; [exact Ho|exact Hne].
  - apply Hkept. destruct (postPayments_frame env body w) as (Hsame & _).
    rewrite Hsame. exact Ho.
Qed.

(** X16.  Orders are never removed and never change identity.  For every
    order stored in a world of the flow and every continuation of the flow,
    the later world stores an order with the same [_id], [orderId],
    customer, product, amount, shipping address and creation time.  Its
    status is the same or [cancelled]; and an order that was cancelled is
    the very same document later: cancellation is final. *)
Theorem order_identity_is_permanent (requests more : list System.Request)
    (o : Order.t) :
  In o (orders (System.run requests emptyWorld)) ->
  exists o',
    In o' (orders (System.run (requests ++ more) emptyWorld)) /\
    sameIdentity o o' /\
    (Order.orderStatus o' = Order.orderStatus o \/
     Order.orderStatus o' = OrderStatus.CANCELLED) /\
    (Order.orderStatus o = OrderStatus.CANCELLED -> o' = o).
Proof.
  rewrite run_app. pose proof (flow_is_consistent requests) as Hw.
  generalize dependent (System.run requests emptyWorld). clear requests.
  revert o. induction more as [|r rest IH]; intros o w Hw Ho.
  { exists o. split; [exact Ho|]. split; [apply sameIdentity_refl|].
    split; [left; reflexivity|reflexivity]. }
  destruct (handle_keeps_orders r w o Hw Ho) as (o1 & Ho1 & Hid1 & Hst1 & Hfin1).
  destruct (IH o1 (System.handle r w) (handle_consistent r w Hw) Ho1)
    as (o2 & Ho2 & Hid2 & Hst2 & Hfin2).
  exists o2. split; [exact Ho2|]. split; [exact (sameIdentity_trans _ _ _ Hid1 Hid2)|].
  split.
  - destruct Hst2 as [Hst2|Hst2]; [|right; exact Hst2].
    rewrite Hst2. exact Hst1.
  - intros Hc. pose proof (Hfin1 Hc) as E. subst o1. apply Hfin2, Hc.
Qed.

Lemma order_identity_is_permanent_run :
  let first :=
    [System.SubmitOrder Sample.happy (Sample.order (Some (JS.Fin (50000 # 1))) None)] in
  let more := [System.CancelOrder 1700000005000 Fixture.orderId;
               System.Charge Sample.approving Fixture.charge] in
  exists o o',
    In o (orders (System.run first emptyWorld)) /\
    Order.orderStatus o = OrderStatus.CONFIRMED /\
    In o' (orders (System.run (first ++ more) emptyWorld)) /\
    sameIdentity o o'.
Proof.
  cbv zeta.
  assert (Hin : exists o,
            In o (orders (System.run
                            [System.SubmitOrder Sample.happy
                               (Sample.order (Some (JS.Fin (50000 # 1))) None)]
                            emptyWorld)) /\
            Order.orderStatus o = OrderStatus.CONFIRMED)
    by (vm_compute; eexists; split; [left; reflexivity|reflexivity]).
  destruct Hin as (o & Hin & Hst).
  destruct (order_identity_is_permanent _
              [System.CancelOrder 1700000005000 Fixture.orderId;
               System.Charge Sample.approving Fixture.charge] o Hin)
    as (o' & Hin' & Hsame & _).
  exists o, o'. repeat split; try assumption; apply Hsame.
Defined.

(* ================================================================== *)
(** * A cancellation is final in the flow *)
(* ================================================================== *)

Lemma find_unique_orderId (o : Order.t) (stored : list Order.t) :
  NoDup (map Order.orderId stored) ->
  In o stored ->
  find (fun x => Order.orderId x =? Order.orderId o) stored = Some o.
Proof.
  induction stored as [|x rest IH]; [intros _ []|].
  cbn [map find]. intros Hnd Hin. inversion Hnd as [|? ? Hnot Hrest]; subst.
  destruct Hin as [->|Hin]; [now rewrite String.eqb_refl|].
  destruct (Order.orderId x =? Order.orderId o) eqn:E; [|exact (IH Hrest Hin)].
  exfalso. apply Hnot. apply String.eqb_eq in E. rewrite E.
  apply in_map, Hin.
Qed.

Lemma cancelled_stays_found (r : System.Request) (w : World) (orderId : string)
    (o : Order.t) :
  Consistent w ->
  OrderService.findOne orderId w = Some o ->
  Order.orderStatus o = OrderStatus.CANCELLED ->
  OrderService.findOne orderId (System.handle r w) = Some o.
Proof.
  intros Hw Hfind Hst. destruct (findOne_orderId _ _ _ Hfind) as (Hin & <-).
  destruct (handle_keeps_orders r w o Hw Hin) as (o' & Hin' & _ & _ & Hsame).
  rewrite (Hsame Hst) in Hin'.
  apply find_unique_orderId; [|exact Hin'].
  apply order_ids_distinct, handle_consistent, Hw.
Qed.

Lemma cancelled_stays_found_run (more : list System.Request) (w : World)
    (orderId : string) (o : Order.t) :
  Consistent w ->
  OrderService.findOne orderId w = Some o ->
  Order.orderStatus o = OrderStatus.CANCELLED ->
  OrderService.findOne orderId (System.run more w) = Some o.
Proof.
  revert w. induction more as [|r rest IH]; intros w Hw Hfind Hst; [exact Hfind|].
  cbn. apply IH; [apply handle_consistent, Hw| |exact Hst].
  apply cancelled_stays_found; assumption.
Qed.

(** X3.  In the flow a cancellation is final.  Once [cancelOrder] has
    answered 200 for an [orderId] in a world of the flow, then after any
    further requests of the flow (orders submitted, also with this
    [orderId] chosen by the client; cancellations; charges) the order is
    found as the first cancellation left it, and a [cancelOrder] for it is
    answered 400 'Order cannot be cancelled at this stage' and changes
    nothing.  This is a property of the flow and not of the order service:
    [updateOrderStatus] makes the cancelled order [pending] or [confirmed]
    again, and [cancelOrder] then answers 200 once more. *)
Theorem cancelled_order_stays_cancelled_in_the_flow
    (requests more : list System.Request) (now later reopened : N) (orderId : string) :
  let w := System.run requests emptyWorld in
  http_status (fst (OrderService.cancelOrder now orderId w)) = 200 ->
  let w' := System.run more (snd (OrderService.cancelOrder now orderId w)) in
  (exists order,
     OrderService.findOne orderId w = Some order /\
     OrderService.findOne orderId w' =
       Some (Order.setUpdatedAt now (Order.setStatus OrderStatus.CANCELLED order))) /\
  OrderService.cancelOrder later orderId w' =
    ({| http_status := 400;
        http_body := createApiResponse false None
                       (Some "Order cannot be cancelled at this stage") None |}, w') /\
  (forall st, OrderService.cancellable st = true ->
     http_status
       (fst (OrderService.cancelOrder later orderId
               (snd (OrderService.updateOrderStatus reopened orderId (Some st) w'))))
     = 200).
Proof.
  cbv zeta. intros Hok.
  pose proof (flow_is_consistent requests) as Hw.
  pose proof (handle_consistent (System.CancelOrder now orderId) _ Hw) as Hw1.
  cbn [System.handle] in Hw1.
  revert Hok Hw1. rewrite cancelOrder_run.
  destruct (OrderService.findOne orderId (System.run requests emptyWorld))
    as [order|] eqn:Hfind; [|discriminate].
  destruct (OrderService.cancellable (Order.orderStatus order)); [|discriminate].
  cbv zeta. cbn [fst snd]. intros _ Hw1.
  pose proof (findOne_rewritten now OrderStatus.CANCELLED orderId _ order Hfind) as Hafter.
  cbv zeta in Hafter.
  pose proof (cancelled_stays_found_run more _ orderId _ Hw1 Hafter eq_refl) as Hlater.
  split; [exists order; split; [reflexivity|exact Hlater]|].
  split; [rewrite cancelOrder_run, Hlater; reflexivity|].
  intros st Hst. rewrite updateOrderStatus_run, Hlater.
  cbn [Order.orderStatus Order.setUpdatedAt Order.setStatus].
  destruct (OrderStatus.eqb st OrderStatus.CANCELLED) eqn:E;
    [destruct st; discriminate|].
  cbv zeta. cbn [snd]. rewrite cancelOrder_run.
  rewrite (findOne_rewritten reopened st orderId _ _ Hlater).
  cbn [Order.orderStatus Order.setUpdatedAt Order.setStatus]. rewrite Hst. reflexivity.
Qed.

Lemma cancelled_order_stays_cancelled_in_the_flow_run :
  let requests :=
    [System.SubmitOrder Sample.happy (Sample.order (Some (JS.Fin (50000 # 1))) None)] in
  let more :=
    [System.Charge Sample.approving Fixture.charge;
     System.SubmitOrder Sample.happy (Sample.order (Some (JS.Fin (50000 # 1))) None);
     System.CancelOrder 1700000005500 Fixture.orderId] in
  let w := System.run requests emptyWorld in
  let w' := System.run more (snd (OrderService.cancelOrder 1700000005000 Fixture.orderId w)) in
  http_status (fst (OrderService.cancelOrder 1700000005000 Fixture.orderId w)) = 200 /\
  OrderService.cancelOrder 1700000006000 Fixture.orderId w' =
    ({| http_status := 400;
        http_body := createApiResponse false None
                       (Some "Order cannot be cancelled at this stage") None |}, w') /\
  http_status
    (fst (OrderService.cancelOrder 1700000006000 Fixture.orderId
            (snd (OrderService.updateOrderStatus 1700000005800 Fixture.orderId
                    (Some OrderStatus.PENDING) w')))) = 200.
Proof.
  cbv zeta. split; [vm_compute; reflexivity|].
  destruct (cancelled_order_stays_cancelled_in_the_flow
              [System.SubmitOrder Sample.happy
                 (Sample.order (Some (JS.Fin (50000 # 1))) None)]
              [System.Charge Sample.approving Fixture.charge;
               System.SubmitOrder Sample.happy
                 (Sample.order (Some (JS.Fin (50000 # 1))) None);
               System.CancelOrder 1700000005500 Fixture.orderId]
              1700000005000 1700000006000 1700000005800 Fixture.orderId)
    as (_ & Hagain & Hreopen); [vm_compute; reflexivity|].
  split; [exact Hagain|]. apply Hreopen. reflexivity.
Defined.

(* ================================================================== *)
(** * Reading back a charge *)
(* ================================================================== *)

Lemma find_snoc {A : Type} (f : A -> bool) (x : A) (l : list A) :
  find f (snoc x l) =
  match find f l with
  | Some y => Some y
  | None => if f x then Some x else None
  end.
Proof.
  unfold snoc. induction l as [|a l IH]; cbn; [reflexivity|].
  destruct (f a); [reflexivity|exact IH].
Qed.

Lemma getPaymentById_run (paymentId : string) (w : World) :
  PaymentController.getPaymentById paymentId w =
  match PaymentController.findByPaymentId paymentId w with
  | None =>
      ({| http_status := 404;
          http_body := createApiResponse false None (Some "Payment not found") None |}, w)
  | Some payment =>
      ({| http_status := 200;
          http_body := createApiResponse true (Some payment)
                         (Some "Payment retrieved successfully") None |}, w)
  end.
Proof.
  unfold PaymentController.getPaymentById, tryCatch, bind, get. cbv beta iota.
  destruct (PaymentController.findByPaymentId paymentId w); reflexivity.
Qed.


Lemma refusal_has_no_data (body : PaymentRequest.t)
    (reply : HttpResponse PaymentService.PaymentResponse) :
  PaymentService.validateCreatePayment body = Some reply ->
  api_data (http_body reply) = None /\ http_status reply = 400.
Proof.
  unfold PaymentService.validateCreatePayment.
  destruct (PaymentService.createPaymentSchema body); [discriminate|].
  intros [= <-]. split; reflexivity.
Qed.

(** X17.  Whenever the payment route answers a charge with data (it does
    so only with 201), [getPaymentById] for the [paymentId] of the answer,
    asked in the world the charge left, answers 200 with the stored
    Payment: it is completed, holds the [transactionId] of the answer, and
    carries the customer, order, product and amount of the request.  A
    declined or failed charge is answered without data. *)
Theorem charge_can_be_read_back
    (requests : list System.Request)
    (env : PaymentService.Env) (body : PaymentRequest.t)
    (answer : PaymentService.PaymentResponse) :
  let w := System.run requests emptyWorld in
  let reply := fst (PaymentService.postPayments env body w) in
  let w' := snd (PaymentService.postPayments env body w) in
  api_data (http_body reply) = Some answer ->
  http_status reply = 201 /\
  exists payment,
    PaymentController.getPaymentById (PaymentService.pr_paymentId answer) w' =
      ({| http_status := 200;
          http_body := createApiResponse true (Some payment)
                         (Some "Payment retrieved successfully") None |}, w') /\
    Payment.status payment = PaymentStatus.COMPLETED /\
    Payment.transactionId payment = PaymentService.pr_transactionId answer /\
    PaymentRequest.customerId body = Some (Payment.customerId payment) /\
    PaymentRequest.orderId body = Some (Payment.orderId payment) /\
    PaymentRequest.productId body = Some (Payment.productId payment) /\
    PaymentRequest.amount body = Some (Payment.amount payment).
Proof.
  cbv zeta. intros Hdata.
  destruct (postPayments_outcome env body (System.run requests emptyWorld)
              (payments_fresh _ (flow_is_consistent requests)))
    as [(_ & [Hrefused|(_ & Hreply)])|(p & w1 & Hjoi & Hins & Hnext & Hcases)];
    cbv zeta in *.
  { destruct (refusal_has_no_data _ _ Hrefused) as (Hnone & _).
    rewrite Hnone in Hdata. discriminate Hdata. }
  { rewrite Hreply in Hdata. discriminate Hdata. }
  destruct Hcases as [(_ & _ & Hreply & _)|[(Hpay & _ & Hreply & _)|(_ & _ & Hreply & _)]];
    rewrite Hreply in Hdata |- *; try discriminate Hdata.
  injection Hdata as <-. split; [reflexivity|].
  pose proof (insertPayment_fresh _ _ _ _ _ Hins) as Hpid.
  destruct (insertPayment_inv _ _ _ _ _ Hins)
    as [(e' & [=] & _)|(p' & [= <-] & _ & _ & _ & _ & Hbc & Hbo & Hbp & Hba & _)].
  exists (completedBy env p). split.
  - rewrite getPaymentById_run. unfold PaymentController.findByPaymentId.
    rewrite Hpay, find_snoc.
    cbn [PaymentService.pr_paymentId].
    destruct (find _ (payments (System.run requests emptyWorld))) as [y|] eqn:Hfind.
    + apply find_some in Hfind. destruct Hfind as (Hy & Hyid).
      assert (Hex : existsb (fun q => Payment.paymentId q =? Payment.paymentId p)
                      (payments (System.run requests emptyWorld)) = true)
        by (apply existsb_exists; exists y; split; assumption).
      rewrite Hex in Hpid. discriminate Hpid.
    + cbn. rewrite String.eqb_refl. reflexivity.
  - repeat split; assumption.
Qed.

Lemma charge_can_be_read_back_run :
  exists answer,
    api_data (http_body (fst (PaymentService.postPayments Sample.approving Fixture.charge
                                (System.run [] emptyWorld)))) = Some answer /\
    exists payment,
      PaymentController.getPaymentById (PaymentService.pr_paymentId answer)
        (snd (PaymentService.postPayments Sample.approving Fixture.charge
                (System.run [] emptyWorld))) =
        ({| http_status := 200;
            http_body := createApiResponse true (Some payment)
                           (Some "Payment retrieved successfully") None |},
         snd (PaymentService.postPayments Sample.approving Fixture.charge
                (System.run [] emptyWorld))) /\
      Payment.status payment = PaymentStatus.COMPLETED.
Proof.
  eexists. split; [vm_compute; reflexivity|].
  destruct (charge_can_be_read_back [] Sample.approving Fixture.charge _ eq_refl)
    as (_ & payment & Hget & Hst & _).
  exists payment. split; [exact Hget|exact Hst].
Defined.

(* ================================================================== *)
(** * The payment status of a created order *)
(* ================================================================== *)

Lemma jsonNumber_some (a b : JS.number) : JS.jsonNumber a = Some b -> a = b.
Proof. destruct a; cbn; intros [= <-]; reflexivity. Qed.




(* ================================================================== *)
(** * The limits on an amount *)
(* ================================================================== *)

(** X19.  [validateAmount] of the utilities agrees with the checks made on
    the path of a charge.  For every run of the payment simulator on a
    Payment: if [validateAmount] accepts the amount (greater than 0, at most
    100000000), the amount passes the amount check of the order intake and
    the simulator does not give 'Transaction amount exceeds limit' as the
    reason of a decline; if [validateAmount] refuses the amount, then the
    intake refuses it as well, or the simulator approves, or it declines
    with that reason. *)
Theorem validateAmount_agrees_with_the_charge_path
    (env : PaymentService.Env) (payment : Payment.t) (w w' : World)
    (outcome : PaymentService.ProcessingResult) :
  PaymentService.simulatePaymentProcessing env payment w = (Ok outcome, w') ->
  (Utils.validateAmount (Payment.amount payment) = true ->
     JS.leb (Payment.amount payment) (JS.Fin 0) = false /\
     PaymentService.res_error outcome <> Some "Transaction amount exceeds limit") /\
  (Utils.validateAmount (Payment.amount payment) = false ->
     JS.gtb (Payment.amount payment) (JS.Fin 0) = false \/
     PaymentService.res_success outcome = true \/
     PaymentService.res_error outcome = Some "Transaction amount exceeds limit").
Proof.
  unfold PaymentService.simulatePaymentProcessing, bind, emit, modify, ret.
  cbv beta iota zeta.
  destruct (JS.gtb (JS.Fin (PaymentService.outcomeDraw env)) (JS.Fin (5 # 100)));
    intros [= <- _]; cbn [PaymentService.res_error PaymentService.res_success].
  { unfold Utils.validateAmount, JS.gtb, JS.ltb, JS.leb.
    destruct (Payment.amount payment) as [| | |q]; cbn;
      (split; [try discriminate|intros _; right; left; reflexivity]).
    destruct (Qle_bool q 0); cbn; [discriminate|].
    intros _. split; [reflexivity|discriminate]. }
  unfold Utils.validateAmount, JS.gtb, JS.ltb, JS.leb.
  destruct (Payment.amount payment) as [| | |q]; cbn.
  - split; [discriminate|]. intros _. left; reflexivity.
  - split; [discriminate|]. intros _. right; right; reflexivity.
  - split; [discriminate|]. intros _. left; reflexivity.
  - destruct (Qle_bool q 0) eqn:E0; cbn.
    + split; [discriminate|]. intros _. left; reflexivity.
    + destruct (Qle_bool q (100000000 # 1)) eqn:E1; cbn.
      * split; [|discriminate]. intros _. split; [reflexivity|].
        destruct (Qle_bool 1 q); cbn; [|discriminate].
        destruct (Qle_bool (PaymentService.reasonDraw env) (1 # 2)); discriminate.
      * split; [discriminate|]. intros _. right; right; reflexivity.
Qed.

Lemma validateAmount_agrees_with_the_charge_path_run :
  let payment :=
    {| Payment._id := 0;
       Payment.paymentId := "PAY_1700000000100_abcdefghi";
       Payment.customerId := "CUST_1";
       Payment.orderId := "ORD_1";
       Payment.productId := "PROD_1";
       Payment.amount := JS.Fin (100000000 # 1);
       Payment.status := PaymentStatus.PENDING;
       Payment.paymentMethod := "bank_transfer";
       Payment.transactionId := None;
       Payment.createdAt := 1700000000101;
       Payment.updatedAt := 1700000000101 |} in
  exists outcome w',
    PaymentService.simulatePaymentProcessing Sample.declining payment emptyWorld
      = (Ok outcome, w') /\
    Utils.validateAmount (Payment.amount payment) = true /\
    PaymentService.res_error outcome = Some "Card declined by issuer" /\
    PaymentService.res_error outcome <> Some "Transaction amount exceeds limit".
Proof.
  intros payment.
  assert (Hrun : exists outcome w',
            PaymentService.simulatePaymentProcessing Sample.declining payment emptyWorld
              = (Ok outcome, w') /\
            PaymentService.res_error outcome = Some "Card declined by issuer")
    by (eexists _, _; split; [cbv; reflexivity|reflexivity]).
  destruct Hrun as (outcome & w' & Hrun & Herr).
  exists outcome, w'. split; [exact Hrun|]. split; [reflexivity|]. split; [exact Herr|].
  exact (proj2 (proj1 (validateAmount_agrees_with_the_charge_path
                         Sample.declining payment emptyWorld w' outcome Hrun) eq_refl)).
Defined.

(* ================================================================== *)
(** * What the consumer accepts *)
(* ================================================================== *)

Lemma nonEmpty_inv (v : JS.value) :
  TransactionWorker.isString v = true ->
  TransactionWorker.nonEmpty v = true ->
  exists s, v = JS.Str s /\ s <> "".
Proof.
  destruct v as [| |b|n|s|]; try discriminate. intros _ H. exists s.
  split; [reflexivity|]. intros ->. discriminate H.
Qed.

Lemma validateTransactionMessage_true (data : TransactionWorker.RawData) :
  TransactionWorker.validateTransactionMessage data = true <-> wellFormedMessage data.
Proof.
  unfold TransactionWorker.validateTransactionMessage, wellFormedMessage. split.
  - intros H.
    assert (Hall :
      TransactionWorker.isString (TransactionWorker.transactionId data) &&
      TransactionWorker.isString (TransactionWorker.customerId data) &&
      TransactionWorker.isString (TransactionWorker.orderId data) &&
      TransactionWorker.isString (TransactionWorker.productId data) &&
      TransactionWorker.isNumber (TransactionWorker.amount data) &&
      TransactionWorker.nonNegative (TransactionWorker.amount data) &&
      TransactionWorker.nonEmpty (TransactionWorker.transactionId data) &&
      TransactionWorker.nonEmpty (TransactionWorker.customerId data) &&
      TransactionWorker.nonEmpty (TransactionWorker.orderId data) &&
      TransactionWorker.nonEmpty (TransactionWorker.productId data) = true).
    { destruct (TransactionWorker.productId data) as [| |?|?|[|c r]|];
        first [exact H|discriminate H]. }
    clear H.
    repeat (apply andb_prop in Hall; let H := fresh "H" in destruct Hall as (Hall & H)).
    destruct (nonEmpty_inv _ Hall H2) as (tx & Htx & Htxne).
    destruct (nonEmpty_inv _ H7 H1) as (c & Hc & Hcne).
    destruct (nonEmpty_inv _ H6 H0) as (o & Ho & Hone).
    destruct (nonEmpty_inv _ H5 H) as (p & Hp & Hpne).
    destruct (TransactionWorker.amount data) as [| |?|n|?|] eqn:Ha; try discriminate.
    exists tx, c, o, p, n. repeat split; assumption.
  - intros (tx & c & o & p & n & -> & Htx & -> & Hc & -> & Ho & -> & Hp & -> & Hn).
    destruct tx; [contradiction|]. destruct c; [contradiction|].
    destruct o; [contradiction|]. destruct p; [contradiction|].
    cbn in Hn |- *. rewrite Hn. reflexivity.
Qed.

(** X20.  [validateTransactionMessage] accepts parsed data exactly when
    [transactionId], [customerId], [orderId] and [productId] are non-empty
    strings and [amount] is a number that is at least 0 ([NaN] is not); the
    timestamp is not looked at.  Parsed data it refuses is acknowledged
    and dropped: the delivery is acked, never nacked or requeued, and no
    audit record is written. *)
Theorem malformed_message_is_acked_and_dropped
    (now : N) (tag : nat) (data : TransactionWorker.RawData)
    (s : TransactionWorker.Store) :
  (TransactionWorker.validateTransactionMessage data = true <-> wellFormedMessage data) /\
  (~ wellFormedMessage data ->
   TransactionWorker.processMessage now
     {| TransactionWorker.deliveryTag := tag;
        TransactionWorker.content := TransactionWorker.Parsed data |} s =
     (tt, acknowledged tag s)).
Proof.
  split; [apply validateTransactionMessage_true|].
  intros Hnot. rewrite processMessage_eq.
  cbn [TransactionWorker.content TransactionWorker.deliveryTag].
  destruct (TransactionWorker.validateTransactionMessage data) eqn:Hv; [|reflexivity].
  exfalso. apply Hnot, validateTransactionMessage_true, Hv.
Qed.

(* ================================================================== *)
(** * How deliveries are settled *)
(* ================================================================== *)

Lemma insertHistory_fresh (now : N) (data : TransactionWorker.RawData)
    (s : TransactionWorker.Store) (tx : string) :
  TransactionWorker.validateTransactionMessage data = true ->
  TransactionWorker.transactionId data = JS.Str tx ->
  existsb (fun h => TransactionHistory.transactionId h =? tx)
    (TransactionWorker.history s) = false ->
  exists doc,
    TransactionWorker.insertHistory now data s =
      (Ok doc,
       {| TransactionWorker.history := snoc doc (TransactionWorker.history s);
          TransactionWorker.nextOid := S (TransactionWorker.nextOid s);
          TransactionWorker.settled := TransactionWorker.settled s |}) /\
    TransactionHistory.transactionId doc = tx /\
    TransactionHistory.customerId doc =
      TransactionWorker.stringOf (TransactionWorker.customerId data) /\
    TransactionHistory.orderId doc =
      TransactionWorker.stringOf (TransactionWorker.orderId data) /\
    TransactionHistory.productId doc =
      TransactionWorker.stringOf (TransactionWorker.productId data) /\
    Some (TransactionHistory.amount doc) =
      TransactionWorker.numberOf (TransactionWorker.amount data) /\
    TransactionHistory.status doc = "completed".
Proof.
  intros Hv Htx Hfresh.
  destruct (valid_message_fits_schema data Hv) as (tx' & Htx' & Hpaths).
  apply validateTransactionMessage_true in Hv.
  destruct Hv as (t & c & o & p & n & _ & _ & _ & _ & _ & _ & _ & _ & Ha & _).
  unfold TransactionWorker.insertHistory. rewrite Hpaths.
  unfold bind, get, modify, ret, throw. cbv beta iota zeta.
  cbn [TransactionHistory.transactionId]. rewrite Htx.
  cbn [TransactionWorker.stringOf]. rewrite Hfresh.
  eexists. split; [reflexivity|]. cbn. rewrite Ha. repeat split.
Qed.

Lemma processMessage_settles (now : N) (msg : TransactionWorker.Message)
    (s : TransactionWorker.Store) :
  let s' := snd (TransactionWorker.processMessage now msg s) in
  TransactionWorker.settled s' = snoc (settlementOf msg) (TransactionWorker.settled s) /\
  (TransactionWorker.history s' = TransactionWorker.history s \/
   exists doc,
     TransactionWorker.history s' = snoc doc (TransactionWorker.history s) /\
     TransactionHistory.status doc = "completed" /\
     settlementOf msg = TransactionWorker.Ack (TransactionWorker.deliveryTag msg)).
Proof.
  cbv zeta. rewrite processMessage_eq. unfold settlementOf. cbv zeta.
  destruct (TransactionWorker.content msg) as [e|data].
  { destruct (JS.includes _ e); cbn; split; auto. }
  destruct (TransactionWorker.validateTransactionMessage data) eqn:Hv;
    [|cbn; split; auto].
  destruct (valid_message_fits_schema data Hv) as (tx & Htx & _).
  rewrite Htx.
  destruct (existsb _ _) eqn:Hex; [cbn; split; auto|].
  destruct (insertHistory_fresh now data s tx Hv Htx Hex) as (doc & Hins & _ & _ & _ & _ & _ & Hst).
  rewrite Hins. cbn. split; [reflexivity|]. right. exists doc. repeat split. exact Hst.
Qed.

(* ================================================================== *)
(** * From the queue to the audit collection *)
(* ================================================================== *)

Lemma delivered_mirrors (iso : N -> string) (m : TransactionMessage.t)
    (doc : TransactionHistory.t) :
  TransactionWorker.validateTransactionMessage (Wire.delivered iso m) = true ->
  TransactionHistory.transactionId doc = TransactionMessage.transactionId m ->
  TransactionHistory.customerId doc =
    TransactionWorker.stringOf (TransactionWorker.customerId (Wire.delivered iso m)) ->
  TransactionHistory.orderId doc =
    TransactionWorker.stringOf (TransactionWorker.orderId (Wire.delivered iso m)) ->
  TransactionHistory.productId doc =
    TransactionWorker.stringOf (TransactionWorker.productId (Wire.delivered iso m)) ->
  Some (TransactionHistory.amount doc) =
    TransactionWorker.numberOf (TransactionWorker.amount (Wire.delivered iso m)) ->
  TransactionHistory.status doc = "completed" ->
  mirrors doc m.
Proof.
  intros Hv Htx Hc Ho Hp Ha Hst.
  apply validateTransactionMessage_true in Hv.
  destruct Hv as (t & c & o & p & n & _ & _ & _ & _ & _ & _ & Hvp & _ & Hva & _).
  unfold Wire.delivered in *.
  cbn [TransactionWorker.customerId TransactionWorker.orderId TransactionWorker.productId
       TransactionWorker.amount TransactionWorker.stringOf] in *.
  unfold mirrors. split; [exact Htx|]. split; [exact Hc|]. split; [exact Ho|].
  destruct (TransactionMessage.productId m) as [x|]; [|discriminate Hvp].
  cbn in Hp. split; [rewrite Hp; reflexivity|].
  destruct (JS.jsonNumber (TransactionMessage.amount m)) as [y|] eqn:Hj; [|discriminate Hva].
  apply jsonNumber_some in Hj. cbn in Ha. injection Ha as Ha.
  split; [rewrite Ha; symmetry; exact Hj|exact Hst].
Qed.

Lemma existsb_snoc {A : Type} (f : A -> bool) (x : A) (l : list A) :
  existsb f (snoc x l) = existsb f l || f x.
Proof. unfold snoc. rewrite existsb_app. cbn. rewrite orb_false_r. reflexivity. Qed.

Lemma consume_queue (iso : N -> string)
    (slots : list (N * nat * TransactionMessage.t)) (s : TransactionWorker.Store) :
  (forall d, In d slots ->
     TransactionWorker.validateTransactionMessage (Wire.delivered iso (snd d)) = true) ->
  NoDup (map (fun d => TransactionMessage.transactionId (snd d)) slots) ->
  (forall d, In d slots ->
     existsb (fun h => TransactionHistory.transactionId h
                         =? TransactionMessage.transactionId (snd d))
       (TransactionWorker.history s) = false) ->
  let s' := TransactionWorker.consume (Wire.deliveries iso slots) s in
  exists added,
    TransactionWorker.history s' = (TransactionWorker.history s ++ added)%list /\
    Forall2 mirrors added (map snd slots) /\
    TransactionWorker.settled s' =
      (TransactionWorker.settled s ++
       map (fun d => TransactionWorker.Ack (snd (fst d))) slots)%list.
Proof.
  cbv zeta. revert s. induction slots as [|d rest IH]; intros s Hvalid Hdistinct Hfresh.
  { exists []. cbn. rewrite !app_nil_r. repeat split. constructor. }
  unfold TransactionWorker.consume, Wire.deliveries in *. cbn [map fold_left fst snd].
  assert (Hv : TransactionWorker.validateTransactionMessage (Wire.delivered iso (snd d)) = true)
    by (apply Hvalid; now left).
  assert (Hf : existsb (fun h => TransactionHistory.transactionId h
                                   =? TransactionMessage.transactionId (snd d))
                 (TransactionWorker.history s) = false)
    by (apply Hfresh; now left).
  destruct (insertHistory_fresh (fst (fst d)) (Wire.delivered iso (snd d)) s
              (TransactionMessage.transactionId (snd d)) Hv eq_refl Hf)
    as (doc & Hins & Htx & Hc & Ho & Hp & Ha & Hst).
  rewrite processMessage_eq.
  cbn [TransactionWorker.content TransactionWorker.deliveryTag Wire.delivery].
  rewrite Hv. cbn [Wire.delivered TransactionWorker.transactionId]. rewrite Hf.
  change {| TransactionWorker.transactionId := JS.Str (TransactionMessage.transactionId (snd d)) |}
    with (Wire.delivered iso (snd d)).
  rewrite Hins. cbn [snd].
  inversion Hdistinct as [|tx txs Hnotin Hrest]; subst.
  destruct (IH (acknowledged (snd (fst d))
                  {| TransactionWorker.history := snoc doc (TransactionWorker.history s);
                     TransactionWorker.nextOid := S (TransactionWorker.nextOid s);
                     TransactionWorker.settled := TransactionWorker.settled s |}))
    as (added & Hh & Hm & Hs).
  - intros x Hx. apply Hvalid. now right.
  - exact Hrest.
  - intros x Hx. cbn [TransactionWorker.history acknowledged].
    rewrite existsb_snoc, (Hfresh x (or_intror Hx)). cbn [orb].
    rewrite Htx. apply String.eqb_neq. intros Heq. apply Hnotin.
    apply in_map_iff. exists x. split; [symmetry; exact Heq|exact Hx].
  - exists (doc :: added). cbn [TransactionWorker.history TransactionWorker.settled
                                acknowledged] in Hh, Hs.
    rewrite Hh, Hs. unfold snoc. rewrite <- !app_assoc. cbn [app map].
    split; [reflexivity|]. split; [|reflexivity].
    constructor; [|exact Hm].
    apply (delivered_mirrors iso); assumption.
Qed.

(** X22.  From the payment service to the audit collection.  Take any
    world of the flow and deliver the messages on its queue, in order, to a
    consumer that starts with an empty collection, each at some time and
    under some delivery tag.  Every delivery passes the validation of the
    consumer and is acked, and the audit collection ends with exactly one
    record per queued message, in queue order, each with the
    [transactionId], customer, order, product and amount of its message
    and status 'completed'. *)
Theorem queue_is_recorded_one_to_one
    (requests : list System.Request) (iso : N -> string)
    (slots : list (N * nat * TransactionMessage.t)) :
  map snd slots = queue (System.run requests emptyWorld) ->
  let s := TransactionWorker.consume (Wire.deliveries iso slots)
             TransactionWorker.emptyStore in
  Forall2 mirrors (TransactionWorker.history s) (queue (System.run requests emptyWorld)) /\
  TransactionWorker.settled s = map (fun d => TransactionWorker.Ack (snd (fst d))) slots.
Proof.
  intros Hslots. cbv zeta.
  destruct (flow_ledger requests) as [F1 F2 F3 F4 F5 F6 F7 F8].
  destruct (consume_queue iso slots TransactionWorker.emptyStore)
    as (added & Hh & Hm & Hs).
  - intros d Hd. apply F8. rewrite <- Hslots. apply in_map, Hd.
  - rewrite <- Hslots, map_map in F7. exact F7.
  - intros d Hd. reflexivity.
  - cbn in Hh, Hs. rewrite Hh, Hs, <- Hslots. split; [exact Hm|reflexivity].
Qed.

Lemma queue_is_recorded_one_to_one_run :
  let requests :=
    [System.SubmitOrder Sample.happy (Sample.order (Some (JS.Fin (50000 # 1))) None)] in
  exists m,
    queue (System.run requests emptyWorld) = [m] /\
    let slots := [(1700000003000%N, 1, m)] in
    map snd slots = queue (System.run requests emptyWorld) /\
    let s := TransactionWorker.consume (Wire.deliveries Fixture.iso slots)
               TransactionWorker.emptyStore in
    Forall2 mirrors (TransactionWorker.history s) [m] /\
    TransactionWorker.settled s = [TransactionWorker.Ack 1].
Proof.
  cbv zeta. eexists. split; [vm_compute; reflexivity|].
  split; [vm_compute; reflexivity|].
  match goal with
  | |- Forall2 mirrors (TransactionWorker.history
                          (TransactionWorker.consume (Wire.deliveries _ ?slots) _)) ?q /\ _ =>
      assert (Hq : map snd slots =
                   queue (System.run
                            [System.SubmitOrder Sample.happy
                               (Sample.order (Some (JS.Fin (50000 # 1))) None)]
                            emptyWorld)) by (vm_compute; reflexivity);
      destruct (queue_is_recorded_one_to_one _ Fixture.iso slots Hq) as (Hm & Hs)
  end.
  split; [|exact Hs].
  vm_compute queue in Hm. exact Hm.
Defined.

(* ================================================================== *)
(** * [sanitizeString] *)
(* ================================================================== *)

Lemma removeAngles_clean (s : string) (c : ascii) :
  In c (list_ascii_of_string (Utils.removeAngles s)) ->
  c <> "<"%char /\ c <> ">"%char /\ In c (list_ascii_of_string s).
Proof.
  induction s as [|a r IH]; cbn; [intros []|].
  destruct ((a =? "<")%char || (a =? ">")%char) eqn:E.
  - intros Hin. destruct (IH Hin) as (H1 & H2 & H3). auto.
  - apply orb_false_elim in E. destruct E as (E1 & E2).
    apply Ascii.eqb_neq in E1. apply Ascii.eqb_neq in E2.
    cbn. intros [<-|Hin]; [auto|].
    destruct (IH Hin) as (H1 & H2 & H3). auto.
Qed.

Lemma removeAngles_length (s : string) :
  String.length (Utils.removeAngles s) <= String.length s.
Proof.
  induction s as [|a r IH]; cbn; [lia|].
  destruct ((a =? "<")%char || (a =? ">")%char); cbn; lia.
Qed.

Lemma removeAngles_id (s : string) :
  (forall c, In c (list_ascii_of_string s) -> c <> "<"%char /\ c <> ">"%char) ->
  Utils.removeAngles s = s.
Proof.
  induction s as [|a r IH]; cbn; [reflexivity|]. intros H.
  destruct (H a (or_introl eq_refl)) as (H1 & H2).
  apply Ascii.eqb_neq in H1. apply Ascii.eqb_neq in H2. rewrite H1, H2. cbn.
  rewrite IH; [reflexivity|]. intros c Hc. apply H. now right.
Qed.

Lemma length_list_ascii (s : string) :
  List.length (list_ascii_of_string s) = String.length s.
Proof. induction s as [|a r IH]; cbn; [reflexivity|]. now rewrite IH. Qed.

Lemma length_of_list_ascii (l : list ascii) :
  String.length (string_of_list_ascii l) = List.length l.
Proof. induction l as [|a r IH]; cbn; [reflexivity|]. now rewrite IH. Qed.

Lemma reverse_length (s : string) : String.length (JS.reverse s) = String.length s.
Proof.
  unfold JS.reverse. rewrite length_of_list_ascii, length_rev. apply length_list_ascii.
Qed.

Lemma trimStart_length (s : string) : String.length (JS.trimStart s) <= String.length s.
Proof.
  induction s as [|a r IH]; cbn; [lia|]. destruct (JS.isWhiteSpace a); cbn; lia.
Qed.

Lemma trimStart_In (s : string) (c : ascii) :
  In c (list_ascii_of_string (JS.trimStart s)) -> In c (list_ascii_of_string s).
Proof.
  induction s as [|a r IH]; cbn; [auto|].
  destruct (JS.isWhiteSpace a); cbn; auto.
Qed.

Lemma reverse_In (s : string) (c : ascii) :
  In c (list_ascii_of_string (JS.reverse s)) <-> In c (list_ascii_of_string s).
Proof.
  unfold JS.reverse. rewrite list_ascii_of_string_of_list_ascii. symmetry. apply in_rev.
Qed.

Lemma trim_length (s : string) : String.length (JS.trim s) <= String.length s.
Proof.
  unfold JS.trim, JS.trimEnd. rewrite reverse_length.
  etransitivity; [apply trimStart_length|]. rewrite reverse_length.
  apply trimStart_length.
Qed.

Lemma trim_In (s : string) (c : ascii) :
  In c (list_ascii_of_string (JS.trim s)) -> In c (list_ascii_of_string s).
Proof.
  unfold JS.trim, JS.trimEnd. intros H.
  apply reverse_In, trimStart_In, reverse_In, trimStart_In in H. exact H.
Qed.

(** X23.  [sanitizeString] returns a string without ['<'] and ['>'], made
    of characters of its input and no longer than it; on an input without
    angle brackets it is [trim].  (The brackets are removed after the
    trim, so the result can begin or end with white space: [" a"] for
    ["< a"].) *)
Theorem sanitized_string_has_no_angle_brackets (input : string) :
  (forall c, In c (list_ascii_of_string (Utils.sanitizeString input)) ->
     c <> "<"%char /\ c <> ">"%char /\ In c (list_ascii_of_string input)) /\
  String.length (Utils.sanitizeString input) <= String.length input /\
  ((forall c, In c (list_ascii_of_string input) -> c <> "<"%char /\ c <> ">"%char) ->
   Utils.sanitizeString input = JS.trim input) /\
  Utils.sanitizeString "< a" = " a".
Proof.
  unfold Utils.sanitizeString. split; [|split; [|split]].
  - intros c Hc. destruct (removeAngles_clean _ _ Hc) as (H1 & H2 & H3).
    split; [exact H1|]. split; [exact H2|]. apply trim_In, H3.
  - etransitivity; [apply removeAngles_length|apply trim_length].
  - intros H. apply removeAngles_id. intros c Hc. apply H, trim_In, Hc.
  - reflexivity.
Qed.

(* ================================================================== *)
(** * The life cycle of the consumer *)
(* ================================================================== *)

Ltac lifecycle H1 H2 :=
  cbv in H1, H2 |- *;
  first [exfalso; discriminate (H1 eq_refl)
        |exfalso; discriminate (H2 eq_refl)
        |split; intros; first [reflexivity|discriminate|assumption]].

Lemma apply_wellFormed (op : RabbitMQConsumer.Operation) (s : RabbitMQConsumer.t) :
  wellFormed s -> wellFormed (RabbitMQConsumer.apply op s).
Proof.
  destruct s as [connection channel consuming calls].
  intros (H1 & H2).
  destruct op as [b|b|b|b|]; try destruct b as [c1 c2 c3 c4 c5 c6 c7 c8].
  - destruct c1, c2, c3, c4, connection, channel, consuming; lifecycle H1 H2.
  - destruct c5, connection, channel, consuming; lifecycle H1 H2.
  - destruct c6, connection, channel, consuming; lifecycle H1 H2.
  - destruct c6, c7, c8, connection, channel, consuming; lifecycle H1 H2.
  - destruct connection, channel, consuming; lifecycle H1 H2.
Qed.

Lemma run_wellFormed (ops : list RabbitMQConsumer.Operation) (s : RabbitMQConsumer.t) :
  wellFormed s -> wellFormed (RabbitMQConsumer.run ops s).
Proof.
  revert s. induction ops as [|op rest IH]; intros s Hs; [exact Hs|].
  cbn. apply IH, apply_wellFormed, Hs.
Qed.

Lemma initial_wellFormed : wellFormed RabbitMQConsumer.initial.
Proof. split; discriminate. Qed.

(** X24.  Whatever is done to the consumer object ([connect],
    [startConsuming], [stopConsuming], [close], the ['error'] and ['close']
    events of the connection, in any order, any number of times) and
    whichever calls to the broker fail along the way, [isConsuming] is set
    only while the channel is set and the channel is set only while the
    connection is set.  So [isConnected()] equals [isConsuming]. *)
Theorem consumer_is_connected_iff_consuming (ops : list RabbitMQConsumer.Operation) :
  let s := RabbitMQConsumer.run ops RabbitMQConsumer.initial in
  (RabbitMQConsumer.isConsuming s = true -> RabbitMQConsumer.channel s = true) /\
  (RabbitMQConsumer.channel s = true -> RabbitMQConsumer.connection s = true) /\
  RabbitMQConsumer.isConnected s = RabbitMQConsumer.isConsuming s.
Proof.
  cbv zeta. destruct (run_wellFormed ops _ initial_wellFormed) as (H1 & H2).
  split; [exact H1|]. split; [exact H2|].
  unfold RabbitMQConsumer.isConnected.
  destruct (RabbitMQConsumer.isConsuming _); [|apply andb_false_r].
  rewrite (H2 (H1 eq_refl)), (H1 eq_refl). reflexivity.
Qed.

(** X25.  [startWorker] either exits with code 1 or leaves the consumer
    connected.  Started on a fresh consumer, it makes no call to the broker
    when the database does not connect; otherwise it calls, in this order,
    the connect, the creation of the channel, the assertion of the queue,
    [prefetch(1)] and [consume], up to and including the first call that
    throws, and none after it.  It returns without exiting exactly when the
    database connects and the five calls return, and the consumer is then
    connected, with the prefetch limit set before the one [consume].  In
    every other case the process exits with code 1 and the consumer is not
    connected (it is not marked as consuming), while the connection and the
    channel obtained before the failing call are kept in the object. *)
Theorem worker_starts_connected_or_exits
    (databaseConnects : bool) (b : RabbitMQConsumer.Broker) :
  let outcome := RabbitMQConsumer.startWorker databaseConnects b RabbitMQConsumer.initial in
  let s := snd outcome in
  RabbitMQConsumer.calls s =
    (if negb databaseConnects then []
     else if negb (RabbitMQConsumer.connects b) then
       [RabbitMQConsumer.AmqpConnect]
     else if negb (RabbitMQConsumer.createsChannel b) then
       [RabbitMQConsumer.AmqpConnect; RabbitMQConsumer.CreateChannel]
     else if negb (RabbitMQConsumer.assertsQueue b) then
       [RabbitMQConsumer.AmqpConnect; RabbitMQConsumer.CreateChannel;
        RabbitMQConsumer.AssertQueue]
     else if negb (RabbitMQConsumer.prefetches b) then
       [RabbitMQConsumer.AmqpConnect; RabbitMQConsumer.CreateChannel;
        RabbitMQConsumer.AssertQueue; RabbitMQConsumer.Prefetch 1]
     else
       [RabbitMQConsumer.AmqpConnect; RabbitMQConsumer.CreateChannel;
        RabbitMQConsumer.AssertQueue; RabbitMQConsumer.Prefetch 1;
        RabbitMQConsumer.Consume]) /\
  RabbitMQConsumer.connection s = databaseConnects && RabbitMQConsumer.connects b /\
  RabbitMQConsumer.channel s =
    databaseConnects && RabbitMQConsumer.connects b && RabbitMQConsumer.createsChannel b /\
  if databaseConnects && RabbitMQConsumer.connects b && RabbitMQConsumer.createsChannel b &&
     RabbitMQConsumer.assertsQueue b && RabbitMQConsumer.prefetches b &&
     RabbitMQConsumer.consumes b
  then fst outcome = None /\
       RabbitMQConsumer.isConnected s = true
  else fst outcome = Some 1 /\
       RabbitMQConsumer.isConsuming s = false /\
       RabbitMQConsumer.isConnected s = false.
Proof.
  cbv zeta. destruct b as [c1 c2 c3 c4 c5 c6 c7 c8].
  cbn [RabbitMQConsumer.connects RabbitMQConsumer.createsChannel
       RabbitMQConsumer.assertsQueue RabbitMQConsumer.prefetches RabbitMQConsumer.consumes].
  destruct databaseConnects; [|cbn; repeat split].
  destruct c1; [|cbn; repeat split].
  destruct c2; [|cbn; repeat split].
  destruct c3; [|cbn; repeat split].
  destruct c4; [|cbn; repeat split].
  destruct c5; cbn; repeat split.
Qed.

(** X26.  [close] never throws.  On a consumer in any state it can reach,
    when the broker calls it makes return, it leaves connection, channel
    and [isConsuming] cleared, and the calls it has made are, in this
    order, a [cancel] if the consumer was consuming, a close of the channel
    if there was one, and a close of the connection if there was one.  When
    the [cancel] throws on a consuming consumer, the error is swallowed and
    nothing else is done: channel and connection stay open and the consumer
    stays marked as consuming. *)
Theorem close_releases_everything_in_order
    (ops : list RabbitMQConsumer.Operation) (b : RabbitMQConsumer.Broker) :
  let s := RabbitMQConsumer.run ops RabbitMQConsumer.initial in
  let s' := snd (RabbitMQConsumer.close b s) in
  (RabbitMQConsumer.cancels b = true ->
   RabbitMQConsumer.closesChannel b = true ->
   RabbitMQConsumer.closesConnection b = true ->
   RabbitMQConsumer.connection s' = false /\
   RabbitMQConsumer.channel s' = false /\
   RabbitMQConsumer.isConsuming s' = false /\
   RabbitMQConsumer.calls s' =
     (RabbitMQConsumer.calls s ++
      (if RabbitMQConsumer.isConsuming s then [RabbitMQConsumer.Cancel] else []) ++
      (if RabbitMQConsumer.channel s then [RabbitMQConsumer.ChannelClose] else []) ++
      (if RabbitMQConsumer.connection s then [RabbitMQConsumer.ConnectionClose] else []))%list)
  /\
  (RabbitMQConsumer.cancels b = false ->
   RabbitMQConsumer.isConsuming s = true ->
   RabbitMQConsumer.connection s' = true /\
   RabbitMQConsumer.channel s' = true /\
   RabbitMQConsumer.isConsuming s' = true /\
   RabbitMQConsumer.calls s' = snoc RabbitMQConsumer.Cancel (RabbitMQConsumer.calls s)).
Proof.
  cbv zeta. destruct (run_wellFormed ops _ initial_wellFormed) as (H1 & H2).
  destruct (RabbitMQConsumer.run ops RabbitMQConsumer.initial)
    as [connection channel consuming calls].
  destruct b as [c1 c2 c3 c4 c5 c6 c7 c8]. cbn in *.
  split.
  - intros -> -> ->.
    destruct consuming;
      [pose proof (H1 eq_refl) as Hch; subst channel;
       pose proof (H2 eq_refl) as Hcn; subst connection
      |destruct channel;
       [pose proof (H2 eq_refl) as Hcn; subst connection|destruct connection]];
      cbn; unfold snoc; rewrite <- ?app_assoc, ?app_nil_r; repeat split.
  - intros -> ->. pose proof (H1 eq_refl) as Hch. subst channel.
    pose proof (H2 eq_refl) as Hcn. subst connection. cbn. repeat split.
Qed.

Lemma close_releases_everything_in_order_run :
  let ops := [RabbitMQConsumer.Connect Fixture.healthy;
              RabbitMQConsumer.StartConsuming Fixture.healthy] in
  let s := RabbitMQConsumer.run ops RabbitMQConsumer.initial in
  let s' := snd (RabbitMQConsumer.close Fixture.healthy s) in
  RabbitMQConsumer.isConnected s = true /\
  RabbitMQConsumer.cancels Fixture.healthy = true /\
  RabbitMQConsumer.closesChannel Fixture.healthy = true /\
  RabbitMQConsumer.closesConnection Fixture.healthy = true /\
  RabbitMQConsumer.connection s' = false /\
  RabbitMQConsumer.channel s' = false /\
  RabbitMQConsumer.isConsuming s' = false.
Proof.
  cbv zeta. split; [reflexivity|].
  split; [reflexivity|]. split; [reflexivity|]. split; [reflexivity|].
  destruct (close_releases_everything_in_order
              [RabbitMQConsumer.Connect Fixture.healthy;
               RabbitMQConsumer.StartConsuming Fixture.healthy] Fixture.healthy)
    as (Hclose & _).
  destruct (Hclose eq_refl eq_refl eq_refl) as (Hc & Hch & Hi & _).
  repeat split; assumption.
Defined.

(* ================================================================== *)
(** * Confirmed orders are paid in full *)
(* ================================================================== *)

Lemma saga_payment_stored (env : OrderService.Env) (orderData : CreateOrderRequest.t)
    (w2 w3 w4 : World) (saved : Order.t)
    (pr : ServiceResponse PaymentService.PaymentResponse) :
  paymentsFresh w2 ->
  OrderService.insertOrder env orderData w2 = (Ok saved, w3) ->
  OrderService.processPayment env (customerOf orderData) (Order.orderId saved)
    (productOf orderData) (amountOf orderData) w3 = (Ok pr, w4) ->
  success pr = true ->
  exists pending,
    payments w4 = snoc (completedBy (OrderService.paymentEnv env) pending) (payments w2) /\
    pays (completedBy (OrderService.paymentEnv env) pending) saved.
Proof.
  intros Hfresh Hi Hpay Hpr.
  destruct (insertOrder_inv _ _ _ _ _ Hi)
    as [(e & [=] & _)|(o & [= <-] & Hw3 & _ & _ & _ & _ & Hoc & Hop & Hoa & _)].
  destruct (processPayment_client_cases env orderData saved w3 w4 pr Hpay)
    as [(_ & Hfalse)|(Hw4 & Hfacts)].
  { rewrite Hfalse in Hpr. discriminate Hpr. }
  cbv zeta in Hfacts. destruct (Hfacts Hpr) as (_ & Hvs & _).
  set (charge := chargeFor orderData saved) in *.
  set (w0 := logged (HttpPostPayment charge) w3) in *.
  assert (Hp0 : payments w0 = payments w2) by (unfold w0; rewrite Hw3; reflexivity).
  assert (Hfresh0 : paymentsFresh w0).
  { unfold paymentsFresh, w0. rewrite Hw3. exact Hfresh. }
  destruct (postPayments_outcome (OrderService.paymentEnv env) charge w0 Hfresh0)
    as [(_ & [Hrefused|(_ & Hreply)])|(p & wp & Hjoi & Hins & Hnext & Hcases)];
    cbv zeta in *.
  { destruct (refusal_has_no_data _ _ Hrefused) as (_ & Hst).
    rewrite Hst in Hvs. discriminate Hvs. }
  { rewrite Hreply in Hvs. discriminate Hvs. }
  destruct Hcases as [(_ & _ & Hreply & _)|[(Hstored & _)|(_ & _ & Hreply & _)]];
    try (rewrite Hreply in Hvs; discriminate Hvs).
  destruct (insertPayment_inv _ _ _ _ _ Hins)
    as [(e' & [=] & _)|(p' & [= <-] & _ & _ & _ & _ & Hbc & Hbo & Hbp & Hba & _)].
  cbn in Hbc, Hbo, Hbp, Hba.
  injection Hbc as Hbc. injection Hbo as Hbo. injection Hbp as Hbp.
  unfold amountOf in Hba. rewrite Hoa in Hba. cbn in Hba. apply jsonNumber_some in Hba.
  unfold customerOf in Hbc. rewrite Hoc in Hbc. cbn in Hbc.
  unfold productOf in Hbp. rewrite Hop in Hbp. cbn in Hbp.
  exists p. split; [rewrite Hw4, Hstored, Hp0; reflexivity|].
  unfold pays. cbn. repeat split; symmetry; assumption.
Qed.

Lemma createOrder_paid (env : OrderService.Env) (orderData : CreateOrderRequest.t)
    (w : World) :
  Consistent w -> paidInFull w ->
  paidInFull (snd (OrderService.createOrder env orderData w)).
Proof.
  intros Hw Hpaid.
  pose proof (handle_keeps_payments (System.SubmitOrder env orderData) w Hw) as Hkeep.
  cbn [System.handle] in Hkeep.
  assert (Hold : forall o, In o (orders w) -> Order.orderStatus o = OrderStatus.CONFIRMED ->
            exists p, In p (payments (snd (OrderService.createOrder env orderData w))) /\
                      pays p o).
  { intros o Ho Hst. destruct (Hpaid o Ho Hst) as (p & Hp & Hpays).
    exists p. split; [apply Hkeep, Hp|exact Hpays]. }
  revert Hold.
  destruct (createOrder_outcome env orderData w)
    as [m e Hacc|cv w1 Hacc Hc Hcv|cv w1 pv w2 Hacc Hc Hcv Hp Hpv
       |cv w1 pv w2 e Hacc Hc Hcv Hp Hpv Hi
       |cv w1 pv w2 saved w3 pr w4 Hacc Hc Hcv Hp Hpv Hi Hpay Hpr
       |cv w1 pv w2 saved w3 pr w4 Hacc Hc Hcv Hp Hpv Hi Hpay Hpr];
    intros Hold;
    [exact Hold| | | | |];
    destruct (validateCustomer_inv _ _ _ _ _ Hc) as (Hw1 & _);
    try (destruct (validateProduct_inv _ _ _ _ _ _ Hp) as (Hw2 & _)).
  - intros o Ho. apply Hold. rewrite Hw1 in Ho. exact Ho.
  - intros o Ho. apply Hold. rewrite Hw2, Hw1 in Ho. exact Ho.
  - intros o Ho. apply Hold. rewrite Hw2, Hw1 in Ho. exact Ho.
  - rewrite saveOrder_run in *. cbn [snd] in *. intros o Ho Hst.
    cbn [orders logged withOrders] in Ho.
    rewrite (orders_at_payment env orderData w2 w3 w4 saved pr Hi Hpay) in Ho.
    unfold replaceOrder in Ho. apply in_map_iff in Ho. destruct Ho as (x & Hx & Hin).
    destruct (Order._id x =? Order._id _)%nat eqn:E.
    { subst o. discriminate Hst. }
    subst o. apply In_snoc_inv in Hin. destruct Hin as [Hin| ->].
    + apply Hold; [|exact Hst]. rewrite Hw2, Hw1 in Hin. exact Hin.
    + cbn in E. rewrite Nat.eqb_refl in E. discriminate E.
  - assert (Hfresh2 : paymentsFresh w2).
    { unfold paymentsFresh. rewrite Hw2, Hw1. exact (payments_fresh _ Hw). }
    destruct (saga_payment_stored env orderData w2 w3 w4 saved pr Hfresh2 Hi Hpay Hpr)
      as (pending & Hstored & Hpays).
    rewrite saveOrder_run in *. cbn [snd] in *. intros o Ho Hst.
    cbn [orders payments logged withOrders] in Ho |- *.
    rewrite (orders_at_payment env orderData w2 w3 w4 saved pr Hi Hpay) in Ho.
    unfold replaceOrder in Ho. apply in_map_iff in Ho. destruct Ho as (x & Hx & Hin).
    destruct (Order._id x =? Order._id _)%nat eqn:E.
    { subst o. exists (completedBy (OrderService.paymentEnv env) pending).
      split; [rewrite Hstored; apply In_snoc|]. exact Hpays. }
    subst o. apply In_snoc_inv in Hin. destruct Hin as [Hin| ->].
    + cbn [payments logged withOrders] in Hold. apply Hold; [|exact Hst].
      rewrite Hw2, Hw1 in Hin. exact Hin.
    + cbn in E. rewrite Nat.eqb_refl in E. discriminate E.
Qed.

Lemma handle_paid (r : System.Request) (w : World) :
  Consistent w -> paidInFull w -> paidInFull (System.handle r w).
Proof.
  intros Hw Hpaid. destruct r as [env body|now orderId|env body]; cbn [System.handle].
  - apply createOrder_paid; assumption.
  - destruct (cancelOrder_frame now orderId w) as (Hsame & _).
    intros o Ho Hst. rewrite Hsame. apply Hpaid; [|exact Hst].
    revert Ho Hst. rewrite cancelOrder_run.
    destruct (OrderService.findOne orderId w) as [order|]; [|auto].
    destruct (OrderService.cancellable (Order.orderStatus order)); [|auto].
    cbn [snd orders logged withOrders]. intros Ho Hst.
    apply replaceOrder_In in Ho. destruct Ho as [->|Ho]; [discriminate Hst|exact Ho].
  - destruct (postPayments_frame env body w) as (Ho & _).
    intros o Hin Hst. rewrite Ho in Hin. destruct (Hpaid o Hin Hst) as (p & Hp & Hpays).
    exists p. split; [|exact Hpays].
    apply (postPayments_payments env body w (payments_fresh _ Hw)), Hp.
Qed.

(** X27.  Confirmed orders are paid in full.  In every world of the flow,
    every stored order that is confirmed has a stored Payment that is
    completed and bears the [orderId], the customer, the product and the
    amount of the order: the Payment the saga made for it, which no later
    request changes.  (Charges posted directly by other clients under the
    same [orderId] may exist beside it.) *)
Theorem confirmed_order_is_paid_in_full (requests : list System.Request) (o : Order.t) :
  In o (orders (System.run requests emptyWorld)) ->
  Order.orderStatus o = OrderStatus.CONFIRMED ->
  exists p,
    In p (payments (System.run requests emptyWorld)) /\
    Payment.status p = PaymentStatus.COMPLETED /\
    Payment.orderId p = Order.orderId o /\
    Payment.customerId p = Order.customerId o /\
    Payment.productId p = Order.productId o /\
    Payment.amount p = Order.amount o.
Proof.
  assert (H : forall w, Consistent w -> paidInFull w ->
                        paidInFull (System.run requests w)).
  { induction requests as [|r rest IH]; intros w Hw Hp; [exact Hp|].
    cbn. apply IH; [apply handle_consistent, Hw|apply handle_paid; assumption]. }
  apply (H emptyWorld Consistent_empty). intros x [].
Qed.

Lemma confirmed_order_is_paid_in_full_run :
  let requests :=
    [System.SubmitOrder Sample.happy (Sample.order (Some (JS.Fin (50000 # 1))) None);
     System.CancelOrder 1700000005000 "ORD_UNKNOWN"] in
  exists o p,
    In o (orders (System.run requests emptyWorld)) /\
    Order.orderStatus o = OrderStatus.CONFIRMED /\
    In p (payments (System.run requests emptyWorld)) /\
    Payment.status p = PaymentStatus.COMPLETED /\
    Payment.amount p = Order.amount o.
Proof.
  cbv zeta.
  assert (Hin : exists o,
            In o (orders (System.run
                            [System.SubmitOrder Sample.happy
                               (Sample.order (Some (JS.Fin (50000 # 1))) None);
                             System.CancelOrder 1700000005000 "ORD_UNKNOWN"]
                            emptyWorld)) /\
            Order.orderStatus o = OrderStatus.CONFIRMED)
    by (vm_compute; eexists; split; [left; reflexivity|reflexivity]).
  destruct Hin as (o & Hin & Hst).
  destruct (confirmed_order_is_paid_in_full _ o Hin Hst)
    as (p & Hp & Hps & _ & _ & _ & Hamount).
  exists o, p. repeat split; assumption.
Defined.

(* ================================================================== *)
(** * What the checks at the door guarantee of stored documents *)
(* ================================================================== *)

Lemma intake_valid (orderData : CreateOrderRequest.t) (c p : string) (a : JS.number) :
  intakeAccepts orderData = true ->
  CreateOrderRequest.customerId orderData = Some c ->
  CreateOrderRequest.productId orderData = Some p ->
  CreateOrderRequest.amount orderData = Some a ->
  JS.trim c <> "" /\ JS.trim p <> "" /\ JS.gtb a (JS.Fin 0) = true.
Proof.
  intros Hacc Hc Hp Ha.
  destruct (intake_fields orderData Hacc) as (c' & p' & a' & Hc' & Hp' & Ha' & Hpos).
  rewrite Hc in Hc'. rewrite Hp in Hp'. rewrite Ha in Ha'.
  injection Hc' as <-. injection Hp' as <-. injection Ha' as <-.
  unfold intakeAccepts in Hacc. apply andb_prop in Hacc. destruct Hacc as (Hvalid & _).
  pose proof (proj1 (isValid_true _ _) Hvalid) as Hfields.
  assert (Hblank : forall s, fieldMissing (JS.Str s) = false -> JS.trim s <> "").
  { intros s H. unfold fieldMissing in H. apply orb_false_elim in H.
    destruct H as (_ & H). apply String.eqb_neq, H. }
  split; [|split; [|exact Hpos]].
  - apply Hblank. specialize (Hfields "customerId" (or_introl eq_refl)).
    unfold OrderService.property in Hfields. cbn in Hfields. rewrite Hc in Hfields.
    exact Hfields.
  - apply Hblank. specialize (Hfields "productId" (or_intror (or_introl eq_refl))).
    unfold OrderService.property in Hfields. cbn in Hfields. rewrite Hp in Hfields.
    exact Hfields.
Qed.

Lemma createOrder_valid (env : OrderService.Env) (orderData : CreateOrderRequest.t)
    (w : World) :
  (forall o, In o (orders w) -> validOrder o) ->
  forall o, In o (orders (snd (OrderService.createOrder env orderData w))) -> validOrder o.
Proof.
  intros Hw.
  destruct (createOrder_outcome env orderData w)
    as [m e Hacc|cv w1 Hacc Hc Hcv|cv w1 pv w2 Hacc Hc Hcv Hp Hpv
       |cv w1 pv w2 e Hacc Hc Hcv Hp Hpv Hi
       |cv w1 pv w2 saved w3 pr w4 Hacc Hc Hcv Hp Hpv Hi Hpay Hpr
       |cv w1 pv w2 saved w3 pr w4 Hacc Hc Hcv Hp Hpv Hi Hpay Hpr];
    [exact Hw| | | | |];
    destruct (validateCustomer_inv _ _ _ _ _ Hc) as (Hw1 & _);
    try (destruct (validateProduct_inv _ _ _ _ _ _ Hp) as (Hw2 & _)).
  - rewrite Hw1. exact Hw.
  - rewrite Hw2, Hw1. exact Hw.
  - rewrite Hw2, Hw1. exact Hw.
  - destruct (insertOrder_inv _ _ _ _ _ Hi)
      as [(e & [=] & _)|(x & [= <-] & _ & _ & _ & _ & _ & Hoc & Hop & Hoa & _)].
    pose proof (intake_valid orderData _ _ _ Hacc Hoc Hop Hoa) as Hsaved.
    rewrite saveOrder_run. cbn [snd orders logged withOrders]. intros o Ho.
    rewrite (orders_at_payment env orderData w2 w3 w4 saved pr Hi Hpay) in Ho.
    apply replaceOrder_In in Ho. destruct Ho as [->|Ho]; [exact Hsaved|].
    apply In_snoc_inv in Ho. destruct Ho as [Ho| ->]; [|exact Hsaved].
    apply Hw. rewrite Hw2, Hw1 in Ho. exact Ho.
  - destruct (insertOrder_inv _ _ _ _ _ Hi)
      as [(e & [=] & _)|(x & [= <-] & _ & _ & _ & _ & _ & Hoc & Hop & Hoa & _)].
    pose proof (intake_valid orderData _ _ _ Hacc Hoc Hop Hoa) as Hsaved.
    rewrite saveOrder_run. cbn [snd orders logged withOrders]. intros o Ho.
    rewrite (orders_at_payment env orderData w2 w3 w4 saved pr Hi Hpay) in Ho.
    apply replaceOrder_In in Ho. destruct Ho as [->|Ho]; [exact Hsaved|].
    apply In_snoc_inv in Ho. destruct Ho as [Ho| ->]; [|exact Hsaved].
    apply Hw. rewrite Hw2, Hw1 in Ho. exact Ho.
Qed.

Lemma handle_valid_orders (r : System.Request) (w : World) :
  (forall o, In o (orders w) -> validOrder o) ->
  forall o, In o (orders (System.handle r w)) -> validOrder o.
Proof.
  intros Hw. destruct r as [env body|now orderId|env body]; cbn [System.handle].
  - apply createOrder_valid, Hw.
  - rewrite cancelOrder_run.
    destruct (OrderService.findOne orderId w) as [order|] eqn:Hfind; [|exact Hw].
    destruct (OrderService.cancellable (Order.orderStatus order)); [|exact Hw].
    cbn [snd orders logged withOrders]. intros o Ho.
    apply replaceOrder_In in Ho. destruct Ho as [->|Ho]; [|apply Hw, Ho].
    destruct (findOne_orderId _ _ _ Hfind) as (Hin & _). exact (Hw order Hin).
  - destruct (postPayments_frame env body w) as (Ho & _). rewrite Ho. exact Hw.
Qed.

(** X28.  What the intake guarantees of stored orders.  In every world of
    the flow, every stored order has a [customerId] and a [productId] that
    are not blank and an amount greater than 0 (an infinite amount
    included): nothing reaches the order collection without having passed
    the two intake checks of [createOrder]. *)
Theorem stored_order_passed_the_intake (requests : list System.Request) (o : Order.t) :
  In o (orders (System.run requests emptyWorld)) ->
  JS.trim (Order.customerId o) <> "" /\
  JS.trim (Order.productId o) <> "" /\
  JS.gtb (Order.amount o) (JS.Fin 0) = true.
Proof.
  assert (H : forall w, (forall x, In x (orders w) -> validOrder x) ->
                        forall x, In x (orders (System.run requests w)) -> validOrder x).
  { induction requests as [|r rest IH]; intros w Hw; [exact Hw|].
    cbn. apply IH, handle_valid_orders, Hw. }
  apply (H emptyWorld). intros x [].
Qed.

Lemma stored_order_passed_the_intake_run :
  let requests :=
    [System.SubmitOrder Sample.happy (Sample.order (Some JS.PosInf) None)] in
  exists o,
    In o (orders (System.run requests emptyWorld)) /\
    Order.amount o = JS.PosInf /\
    JS.gtb (Order.amount o) (JS.Fin 0) = true.
Proof.
  cbv zeta.
  assert (Hin : exists o,
            In o (orders (System.run
                            [System.SubmitOrder Sample.happy
                               (Sample.order (Some JS.PosInf) None)]
                            emptyWorld)) /\
            Order.amount o = JS.PosInf)
    by (vm_compute; eexists; split; [left; reflexivity|reflexivity]).
  destruct Hin as (o & Hin & Hamount).
  destruct (stored_order_passed_the_intake _ o Hin) as (_ & _ & Hpos).
  exists o. repeat split; assumption.
Defined.

Lemma postPayments_valid (env : PaymentService.Env) (body : PaymentRequest.t) (w : World) :
  paymentsFresh w ->
  (forall p, In p (payments w) -> validPayment p) ->
  forall p, In p (payments (snd (PaymentService.postPayments env body w))) ->
            validPayment p.
Proof.
  intros Hfresh Hw.
  destruct (postPayments_outcome env body w Hfresh)
    as [((Hsame & _) & _)|(pending & w1 & Hjoi & Hins & Hnext & Hcases)];
    cbv zeta in *.
  { rewrite Hsame. exact Hw. }
  destruct (createPaymentSchema_nil body (validateCreatePayment_accepts body Hjoi))
    as (Hc & Ho & Hp & Ha & _).
  destruct (insertPayment_inv _ _ _ _ _ Hins)
    as [(e' & [=] & _)|(p' & [= <-] & _ & _ & _ & _ & Hbc & Hbo & Hbp & Hba & _)].
  rewrite Hbc in Hc. rewrite Hbo in Ho. rewrite Hbp in Hp. rewrite Hba in Ha.
  destruct (joiString_inv _ Hc) as (c & [= <-] & Hcne).
  destruct (joiString_inv _ Ho) as (o & [= <-] & Hone).
  destruct (joiString_inv _ Hp) as (x & [= <-] & Hxne).
  destruct (joiAmount_inv _ Ha) as (q & [= Hq] & Hmin & Hmax).
  assert (Hpending : validPayment pending).
  { repeat split; try assumption. exists q. repeat split; assumption. }
  assert (Hstored : forall stored,
            payments (snd (PaymentService.postPayments env body w))
              = snoc stored (payments w) ->
            validPayment stored ->
            forall p, In p (payments (snd (PaymentService.postPayments env body w))) ->
                      validPayment p).
  { intros stored Heq Hs p Hin. rewrite Heq in Hin. apply In_snoc_inv in Hin.
    destruct Hin as [Hin| ->]; [apply Hw, Hin|exact Hs]. }
  destruct Hcases as [(Hpay & _)|[(Hpay & _)|(Hpay & _)]];
    apply (Hstored _ Hpay); exact Hpending.
Qed.

Lemma handle_valid_payments (r : System.Request) (w : World) :
  Consistent w ->
  (forall p, In p (payments w) -> validPayment p) ->
  forall p, In p (payments (System.handle r w)) -> validPayment p.
Proof.
  intros Hcons Hw. pose proof (payments_fresh _ Hcons) as Hfresh.
  destruct r as [env body|now orderId|env body]; cbn [System.handle].
  - destruct (createOrder_ledger_cases env body w)
      as [(Hsame & _)|(charge & w0 & (Hp0 & Hn0 & _) & (Hp' & _))].
    + rewrite Hsame. exact Hw.
    + rewrite Hp'. apply postPayments_valid.
      * unfold paymentsFresh. rewrite Hp0, Hn0. exact Hfresh.
      * rewrite Hp0. exact Hw.
  - destruct (cancelOrder_frame now orderId w) as (Hsame & _). rewrite Hsame. exact Hw.
  - apply postPayments_valid; assumption.
Qed.

(** X29.  What the schema of the payment route guarantees of stored
    payments.  In every world of the flow, every stored Payment (pending,
    completed or failed) has a non-empty [customerId], [orderId] and
    [productId] and a finite amount of at least 0.01 within the
    safe-integer range: no charge reaches the payment collection, from the
    order service or from any other client, without having passed
    [validateCreatePayment]. *)
Theorem stored_payment_passed_the_schema (requests : list System.Request) (p : Payment.t) :
  In p (payments (System.run requests emptyWorld)) ->
  Payment.customerId p <> "" /\
  Payment.orderId p <> "" /\
  Payment.productId p <> "" /\
  exists q, Payment.amount p = JS.Fin q /\
            Qle (1 # 100) q /\ Qle q PaymentService.maxSafeInteger.
Proof.
  assert (H : forall w, Consistent w -> (forall x, In x (payments w) -> validPayment x) ->
                        forall x, In x (payments (System.run requests w)) -> validPayment x).
  { induction requests as [|r rest IH]; intros w Hcons Hw; [exact Hw|].
    cbn. apply IH; [apply handle_consistent, Hcons|].
    apply handle_valid_payments; assumption. }
  apply (H emptyWorld Consistent_empty). intros x [].
Qed.

Lemma stored_payment_passed_the_schema_run :
  let requests :=
    [System.SubmitOrder Sample.declined (Sample.order (Some (JS.Fin (50000 # 1))) None)] in
  exists p,
    In p (payments (System.run requests emptyWorld)) /\
    Payment.status p = PaymentStatus.FAILED /\
    Payment.customerId p <> "".
Proof.
  cbv zeta.
  assert (Hin : exists p,
            In p (payments (System.run
                              [System.SubmitOrder Sample.declined
                                 (Sample.order (Some (JS.Fin (50000 # 1))) None)]
                              emptyWorld)) /\
            Payment.status p = PaymentStatus.FAILED)
    by (vm_compute; eexists; split; [left; reflexivity|reflexivity]).
  destruct Hin as (p & Hin & Hst).
  destruct (stored_payment_passed_the_schema _ p Hin) as (Hc & _).
  exists p. repeat split; assumption.
Defined.

(* ================================================================== *)
(** * Settlements and the channel of the consumer object *)
(* ================================================================== *)

Lemma insertHistory_withSettled (now : N) (data : TransactionWorker.RawData)
    (s : TransactionWorker.Store) (l : list TransactionWorker.Settlement) :
  TransactionWorker.insertHistory now data (withSettled l s) =
    (fst (TransactionWorker.insertHistory now data s),
     withSettled l (snd (TransactionWorker.insertHistory now data s))).
Proof.
  unfold TransactionWorker.insertHistory.
  destruct (TransactionWorker.invalidPaths _ _ _ _); [|reflexivity].
  unfold bind, get, throw, modify, ret. cbv beta iota zeta.
  cbn [withSettled TransactionWorker.history TransactionWorker.nextOid
       TransactionHistory.transactionId].
  destruct (existsb _ (TransactionWorker.history s)); reflexivity.
Qed.

Lemma insertHistory_settled (now : N) (data : TransactionWorker.RawData)
    (s : TransactionWorker.Store) :
  TransactionWorker.settled (snd (TransactionWorker.insertHistory now data s))
    = TransactionWorker.settled s.
Proof.
  unfold TransactionWorker.insertHistory.
  destruct (TransactionWorker.invalidPaths _ _ _ _); [|reflexivity].
  unfold bind, get, throw, modify, ret. cbv beta iota zeta.
  destruct (existsb _ (TransactionWorker.history s)); reflexivity.
Qed.

Lemma withSettled_same (s : TransactionWorker.Store) :
  withSettled (TransactionWorker.settled s) s = s.
Proof. destruct s; reflexivity. Qed.

(** What a run records does not depend on the settlements made before. *)
Lemma processMessage_withSettled (now : N) (msg : TransactionWorker.Message)
    (s : TransactionWorker.Store) (l : list TransactionWorker.Settlement) :
  withSettled [] (snd (TransactionWorker.processMessage now msg (withSettled l s)))
    = withSettled [] (snd (TransactionWorker.processMessage now msg s)).
Proof.
  rewrite !processMessage_eq. cbv zeta.
  destruct (TransactionWorker.content msg) as [e|data].
  { destruct (JS.includes _ e); reflexivity. }
  destruct (TransactionWorker.validateTransactionMessage data); [|reflexivity].
  rewrite insertHistory_withSettled.
  cbn [withSettled TransactionWorker.history].
  destruct (TransactionWorker.insertHistory now data s) as [[doc|e] s1]; cbn [fst snd].
  - destruct (TransactionWorker.transactionId data) as [| |?|?|tx|]; try reflexivity.
    destruct (existsb _ _); reflexivity.
  - destruct (TransactionWorker.transactionId data) as [| |?|?|tx|];
      try (destruct (JS.includes _ e); reflexivity).
    destruct (existsb _ _); [reflexivity|].
    destruct (JS.includes _ e); reflexivity.
Qed.

(** The handler of the consumer object against the handler of a consumer
    whose channel stays: the same records, and the same settlement when the
    channel is still held, none otherwise. *)
Lemma processMessage_on_channel (c : RabbitMQConsumer.t) (now : N)
    (msg : TransactionWorker.Message) (s : TransactionWorker.Store) :
  RabbitMQConsumer.processMessage c now msg s =
    (tt, if RabbitMQConsumer.channel c
         then snd (TransactionWorker.processMessage now msg s)
         else withSettled (TransactionWorker.settled s)
                (snd (TransactionWorker.processMessage now msg s))).
Proof.
  unfold RabbitMQConsumer.processMessage, RabbitMQConsumer.settle.
  destruct (RabbitMQConsumer.channel c).
  { unfold TransactionWorker.processMessage, tryCatch.
    match goal with
    | |- match ?m s with _ => _ end = _ => destruct (m s) as [[[]|e] s1]
    end; [reflexivity|].
    unfold exec. destruct (JS.includes _ e); reflexivity. }
  rewrite processMessage_eq. cbv zeta. unfold tryCatch, bind.
  destruct (TransactionWorker.content msg) as [e|data].
  { unfold throw, exec, ret. destruct (JS.includes _ e); destruct s; reflexivity. }
  unfold ret at 1. cbv beta iota.
  destruct (TransactionWorker.validateTransactionMessage data); cbn [negb];
    [|destruct s; reflexivity].
  unfold TransactionWorker.findOne, bind, get, ret. cbv beta iota.
  pose proof (insertHistory_settled now data s) as Hset.
  assert (Hins :
    (let (r, s') :=
       let (r, s') := TransactionWorker.insertHistory now data s in
       match r with
       | Ok _ => (Ok tt, s')
       | Throw e => (Throw e, s')
       end in
     match r with
     | Ok a => (a, s')
     | Throw e =>
         if JS.includes "productId: Path `productId` is required" e
         then exec (fun s0 : TransactionWorker.Store => (Ok tt, s0)) s'
         else exec (fun s0 : TransactionWorker.Store => (Ok tt, s0)) s'
     end) =
    (tt,
     withSettled (TransactionWorker.settled s)
       (snd
          (let (r, s1) := TransactionWorker.insertHistory now data s in
           match r with
           | Ok _ => (tt, acknowledged (TransactionWorker.deliveryTag msg) s1)
           | Throw e =>
               if JS.includes "productId: Path `productId` is required" e
               then (tt, acknowledged (TransactionWorker.deliveryTag msg) s1)
               else
                 (tt,
                  snd (TransactionWorker.settle
                         (TransactionWorker.Nack
                            (TransactionWorker.deliveryTag msg) false false) s1))
           end)))).
  { destruct (TransactionWorker.insertHistory now data s) as [[doc|e] s1];
      cbn [snd] in Hset; [|unfold exec; destruct (JS.includes _ e)];
      cbn; rewrite <- Hset; destruct s1; reflexivity. }
  destruct (TransactionWorker.transactionId data) as [| |?|?|tx|]; try exact Hins.
  destruct (existsb _ _) eqn:He.
  - destruct (find _ _) eqn:Hf; [destruct s; reflexivity|].
    apply find_none_existsb in Hf. congruence.
  - apply find_none_existsb in He. rewrite He. exact Hins.
Qed.

Lemma consumer_step (c : RabbitMQConsumer.t) (now : N) (msg : TransactionWorker.Message)
    (s : TransactionWorker.Store) (l : list TransactionWorker.Settlement) :
  snd (RabbitMQConsumer.processMessage c now msg (withSettled l s)) =
    withSettled (if RabbitMQConsumer.channel c then snoc (settlementOf msg) l else l)
      (snd (TransactionWorker.processMessage now msg s)).
Proof.
  rewrite processMessage_on_channel. cbn [snd].
  pose proof (processMessage_withSettled now msg s l) as Hrec.
  destruct (processMessage_settles now msg (withSettled l s)) as (Hset & _).
  cbv zeta in Hset. cbn [withSettled TransactionWorker.settled] in Hset |- *.
  destruct (snd (TransactionWorker.processMessage now msg (withSettled l s)))
    as [h1 n1 t1].
  destruct (snd (TransactionWorker.processMessage now msg s)) as [h2 n2 t2].
  cbn in Hrec, Hset |- *. injection Hrec as -> ->. subst t1.
  destruct (RabbitMQConsumer.channel c); reflexivity.
Qed.

Lemma consumer_run (deliveries : list (RabbitMQConsumer.t * (N * TransactionWorker.Message)))
    (s : TransactionWorker.Store) (l : list TransactionWorker.Settlement) :
  RabbitMQConsumer.consume deliveries (withSettled l s) =
    withSettled
      (l ++ map (fun d => settlementOf (snd (snd d))) (filter channelHeld deliveries))%list
      (TransactionWorker.consume (map snd deliveries) s).
Proof.
  revert s l. induction deliveries as [|d rest IH]; intros s l.
  { cbn. rewrite app_nil_r. reflexivity. }
  unfold RabbitMQConsumer.consume, TransactionWorker.consume in *.
  cbn [fold_left map filter]. rewrite consumer_step, IH.
  change (channelHeld d) with (RabbitMQConsumer.channel (fst d)).
  destruct (RabbitMQConsumer.channel (fst d)).
  - cbn [map]. unfold snoc. rewrite <- app_assoc. reflexivity.
  - reflexivity.
Qed.

Lemma close_clears_channel (ops : list RabbitMQConsumer.Operation)
    (b : RabbitMQConsumer.Broker) :
  RabbitMQConsumer.cancels b = true ->
  RabbitMQConsumer.closesChannel b = true ->
  RabbitMQConsumer.channel
    (snd (RabbitMQConsumer.close b (RabbitMQConsumer.run ops RabbitMQConsumer.initial)))
    = false.
Proof.
  destruct (run_wellFormed ops _ initial_wellFormed) as (H1 & H2).
  destruct (RabbitMQConsumer.run ops RabbitMQConsumer.initial)
    as [connection channel consuming calls].
  destruct b as [c1 c2 c3 c4 c5 c6 c7 c8]. cbn in *. intros -> ->.
  destruct consuming;
    [pose proof (H1 eq_refl) as Hch; subst channel;
     pose proof (H2 eq_refl) as Hcn; subst connection
    |destruct channel;
     [pose proof (H2 eq_refl) as Hcn; subst connection|destruct connection]];
    destruct c8; reflexivity.
Qed.

(** X21.  A delivery is settled at most once, and never requeued.  The
    handler writes its audit record first and settles afterwards, on the
    channel the consumer object holds at that moment.  So for a list of
    deliveries handled one at a time, each given with the consumer object
    as its handler finds it:
    - the audit records are those of a consumer whose channel stays, and
      do not depend on the channel: the records stored before are a prefix
      of the records stored after, at most one is added per delivery, each
      with status 'completed';
    - the settlements made are those made before followed by one for each
      delivery whose handler still finds the channel, in the order of
      delivery: an ack when the content parses (recorded, already recorded,
      or malformed), and for content that does not parse an ack when the
      error text mentions the missing [productId] and otherwise a nack
      with [requeue = false];
    - a delivery whose handler finds the channel gone is not settled at
      all, although its record is written; this is the case of a delivery
      still in flight when a [close] whose calls return has ended;
    - while every handler finds the channel, the consumer is the one of
      [TransactionWorker.consume]. *)
Theorem delivery_is_settled_unless_the_channel_is_gone
    (deliveries : list (RabbitMQConsumer.t * (N * TransactionWorker.Message)))
    (s : TransactionWorker.Store) :
  let s' := RabbitMQConsumer.consume deliveries s in
  let reference := TransactionWorker.consume (map snd deliveries) s in
  let made := map (fun d => settlementOf (snd (snd d))) (filter channelHeld deliveries) in
  TransactionWorker.history s' = TransactionWorker.history reference /\
  TransactionWorker.nextOid s' = TransactionWorker.nextOid reference /\
  TransactionWorker.settled s' = (TransactionWorker.settled s ++ made)%list /\
  (forall tag allUpTo requeue,
      In (TransactionWorker.Nack tag allUpTo requeue) made ->
      allUpTo = false /\ requeue = false) /\
  (exists added,
     TransactionWorker.history s' = (TransactionWorker.history s ++ added)%list /\
     length added <= length deliveries /\
     Forall (fun doc => TransactionHistory.status doc = "completed") added) /\
  (forallb channelHeld deliveries = true -> s' = reference) /\
  (forall ops b c now msg,
      RabbitMQConsumer.cancels b = true ->
      RabbitMQConsumer.closesChannel b = true ->
      c = snd (RabbitMQConsumer.close b (RabbitMQConsumer.run ops RabbitMQConsumer.initial)) ->
      snd (RabbitMQConsumer.processMessage c now msg s) =
        withSettled (TransactionWorker.settled s)
          (snd (TransactionWorker.processMessage now msg s))).
Proof.
  cbv zeta.
  pose proof (consumer_run deliveries s (TransactionWorker.settled s)) as Hrun.
  rewrite withSettled_same in Hrun.
  split; [rewrite Hrun; reflexivity|]. split; [rewrite Hrun; reflexivity|].
  split; [rewrite Hrun; reflexivity|]. split; [|split; [|split]].
  - intros tag allUpTo requeue Hin. apply in_map_iff in Hin.
    destruct Hin as (d & Hd & _). unfold settlementOf in Hd.
    destruct (TransactionWorker.content (snd (snd d))) as [e|data]; [|discriminate Hd].
    destruct (JS.includes _ e); [discriminate Hd|].
    injection Hd as _ <- <-. split; reflexivity.
  - rewrite Hrun. cbn [withSettled TransactionWorker.history].
    rewrite <- (length_map snd deliveries).
    generalize (map snd deliveries). clear Hrun. intros ds.
    revert s. induction ds as [|d rest IH]; intros s.
    + exists []. cbn. rewrite app_nil_r. repeat split; constructor.
    + unfold TransactionWorker.consume in *. cbn [fold_left].
      destruct (IH (snd (TransactionWorker.processMessage (fst d) (snd d) s)))
        as (added & Hh & Hlen & Hall).
      destruct (processMessage_settles (fst d) (snd d) s)
        as (_ & [Hsame|(doc & Hdoc & Hst & _)]); cbv zeta in *.
      * exists added. rewrite Hh, Hsame. split; [reflexivity|].
        split; [cbn; lia|exact Hall].
      * exists (doc :: added). rewrite Hh, Hdoc. unfold snoc. rewrite <- app_assoc.
        split; [reflexivity|]. split; [cbn; lia|]. constructor; assumption.
  - intros Hall. rewrite Hrun.
    assert (Hfilter : filter channelHeld deliveries = deliveries).
    { clear Hrun. induction deliveries as [|d rest IH]; [reflexivity|].
      cbn in Hall |- *. apply andb_prop in Hall. destruct Hall as (Hd & Hrest).
      rewrite Hd, (IH Hrest). reflexivity. }
    rewrite Hfilter.
    assert (Hset : forall ds s0,
              TransactionWorker.settled (TransactionWorker.consume ds s0) =
                (TransactionWorker.settled s0 ++ map (fun d => settlementOf (snd d)) ds)%list).
    { induction ds as [|d rest IH]; intros s0.
      - cbn. rewrite app_nil_r. reflexivity.
      - unfold TransactionWorker.consume in *. cbn [fold_left map]. rewrite IH.
        destruct (processMessage_settles (fst d) (snd d) s0) as (Hs & _).
        cbv zeta in Hs. rewrite Hs. unfold snoc. rewrite <- app_assoc. reflexivity. }
    rewrite <- (map_map snd (fun d => settlementOf (snd d))), <- Hset.
    apply withSettled_same.
  - intros ops b c now msg Hcancel Hclose ->.
    rewrite processMessage_on_channel, (close_clears_channel ops b Hcancel Hclose).
    reflexivity.
Qed.

Lemma delivery_in_flight_at_close_run :
  let started :=
    RabbitMQConsumer.run [RabbitMQConsumer.Connect Fixture.healthy;
                          RabbitMQConsumer.StartConsuming Fixture.healthy]
      RabbitMQConsumer.initial in
  let closed := snd (RabbitMQConsumer.close Fixture.healthy started) in
  let s' :=
    RabbitMQConsumer.consume
      [(started, (1700000003000%N, Sample.transaction 1 "TXN_1" (50000 # 1)));
       (closed, (1700000004000%N, Sample.transaction 2 "TXN_2" (50000 # 1)))]
      TransactionWorker.emptyStore in
  RabbitMQConsumer.channel started = true /\
  RabbitMQConsumer.channel closed = false /\
  map TransactionHistory.transactionId (TransactionWorker.history s') = ["TXN_1"; "TXN_2"] /\
  TransactionWorker.settled s' = [TransactionWorker.Ack 1].
Proof.
  cbv zeta. split; [reflexivity|]. split; [reflexivity|].
  destruct (delivery_is_settled_unless_the_channel_is_gone
              [(RabbitMQConsumer.run [RabbitMQConsumer.Connect Fixture.healthy;
                                      RabbitMQConsumer.StartConsuming Fixture.healthy]
                  RabbitMQConsumer.initial,
                (1700000003000%N, Sample.transaction 1 "TXN_1" (50000 # 1)));
               (snd (RabbitMQConsumer.close Fixture.healthy
                       (RabbitMQConsumer.run
                          [RabbitMQConsumer.Connect Fixture.healthy;
                           RabbitMQConsumer.StartConsuming Fixture.healthy]
                          RabbitMQConsumer.initial)),
                (1700000004000%N, Sample.transaction 2 "TXN_2" (50000 # 1)))]
              TransactionWorker.emptyStore) as (Hh & _ & Hs & _).
  rewrite Hh, Hs. split; vm_compute; reflexivity.
Defined.
